(** * Study Plan Optimizer: the scheduling core of [app.js]

    A shallow embedding of the calendar utilities, the validator, the
    identifier generator, the in-memory store and the task manager
    (add / delete / status change / auto-balance / reschedule), followed
    by the properties of the scheduler.

    Conventions of the embedding.
    - A JavaScript string is a [string]; each [ascii] is one UTF-16 code
      unit in the range U+0000..U+00FF, so [String.length] is [.length].
    - A JavaScript integer number is a [Z].  [NaN] is [None] where a
      function can produce it ([parseInt]).
    - An operation that may [throw] is a function from the world before
      the call to an [outcome] paired with the world after it: a thrown
      error does not restore anything by itself.
    - [AppStorage.save()] talks to the persistence collaborator and never
      writes the in-memory store; it is not part of the world. *)

From Stdlib Require Import ZArith String Ascii List Bool Lia.
From Stdlib Require Import DecimalString DecimalPos DecimalZ Sorted.
From stdpp Require Import list.
Import ListNotations.

Local Open Scope string_scope.
Local Open Scope Z_scope.

(** ** JavaScript strings *)

Module JsString.

Definition code (c : ascii) : Z := Z.of_N (N_of_ascii c).

(** [String.prototype.toLowerCase] on one code unit: A-Z, and the
    Latin-1 capitals U+00C0..U+00DE except the multiplication sign. *)
Definition lowerChar (c : ascii) : ascii :=
  let n := code c in
  if ((65 <=? n) && (n <=? 90)) ||
     ((192 <=? n) && (n <=? 222) && negb (n =? 215))
  then ascii_of_N (Z.to_N (n + 32))
  else c.

Fixpoint toLowerCase (s : string) : string :=
  match s with
  | EmptyString => EmptyString
  | String c r => String (lowerChar c) (toLowerCase r)
  end.

(** WhiteSpace and LineTerminator code units below U+0100:
    TAB, LF, VT, FF, CR, SP and NBSP. *)
Definition isWhiteSpace (c : ascii) : bool :=
  let n := code c in
  ((9 <=? n) && (n <=? 13)) || (n =? 32) || (n =? 160).

Fixpoint trimStart (s : string) : string :=
  match s with
  | EmptyString => EmptyString
  | String c r => if isWhiteSpace c then trimStart r else s
  end.

Fixpoint trimEnd (s : string) : string :=
  match s with
  | EmptyString => EmptyString
  | String c r =>
      match trimEnd r with
      | EmptyString => if isWhiteSpace c then EmptyString else String c EmptyString
      | r' => String c r'
      end
  end.

(** [String.prototype.trim] *)
Definition trim (s : string) : string := trimEnd (trimStart s).

(** [s.length] *)
Definition length (s : string) : Z := Z.of_nat (String.length s).

Fixpoint contains (c : ascii) (s : string) : bool :=
  match s with
  | EmptyString => false
  | String x r => if Ascii.eqb x c then true else contains c r
  end.

(** [Number.MAX_SAFE_INTEGER], 2^53 - 1: up to it, in absolute value,
    every integer is a Number of its own. *)
Definition MAX_SAFE_INTEGER : Z := 9007199254740991.

(** Number::toString for an integer, radix 10: the decimal digits, after
    a minus sign for a negative number.  This is what the source prints
    for the safe integers, where durations, counters and millisecond
    clocks live; beyond them a Number is printed from its shortest
    round-trip digits, and from 1e21 on in exponent notation, which this
    definition does not follow. *)
Definition ofInt (n : Z) : string := NilZero.string_of_int (Z.to_int n).

(** The value of one digit in the given radix, as [parseInt] reads it. *)
Definition digitValue (radix : Z) (c : ascii) : option Z :=
  let n := code c in
  let v := if (48 <=? n) && (n <=? 57) then Some (n - 48)
           else if (97 <=? n) && (n <=? 122) then Some (n - 87)
           else if (65 <=? n) && (n <=? 90) then Some (n - 55)
           else None in
  match v with
  | Some d => if d <? radix then Some d else None
  | None => None
  end.

(** The longest prefix of radix digits; [None] when it is empty. *)
Fixpoint parseDigits (radix : Z) (acc : option Z) (s : string) : option Z :=
  match s with
  | EmptyString => acc
  | String c r =>
      match digitValue radix c with
      | Some d =>
          parseDigits radix
            (Some (match acc with Some a => a * radix + d | None => d end)) r
      | None => acc
      end
  end.

Definition stripSign (s : string) : Z * string :=
  match s with
  | String "-" r => (-1, r)
  | String "+" r => (1, r)
  | _ => (1, s)
  end.

Definition stripHexPrefix (s : string) : Z * string :=
  match s with
  | String "0" (String "x" r) => (16, r)
  | String "0" (String "X" r) => (16, r)
  | _ => (10, s)
  end.

(** [parseInt(s)] with no radix argument; [None] is [NaN].  The result
    is the mathematical integer: it compares with 0 and 1440 as its
    double does, and every value the validator lets through is exact. *)
Definition parseInt (s : string) : option Z :=
  let '(sign, s1) := stripSign (trimStart s) in
  let '(radix, s2) := stripHexPrefix s1 in
  match parseDigits radix None s2 with
  | Some m => Some (sign * m)
  | None => None
  end.

End JsString.

(** ** 1. Configuration *)

Module CONFIG.

Definition DAYS : list string :=
  [ "monday"; "tuesday"; "wednesday"; "thursday"; "friday"; "saturday"; "sunday" ].

Record DayConfig := { dc_id : string; dc_name : string }.

(** The [emoji] field of the source entries is only read by the views. *)
Definition DAYS_CONFIG : list DayConfig :=
  [ {| dc_id := "monday"; dc_name := "Monday" |};
    {| dc_id := "tuesday"; dc_name := "Tuesday" |};
    {| dc_id := "wednesday"; dc_name := "Wednesday" |};
    {| dc_id := "thursday"; dc_name := "Thursday" |};
    {| dc_id := "friday"; dc_name := "Friday" |};
    {| dc_id := "saturday"; dc_name := "Saturday" |};
    {| dc_id := "sunday"; dc_name := "Sunday" |} ].

Module STATUS.
Definition COMPLETED := "completed".
Definition NOT_COMPLETED := "not-completed".
Definition APPROACHING := "approaching".
Definition MISSED := "missed".
End STATUS.

Definition DEFAULT_DAILY_LIMIT : Z := 150.
Definition MAX_TASK_DURATION : Z := 1440.
Definition MAX_TITLE_LENGTH : Z := 100.
Definition MAX_BALANCE_ATTEMPTS : nat := 7.
Definition RESCHEDULE_DAYS_AHEAD : Z := 3.

End CONFIG.

(** ** 2. Utilities *)

Module Utils.

(** [div.textContent = text; return div.innerHTML]: the HTML fragment
    serialisation of one text node escapes ampersand, NBSP, less-than and
    greater-than. *)
Definition escapeChar (c : ascii) : string :=
  let n := JsString.code c in
  if n =? 38 then "&amp;"
  else if n =? 60 then "&lt;"
  else if n =? 62 then "&gt;"
  else if n =? 160 then "&nbsp;"
  else String c EmptyString.

Fixpoint escapeHtml (text : string) : string :=
  match text with
  | EmptyString => EmptyString
  | String c r => escapeChar c ++ escapeHtml r
  end.

(** [Array.prototype.indexOf]: the first position, or -1. *)
Fixpoint indexOf (l : list string) (x : string) : Z :=
  match l with
  | [] => -1
  | y :: r =>
      if String.eqb y x then 0
      else let i := indexOf r x in if i <? 0 then -1 else i + 1
  end.

(** [arr[i]] for an integer [i]; [None] is [undefined]. *)
Definition at_index {A} (l : list A) (i : Z) : option A :=
  if i <? 0 then None else nth_error l (Z.to_nat i).

Definition getDayIndex (dayName : string) : Z :=
  indexOf CONFIG.DAYS (JsString.toLowerCase dayName).

(** JavaScript's [%] truncates towards zero: [Z.rem]. *)
Definition getDayAhead (currentDay : string) (daysAhead : Z) : option string :=
  let idx := getDayIndex currentDay in
  at_index CONFIG.DAYS (Z.rem (idx + daysAhead) (Z.of_nat (List.length CONFIG.DAYS))).

(** [(idx + 1) % 7] lies in 0..6 for every [idx >= -1], so the lookup is
    never [undefined] (lemma [getNextDay_defined] below); the default of
    [nth] is not reachable. *)
Definition getNextDay (currentDay : string) : string :=
  let idx := getDayIndex currentDay in
  nth (Z.to_nat (Z.rem (idx + 1) (Z.of_nat (List.length CONFIG.DAYS))))
      CONFIG.DAYS "undefined".

(** [Math.floor(minutes / 60)] is [Z.div] and [minutes % 60] is [Z.rem]
    on an integer (the quotient is exact on the safe integers). *)
Definition formatTime (minutes : Z) : string :=
  let hours := minutes / 60 in
  let mins := Z.rem minutes 60 in
  if hours >? 0
  then if mins >? 0
       then JsString.ofInt hours ++ "h " ++ JsString.ofInt mins ++ "m"
       else JsString.ofInt hours ++ "h"
  else JsString.ofInt mins ++ "m".

End Utils.

(** ** Regular expressions

    The patterns of the validator, as data, with a matcher by
    derivatives.  [fullMatch] is [test] for a pattern anchored at both
    ends ([^...$]); [search] is [test] for a one-class pattern with no
    anchor. *)

Module Regex.

Inductive re : Type :=
| Never
| Empty
| Class (p : ascii -> bool)
| Seq (r s : re)
| Alt (r s : re)
| Star (r : re).

Fixpoint nullable (r : re) : bool :=
  match r with
  | Never => false
  | Empty => true
  | Class _ => false
  | Seq r s => nullable r && nullable s
  | Alt r s => nullable r || nullable s
  | Star _ => true
  end.

Fixpoint derive (c : ascii) (r : re) : re :=
  match r with
  | Never => Never
  | Empty => Never
  | Class p => if p c then Empty else Never
  | Seq r s =>
      if nullable r then Alt (Seq (derive c r) s) (derive c s)
      else Seq (derive c r) s
  | Alt r s => Alt (derive c r) (derive c s)
  | Star r => Seq (derive c r) (Star r)
  end.

Fixpoint fullMatch (r : re) (s : string) : bool :=
  match s with
  | EmptyString => nullable r
  | String c t => fullMatch (derive c r) t
  end.

(** [x+] *)
Definition plus (r : re) : re := Seq r (Star r).

(** [/[class]/.test(s)]: some code unit of [s] is in the class. *)
Fixpoint search (p : ascii -> bool) (s : string) : bool :=
  match s with
  | EmptyString => false
  | String c t => p c || search p t
  end.

Definition inRange (lo hi : Z) (c : ascii) : bool :=
  (lo <=? JsString.code c) && (JsString.code c <=? hi).

(** [[a-z]], [[A-Z]] and [\d] *)
Definition lower : ascii -> bool := inRange 97 122.
Definition upper : ascii -> bool := inRange 65 90.
Definition digit : ascii -> bool := inRange 48 57.
Definition just (x : ascii) (c : ascii) : bool := Ascii.eqb c x.

End Regex.

(** ** 3. Validation *)

Module Validator.

(** The result object [{valid, error, value}]. *)
Inductive validation (A : Type) : Type :=
| Valid (value : A)
| Invalid (error : string).
Arguments Valid {A} value.
Arguments Invalid {A} error.

(** [/<[^>]*>/.test(s)]: some less-than sign has a greater-than sign
    somewhere after it. *)
Fixpoint htmlRegex_test (s : string) : bool :=
  match s with
  | EmptyString => false
  | String c r =>
      if Ascii.eqb c "<" then JsString.contains ">" r || htmlRegex_test r
      else htmlRegex_test r
  end.

Definition validateTaskTitle (title : string) : validation string :=
  if String.eqb title "" || (JsString.length (JsString.trim title) =? 0)
  then Invalid "Task title is required"
  else if JsString.length title >? CONFIG.MAX_TITLE_LENGTH
  then Invalid ("Title too long (max " ++ JsString.ofInt CONFIG.MAX_TITLE_LENGTH
                ++ " characters)")
  else if htmlRegex_test title
  then Invalid "HTML tags are not allowed"
  else Valid (Utils.escapeHtml (JsString.trim title)).

Definition validateDuration (duration : string) : validation Z :=
  match JsString.parseInt duration with
  | None => Invalid "Duration must be a number"
  | Some num =>
      if num <=? 0 then Invalid "Duration must be positive"
      else if num >? CONFIG.MAX_TASK_DURATION
      then Invalid ("Duration cannot exceed " ++ JsString.ofInt CONFIG.MAX_TASK_DURATION
                    ++ " minutes (24 hours)")
      else Valid num
  end.

(** [validateDuration] applied to a number: [parseInt] first converts
    its argument with ToString. *)
Definition validateDurationNum (duration : Z) : validation Z :=
  validateDuration (JsString.ofInt duration).

(** [/^[a-zA-Z0-9._-]+@[a-zA-Z0-9.-]+\.[a-zA-Z]{2,}$/] *)
Definition emailLocal (c : ascii) : bool :=
  Regex.lower c || Regex.upper c || Regex.digit c
  || Regex.just "." c || Regex.just "_" c || Regex.just "-" c.

Definition emailDomain (c : ascii) : bool :=
  Regex.lower c || Regex.upper c || Regex.digit c || Regex.just "." c || Regex.just "-" c.

Definition emailLetter (c : ascii) : bool := Regex.lower c || Regex.upper c.

Definition emailRegex : Regex.re :=
  Regex.Seq (Regex.plus (Regex.Class emailLocal))
    (Regex.Seq (Regex.Class (Regex.just "@"))
       (Regex.Seq (Regex.plus (Regex.Class emailDomain))
          (Regex.Seq (Regex.Class (Regex.just "."))
             (Regex.Seq (Regex.Class emailLetter)
                (Regex.Seq (Regex.Class emailLetter)
                   (Regex.Star (Regex.Class emailLetter))))))).

Definition validateEmail (email : string) : validation string :=
  if negb (Regex.fullMatch emailRegex email)
  then Invalid "Please enter a valid email address"
  else Valid (JsString.trim (JsString.toLowerCase email)).

Definition validatePassword (password : string) : validation string :=
  if String.eqb password "" || (JsString.length password <? 8)
  then Invalid "Password must be at least 8 characters"
  else
    let hasUpperCase := Regex.search Regex.upper password in
    let hasNumber := Regex.search Regex.digit password in
    if negb hasUpperCase || negb hasNumber
    then Invalid "Password must contain uppercase letter and number"
    else Valid password.

End Validator.
Export Validator(validation, Valid, Invalid).

(** ** 6. The store, the alert surface and the identifier counter *)

Record Task := mkTask {
  id : string;
  title : string;
  duration : Z;
  day : string;
  status : string;
  addedDate : string
}.

(** What [ErrorHandler.showUserError] and [showSuccess] are asked to show
    by the task manager. *)
Inductive Alert : Type :=
| UnableToFit        (** "Unable to fit all tasks. Some days exceed daily limit.", warning *)
| CannotBalance      (** "Cannot balance schedule. Please review your tasks.", warning *)
| RescheduledTo (dayName : string).  (** "Task rescheduled to <dayName>", success *)

(** [AppStorage.studyData], the private [counter] of [IDGenerator] and the
    alerts shown so far (oldest first). *)
Record World := mkWorld {
  tasks : list Task;
  dailyLimit : Z;
  currentSelectedDay : string;
  counter : Z;
  alerts : list Alert
}.

(** The two clock readings an operation takes: [Date.now()] and
    [new Date().toISOString()]. *)
Record Clock := mkClock { now : Z; iso : string }.

Definition set_day (d : string) (t : Task) : Task :=
  mkTask (id t) (title t) (duration t) d (status t) (addedDate t).

Definition set_status (s : string) (t : Task) : Task :=
  mkTask (id t) (title t) (duration t) (day t) s (addedDate t).

Definition with_tasks (ts : list Task) (w : World) : World :=
  mkWorld ts (dailyLimit w) (currentSelectedDay w) (counter w) (alerts w).

(** [AppStorage.studyData.tasks.push(task)] *)
Definition push (t : Task) (w : World) : World :=
  with_tasks (tasks w ++ [t]) w.

Definition showUserError (a : Alert) (w : World) : World :=
  mkWorld (tasks w) (dailyLimit w) (currentSelectedDay w) (counter w) (alerts w ++ [a]).

Definition showSuccess (a : Alert) (w : World) : World := showUserError a w.

(** A call either returns or throws [new Error(message)]. *)
Inductive outcome (A : Type) : Type :=
| Returned (a : A)
| Thrown (message : string).
Arguments Returned {A} a.
Arguments Thrown {A} message.

Definition M (A : Type) : Type := World -> outcome A * World.

(** ** 5. Identifier generator *)

Module IDGenerator.

(** [`task_${Date.now()}_${counter++}`] *)
Definition generate (now : Z) (w : World) : string * World :=
  ("task_" ++ JsString.ofInt now ++ "_" ++ JsString.ofInt (counter w),
   mkWorld (tasks w) (dailyLimit w) (currentSelectedDay w) (counter w + 1) (alerts w)).

Definition reset (w : World) : World :=
  mkWorld (tasks w) (dailyLimit w) (currentSelectedDay w) 1 (alerts w).

Definition getCount (w : World) : Z := counter w.

End IDGenerator.

(** ** 4. Error handler: the log of the last errors *)

Module ErrorHandler.

(** An [Error] object. *)
Module JsError.
Record t := { name : string; message : string; stack : string }.
End JsError.

(** An entry of [errorLogs]. *)
Record ErrorLog := {
  timestamp : string;
  type : string;
  message : string;
  stack : string
}.

(** [logError(error)]; [isoNow] is [new Date().toISOString()]. *)
Definition logError (error : JsError.t) (isoNow : string) (errorLogs : list ErrorLog)
    : list ErrorLog :=
  let errorLog :=
    {| timestamp := isoNow; type := JsError.name error;
       message := JsError.message error; stack := JsError.stack error |} in
  let pushed := (errorLogs ++ [errorLog])%list in
  if (10 <? List.length pushed)%nat then List.tl pushed else pushed.

End ErrorHandler.

(** ** 6. Storage reset *)

Module AppStorage.

(** [reset()]: a fresh [studyData], and [IDGenerator.reset()]. *)
Definition reset (w : World) : World :=
  IDGenerator.reset
    (mkWorld [] CONFIG.DEFAULT_DAILY_LIMIT "" (counter w) (alerts w)).

End AppStorage.

(** [AppStorage] at session start. *)
Definition emptyWorld : World :=
  mkWorld [] CONFIG.DEFAULT_DAILY_LIMIT "" 1 [].

(** ** Array helpers: object references are positions in the store *)

(** [arr.find(p)] as a reference: the first position whose element
    satisfies [p], with the element found there. *)
Fixpoint findRef {A} (p : A -> bool) (l : list A) : option (nat * A) :=
  match l with
  | [] => None
  | x :: r =>
      if p x then Some (O, x)
      else match findRef p r with
           | Some (i, y) => Some (S i, y)
           | None => None
           end
  end.

(** [arr.findIndex(p)]: the first position, or -1. *)
Definition findIndex {A} (p : A -> bool) (l : list A) : Z :=
  match findRef p l with
  | Some (i, _) => Z.of_nat i
  | None => -1
  end.

(** The elements of an array together with their positions. *)
Definition indexed {A} (l : list A) : list (nat * A) :=
  combine (seq 0 (List.length l)) l.

(** [arr.sort(cmp)]: the stable sort (ECMAScript 2019); [a] stays before
    [b] unless [cmp(a, b) > 0]. *)
Fixpoint insertBy {A} (cmp : A -> A -> Z) (x : A) (l : list A) : list A :=
  match l with
  | [] => [x]
  | y :: r => if 0 <? cmp x y then y :: insertBy cmp x r else x :: l
  end.

Definition sortBy {A} (cmp : A -> A -> Z) (l : list A) : list A :=
  List.fold_right (insertBy cmp) [] l.

(** ** 7. Task manager *)

Module TaskManager.

Import CONFIG.

Definition onDayNotMissed (d : string) (t : Task) : bool :=
  String.eqb (day t) d && negb (String.eqb (status t) STATUS.MISSED).

Definition calculateDayTime (dayName : string) (w : World) : Z :=
  List.fold_left (fun sum t => sum + duration t)
    (List.filter (onDayNotMissed (JsString.toLowerCase dayName)) (tasks w)) 0.

Definition getTasksByDay (dayName : string) (w : World) : list Task :=
  List.filter (fun t => String.eqb (day t) (JsString.toLowerCase dayName)) (tasks w).

(** [dayTasks]: references to the tasks of [currentDay] that are not
    missed, in store order. *)
Definition dayTasksOf (currentDay : string) (ts : list Task) : list (nat * Task) :=
  List.filter (fun it => onDayNotMissed currentDay (snd it)) (indexed ts).

(** [(a, b) => b.duration - a.duration] *)
Definition byDurationDesc (a b : nat * Task) : Z :=
  duration (snd b) - duration (snd a).

Definition movable (excess : Z) (it : nat * Task) : bool :=
  String.eqb (status (snd it)) STATUS.NOT_COMPLETED && (duration (snd it) <=? excess).

(** [for (let i = dayTasks.length - 1; i >= 0; i--)] with its [break]:
    the first movable task met from the end of the sorted array. *)
Definition selectTask (excess : Z) (dayTasks : list (nat * Task)) : option (nat * Task) :=
  List.find (movable excess) (rev dayTasks).

(** [task.day = d] through the reference [i]. *)
Definition assignDay (i : nat) (d : string) (ts : list Task) : list Task :=
  alter (set_day d) i ts.

(** The [while (attemptCount < MAX_BALANCE_ATTEMPTS)] loop.  [fuel] is
    the structural argument only; [balanceLoop_fuel] shows that
    [MAX_BALANCE_ATTEMPTS - attemptCount] of it is never used up before
    the guard fails.  Returns the final [attemptCount] and the world. *)
Fixpoint balanceLoop (fuel : nat) (currentDay : string) (attemptCount : nat)
    (w : World) : nat * World :=
  match fuel with
  | O => (attemptCount, w)
  | S fuel' =>
      if negb (attemptCount <? MAX_BALANCE_ATTEMPTS)%nat then (attemptCount, w)
      else
        let totalTime := calculateDayTime currentDay w in
        if totalTime <=? dailyLimit w then (attemptCount, w)
        else
          let excess := totalTime - dailyLimit w in
          let dayTasks := sortBy byDurationDesc (dayTasksOf currentDay (tasks w)) in
          match selectTask excess dayTasks with
          | Some (i, _) =>
              let w' := with_tasks (assignDay i (Utils.getNextDay currentDay) (tasks w)) w in
              balanceLoop fuel' (Utils.getNextDay currentDay) (S attemptCount) w'
          | None => (attemptCount, showUserError UnableToFit w)
          end
  end.

Definition autoBalance (originalDay : string) (w : World) : World :=
  let '(attemptCount, w') :=
    balanceLoop MAX_BALANCE_ATTEMPTS (JsString.toLowerCase originalDay) 0 w in
  if (MAX_BALANCE_ATTEMPTS <=? attemptCount)%nat
  then showUserError CannotBalance w'
  else w'.

(** [originalTask] is the task as the store holds it at the call.  The
    two [TypeError] branches stand for [undefined.toLowerCase()] and
    [undefined.name]; [rescheduleTask_returns] shows neither is taken. *)
Definition rescheduleTask (originalTask : Task) (clk : Clock) : M unit := fun w =>
  match Utils.getDayAhead (day originalTask) RESCHEDULE_DAYS_AHEAD with
  | None => (Thrown "TypeError", w)
  | Some newDay =>
      let '(newId, w1) := IDGenerator.generate (now clk) w in
      let newTask :=
        {| id := newId;
           title := "RESCHEDULED: " ++ title originalTask;
           duration := duration originalTask;
           day := newDay;
           status := STATUS.NOT_COMPLETED;
           addedDate := iso clk |} in
      let w2 := push newTask w1 in
      let w3 := autoBalance newDay w2 in
      match List.find (fun d => String.eqb (dc_id d) newDay) DAYS_CONFIG with
      | None => (Thrown "TypeError", w3)
      | Some d => (Returned tt, showSuccess (RescheduledTo (dc_name d)) w3)
      end
  end.

(** Returns the created task as the store holds it when the call
    returns (the caller gets the reference that was pushed). *)
Definition addTask (title duration day status : string) (clk : Clock) : M Task := fun w =>
  match Validator.validateTaskTitle title with
  | Invalid e => (Thrown e, w)
  | Valid titleValue =>
      match Validator.validateDuration duration with
      | Invalid e => (Thrown e, w)
      | Valid durationValue =>
          let '(newId, w1) := IDGenerator.generate (now clk) w in
          let task :=
            {| id := newId;
               title := titleValue;
               duration := durationValue;
               day := JsString.toLowerCase day;
               status := status;
               addedDate := iso clk |} in
          let w2 := push task w1 in
          let w3 := autoBalance day w2 in
          (Returned (default task (tasks w3 !! List.length (tasks w1))), w3)
      end
  end.

Definition deleteTask (taskId : string) : M bool := fun w =>
  let index := findIndex (fun t => String.eqb (id t) taskId) (tasks w) in
  if -1 <? index
  then (Returned true, with_tasks (delete (Z.to_nat index) (tasks w)) w)
  else (Returned false, w).

Definition updateStatus (taskId newStatus : string) (clk : Clock) : M bool := fun w =>
  match findRef (fun t => String.eqb (id t) taskId) (tasks w) with
  | None => (Thrown "Task not found", w)
  | Some (i, task) =>
      if String.eqb (status task) STATUS.COMPLETED && String.eqb newStatus STATUS.MISSED
      then (Thrown "Completed tasks cannot be marked as missed", w)
      else
        let w1 := with_tasks (alter (set_status newStatus) i (tasks w)) w in
        if String.eqb newStatus STATUS.MISSED
        then match rescheduleTask (set_status newStatus task) clk w1 with
             | (Returned _, w2) => (Returned true, w2)
             | (Thrown e, w2) => (Thrown e, w2)
             end
        else (Returned true, w1)
  end.

Record TaskCounts := {
  total : Z;
  completed : Z;
  notCompleted : Z;
  approaching : Z;
  missed : Z
}.

(** [tasks.filter((t) => t.status === s).length] *)
Definition countStatus (s : string) (w : World) : Z :=
  Z.of_nat (List.length (List.filter (fun t => String.eqb (status t) s) (tasks w))).

Definition getTaskCounts (w : World) : TaskCounts :=
  {| total := Z.of_nat (List.length (tasks w));
     completed := countStatus STATUS.COMPLETED w;
     notCompleted := countStatus STATUS.NOT_COMPLETED w;
     approaching := countStatus STATUS.APPROACHING w;
     missed := countStatus STATUS.MISSED w |}.

End TaskManager.

(** ** Vocabulary of the properties *)

(** The world after a call, whether it returned or threw. *)
Definition after {A} (m : M A) (w : World) : World := snd (m w).

(** The code units [Utils.escapeHtml] rewrites. *)
Definition needsEscape (c : ascii) : bool :=
  let n := JsString.code c in
  (n =? 38) || (n =? 60) || (n =? 62) || (n =? 160).

Fixpoint plainText (s : string) : bool :=
  match s with
  | EmptyString => true
  | String c r => negb (needsEscape c) && plainText r
  end.

(** A task the balancing pass may relocate from [currentDay]: it is on
    that day, not completed, and no longer than the excess. *)
Definition fits (currentDay : string) (excess : Z) (t : Task) : Prop :=
  day t = currentDay /\ status t = CONFIG.STATUS.NOT_COMPLETED /\ duration t <= excess.

(** One pass of the loop body at [currentDay] relocates the task at
    position [i] (and nothing else) to the next day. *)
Definition relocates (currentDay : string) (attemptCount : nat) (w : World)
    (i : nat) (t : Task) : Prop :=
  tasks w !! i = Some t /\
  TaskManager.balanceLoop 1 currentDay attemptCount w =
    (S attemptCount,
     with_tasks (<[i := set_day (Utils.getNextDay currentDay) t]> (tasks w)) w).

(** The weekday that comes right after another one, Monday coming after
    Sunday: what one day forward means, written out pair by pair. *)
Definition dayAfter (a b : string) : Prop :=
  In (a, b)
     [ ("monday", "tuesday"); ("tuesday", "wednesday"); ("wednesday", "thursday");
       ("thursday", "friday"); ("friday", "saturday"); ("saturday", "sunday");
       ("sunday", "monday") ].

(** The order of the sorted [dayTasks] array: longer tasks first, and
    among tasks of one duration the store order. *)
Definition before (a b : nat * Task) : Prop :=
  duration (snd b) < duration (snd a)
  \/ (duration (snd a) = duration (snd b) /\ (fst a < fst b)%nat).

(** References in store order. *)
Definition ascending (l : list (nat * Task)) : Prop :=
  StronglySorted (fun a b => (fst a < fst b)%nat) l.

(** A sequence of day reassignments [task.day = d], applied in order. *)
Definition applyMoves (moves : list (nat * string)) (ts : list Task) : list Task :=
  List.fold_left (fun acc m => TaskManager.assignDay (fst m) (snd m) acc) moves ts.

(** A task with its day blanked: what a relocation cannot change. *)
Definition sansDay (t : Task) : Task := set_day "" t.

(** What a balancing pass may do to one task: nothing but its day
    changes, and a day that changed is a day of the week. *)
Definition rebalanced (t t' : Task) : Prop :=
  sansDay t' = sansDay t /\ (day t' = day t \/ In (day t') CONFIG.DAYS).

(** The public operations of the store. *)
Inductive Op : Type :=
| OpAdd (title duration day status : string) (clk : Clock)
| OpDelete (taskId : string)
| OpUpdate (taskId newStatus : string) (clk : Clock).

Definition perform (o : Op) (w : World) : World :=
  match o with
  | OpAdd title duration day status clk =>
      after (TaskManager.addTask title duration day status clk) w
  | OpDelete taskId => after (TaskManager.deleteTask taskId) w
  | OpUpdate taskId newStatus clk =>
      after (TaskManager.updateStatus taskId newStatus clk) w
  end.

Definition performAll (ops : list Op) (w : World) : World :=
  List.fold_left (fun acc o => perform o acc) ops w.

Definition validTask (t : Task) : Prop :=
  In (day t) CONFIG.DAYS /\ 1 <= duration t <= CONFIG.MAX_TASK_DURATION.

(** The invariant of the data model: valid days, validated durations,
    pairwise distinct identifiers. *)
Definition storeInvariant (w : World) : Prop :=
  Forall validTask (tasks w) /\ List.NoDup (List.map id (tasks w)).

(** The identifier was issued by [IDGenerator.generate] before the
    counter reached [next]. *)
Definition issued (next : Z) (taskId : string) : Prop :=
  exists now c : Z,
    taskId = "task_" ++ JsString.ofInt now ++ "_" ++ JsString.ofInt c /\ c < next.

(** The invariant together with what keeps identifiers distinct: every
    stored identifier was issued below the current counter. *)
Definition wellFormed (w : World) : Prop :=
  storeInvariant w /\ Forall (fun t => issued (counter w) (id t)) (tasks w).

(** Every [addTask] of the sequence names one of the seven days, in any
    letter case. *)
Definition addsNameDays (ops : list Op) : Prop :=
  Forall (fun o => match o with
                   | OpAdd _ _ day _ _ => In (JsString.toLowerCase day) CONFIG.DAYS
                   | _ => True
                   end) ops.

(** The messages of the validator and of the status rules. *)
Definition validationErrors : list string :=
  [ "Task title is required";
    "Title too long (max 100 characters)";
    "HTML tags are not allowed";
    "Duration must be a number";
    "Duration must be positive";
    "Duration cannot exceed 1440 minutes (24 hours)" ].

Definition stateErrors : list string :=
  [ "Task not found"; "Completed tasks cannot be marked as missed" ].

(** What [autoBalance] may do to one task: leave it as it is, or, if it
    is not completed, give it another day of the week. *)
Definition relocated (t t' : Task) : Prop :=
  t' = t
  \/ (status t = CONFIG.STATUS.NOT_COMPLETED
      /\ exists d, In d CONFIG.DAYS /\ t' = set_day d t).

(** The minutes a task adds to the load of day [d]. *)
Definition loadOn (d : string) (t : Task) : Z :=
  if TaskManager.onDayNotMissed d t then duration t else 0.

(** The load of day [d]: the sum that [calculateDayTime] computes, as a
    sum over the whole task list. *)
Definition dayLoad (d : string) (ts : list Task) : Z :=
  List.fold_right (fun t acc => loadOn d t + acc) 0 ts.

(** The non-missed minutes of the seven days together. *)
Definition weekTotal (w : World) : Z :=
  List.fold_right (fun d acc => TaskManager.calculateDayTime d w + acc) 0 CONFIG.DAYS.

(** The minutes of all tasks that are not missed, whatever their day. *)
Definition activeMinutes (ts : list Task) : Z :=
  List.fold_right
    (fun t acc => (if String.eqb (status t) CONFIG.STATUS.MISSED then 0 else duration t) + acc)
    0 ts.

(** The language of a pattern: the strings it matches from end to end. *)
Inductive matches : Regex.re -> string -> Prop :=
| matches_empty : matches Regex.Empty EmptyString
| matches_class p c : p c = true -> matches (Regex.Class p) (String c EmptyString)
| matches_seq r s a b : matches r a -> matches s b -> matches (Regex.Seq r s) (a ++ b)
| matches_alt_l r s a : matches r a -> matches (Regex.Alt r s) a
| matches_alt_r r s a : matches s a -> matches (Regex.Alt r s) a
| matches_star_nil r : matches (Regex.Star r) EmptyString
| matches_star_cons r a b :
    matches r a -> matches (Regex.Star r) b -> matches (Regex.Star r) (a ++ b).

(** Every class of the pattern only admits code units with property [P]. *)
Fixpoint classesWithin (P : ascii -> Prop) (r : Regex.re) : Prop :=
  match r with
  | Regex.Class p => forall c, p c = true -> P c
  | Regex.Seq a b => classesWithin P a /\ classesWithin P b
  | Regex.Alt a b => classesWithin P a /\ classesWithin P b
  | Regex.Star a => classesWithin P a
  | _ => True
  end.

(** Every class of the pattern that admits [c] also admits [f c]. *)
Fixpoint classesKeep (f : ascii -> ascii) (r : Regex.re) : Prop :=
  match r with
  | Regex.Class p => forall c, p c = true -> p (f c) = true
  | Regex.Seq a b => classesKeep f a /\ classesKeep f b
  | Regex.Alt a b => classesKeep f a /\ classesKeep f b
  | Regex.Star a => classesKeep f a
  | _ => True
  end.

Fixpoint allChars (P : ascii -> Prop) (s : string) : Prop :=
  match s with
  | EmptyString => True
  | String c r => P c /\ allChars P r
  end.

(** * Properties *)

(** ** Strings *)

Lemma lowerChar_idem c : JsString.lowerChar (JsString.lowerChar c) = JsString.lowerChar c.
Proof. destruct c as [[] [] [] [] [] [] [] []]; reflexivity. Qed.

Lemma toLowerCase_idem s :
  JsString.toLowerCase (JsString.toLowerCase s) = JsString.toLowerCase s.
Proof. induction s as [|c r IH]; simpl; [reflexivity|]. now rewrite lowerChar_idem, IH. Qed.

Lemma days_lowercase d : In d CONFIG.DAYS -> JsString.toLowerCase d = d.
Proof. simpl. intros H. repeat (destruct H as [<-|H]; [reflexivity|]). destruct H. Qed.

(** ** Calendar utilities *)

Lemma indexOf_cases l x :
  (In x l /\ 0 <= Utils.indexOf l x < Z.of_nat (List.length l)
     /\ Utils.at_index l (Utils.indexOf l x) = Some x)
  \/ (~ In x l /\ Utils.indexOf l x = -1).
Proof.
  induction l as [|y r IH]; simpl.
  - right. split; [tauto | reflexivity].
  - destruct (String.eqb_spec y x) as [->|Hne].
    + left. split; [now left|]. split; [lia | reflexivity].
    + destruct IH as [(Hin & Hrange & Hat) | (Hnin & Hm)].
      * left. split; [now right|].
        destruct (Z.ltb_spec (Utils.indexOf r x) 0) as [Hlt|Hge]; [lia|].
        split; [lia|].
        unfold Utils.at_index in *.
        destruct (Z.ltb_spec (Utils.indexOf r x + 1) 0); [lia|].
        destruct (Z.ltb_spec (Utils.indexOf r x) 0); [lia|].
        replace (Z.to_nat (Utils.indexOf r x + 1)) with (S (Z.to_nat (Utils.indexOf r x))) by lia.
        exact Hat.
      * right. rewrite Hm. simpl. split; [|reflexivity].
        intros [->|H]; [now apply Hne | now apply Hnin].
Qed.

Lemma getDayIndex_range d : -1 <= Utils.getDayIndex d <= 6.
Proof.
  unfold Utils.getDayIndex.
  destruct (indexOf_cases CONFIG.DAYS (JsString.toLowerCase d)) as [(_ & H & _)|(_ & ->)].
  - change (Z.of_nat (List.length CONFIG.DAYS)) with 7 in H. lia.
  - lia.
Qed.

Lemma getNextDay_in_days d : In (Utils.getNextDay d) CONFIG.DAYS.
Proof.
  unfold Utils.getNextDay. pose proof (getDayIndex_range d) as H.
  assert (Hc : Utils.getDayIndex d = -1 \/ Utils.getDayIndex d = 0 \/ Utils.getDayIndex d = 1
               \/ Utils.getDayIndex d = 2 \/ Utils.getDayIndex d = 3 \/ Utils.getDayIndex d = 4
               \/ Utils.getDayIndex d = 5 \/ Utils.getDayIndex d = 6) by lia.
  repeat (destruct Hc as [->|Hc]; [vm_compute; tauto|]). rewrite Hc. vm_compute; tauto.
Qed.


(** Three days ahead is always one of the seven days, also from a day
    name the week does not know. *)
Lemma getDayAhead_reschedule d :
  exists newDay, Utils.getDayAhead d CONFIG.RESCHEDULE_DAYS_AHEAD = Some newDay
                 /\ In newDay CONFIG.DAYS.
Proof.
  unfold Utils.getDayAhead. pose proof (getDayIndex_range d) as H.
  assert (Hc : Utils.getDayIndex d = -1 \/ Utils.getDayIndex d = 0 \/ Utils.getDayIndex d = 1
               \/ Utils.getDayIndex d = 2 \/ Utils.getDayIndex d = 3 \/ Utils.getDayIndex d = 4
               \/ Utils.getDayIndex d = 5 \/ Utils.getDayIndex d = 6) by lia.
  repeat (destruct Hc as [->|Hc]; [eexists; split; [reflexivity | vm_compute; tauto]|]).
  rewrite Hc. eexists; split; [reflexivity | vm_compute; tauto].
Qed.

(** The loop variable [currentDay] is always in lowercase: it starts as
    a [toLowerCase] result and is only ever replaced by a [getNextDay]
    result. *)
Lemma getNextDay_lowercase d :
  JsString.toLowerCase (Utils.getNextDay d) = Utils.getNextDay d.
Proof. apply days_lowercase, getNextDay_in_days. Qed.

Lemma getNextDay_lower d : Utils.getNextDay (JsString.toLowerCase d) = Utils.getNextDay d.
Proof. unfold Utils.getNextDay, Utils.getDayIndex. now rewrite toLowerCase_idem. Qed.

(** C9 (as the code has it): the index of a day name is the position of
    its lowercase form in the week monday..sunday, an integer 0..6, when
    the week has it; otherwise the call returns -1, it does not fail. *)
Theorem getDayIndex_position_or_minus_one : forall dayName : string,
  let token := JsString.toLowerCase dayName in
  (In token CONFIG.DAYS
     /\ 0 <= Utils.getDayIndex dayName <= 6
     /\ Utils.at_index CONFIG.DAYS (Utils.getDayIndex dayName) = Some token)
  \/ (~ In token CONFIG.DAYS /\ Utils.getDayIndex dayName = -1).
Proof.
  intros dayName token. unfold Utils.getDayIndex. fold token.
  destruct (indexOf_cases CONFIG.DAYS token) as [(Hin & Hr & Hat)|(Hnin & Hm)].
  - left. change (Z.of_nat (List.length CONFIG.DAYS)) with 7 in Hr.
    repeat split; try assumption; lia.
  - right. now split.
Qed.

(** C9, the claim as written, fails: for a token the week does not have,
    [getDayIndex] returns the value -1. *)
Lemma getDayIndex_unrecognized_returns :
  ~ In "funday" CONFIG.DAYS /\ Utils.getDayIndex "funday" = -1.
Proof.
  split; [|reflexivity]. simpl. intros H.
  repeat (destruct H as [H|H]; [discriminate H|]). exact H.
Qed.

(** ** Validation *)

Lemma escapeHtml_plain s : plainText s = true -> Utils.escapeHtml s = s.
Proof.
  induction s as [|c r IH]; simpl; [reflexivity|].
  intros H. apply andb_prop in H as [Hc Hr]. rewrite (IH Hr).
  unfold needsEscape in Hc. unfold Utils.escapeChar.
  destruct (JsString.code c =? 38); [discriminate|].
  destruct (JsString.code c =? 60); [discriminate|].
  destruct (JsString.code c =? 62); [discriminate|].
  destruct (JsString.code c =? 160); [discriminate|]. reflexivity.
Qed.

Lemma plainText_no_tag s : plainText s = true -> Validator.htmlRegex_test s = false.
Proof.
  induction s as [|c r IH]; simpl; [reflexivity|].
  intros H. apply andb_prop in H as [Hc Hr].
  destruct (Ascii.eqb_spec c "<") as [->|_]; [discriminate Hc | now apply IH].
Qed.

Lemma trimEnd_head c r :
  JsString.isWhiteSpace c = false ->
  exists r', JsString.trimEnd (String c r) = String c r'.
Proof.
  intros Hc. simpl. destruct (JsString.trimEnd r); rewrite ?Hc; eauto.
Qed.

Lemma trimEnd_idem s : JsString.trimEnd (JsString.trimEnd s) = JsString.trimEnd s.
Proof.
  induction s as [|c r IH]; simpl; [reflexivity|].
  destruct (JsString.trimEnd r) as [|c' r'] eqn:E.
  - destruct (JsString.isWhiteSpace c) eqn:Hc; simpl; [reflexivity | now rewrite Hc].
  - change (JsString.trimEnd (String c (String c' r')))
      with (match JsString.trimEnd (String c' r') with
            | EmptyString => if JsString.isWhiteSpace c then EmptyString else String c EmptyString
            | r'' => String c r''
            end).
    now rewrite IH.
Qed.

Lemma trimStart_head s :
  JsString.trimStart s = EmptyString
  \/ exists c r, JsString.trimStart s = String c r /\ JsString.isWhiteSpace c = false.
Proof.
  induction s as [|c r IH]; simpl; [now left|].
  destruct (JsString.isWhiteSpace c) eqn:Hc; [exact IH | right; eauto].
Qed.

Lemma trim_idem s : JsString.trim (JsString.trim s) = JsString.trim s.
Proof.
  unfold JsString.trim.
  destruct (trimStart_head s) as [->|(c & r & -> & Hc)]; [reflexivity|].
  destruct (trimEnd_head c r Hc) as [r' E]. rewrite E.
  simpl JsString.trimStart. rewrite Hc. rewrite <- E. apply trimEnd_idem.
Qed.

Lemma trimStart_length s : (String.length (JsString.trimStart s) <= String.length s)%nat.
Proof. induction s as [|c r IH]; simpl; [lia|]. destruct (JsString.isWhiteSpace c); simpl; lia. Qed.

Lemma trimEnd_length s : (String.length (JsString.trimEnd s) <= String.length s)%nat.
Proof.
  induction s as [|c r IH]; simpl; [lia|].
  destruct (JsString.trimEnd r); [destruct (JsString.isWhiteSpace c)|]; simpl in *; lia.
Qed.

Lemma trim_length s : JsString.length (JsString.trim s) <= JsString.length s.
Proof.
  unfold JsString.length, JsString.trim.
  pose proof (trimEnd_length (JsString.trimStart s)). pose proof (trimStart_length s). lia.
Qed.

(** What a title the validator accepts looks like. *)
Lemma validateTaskTitle_valid raw v :
  Validator.validateTaskTitle raw = Valid v ->
  JsString.length (JsString.trim raw) <> 0
  /\ JsString.length raw <= CONFIG.MAX_TITLE_LENGTH
  /\ Validator.htmlRegex_test raw = false
  /\ v = Utils.escapeHtml (JsString.trim raw).
Proof.
  unfold Validator.validateTaskTitle.
  destruct (String.eqb raw ""); simpl; [discriminate|].
  destruct (Z.eqb_spec (JsString.length (JsString.trim raw)) 0); [discriminate|].
  destruct (JsString.length raw >? CONFIG.MAX_TITLE_LENGTH) eqn:Hlen; [discriminate|].
  destruct (Validator.htmlRegex_test raw); [discriminate|].
  intros [= <-]. repeat split; try assumption.
  rewrite Z.gtb_ltb in Hlen. apply Z.ltb_ge in Hlen. exact Hlen.
Qed.

Lemma validateDuration_valid raw n :
  Validator.validateDuration raw = Valid n ->
  JsString.parseInt raw = Some n /\ 1 <= n <= CONFIG.MAX_TASK_DURATION.
Proof.
  unfold Validator.validateDuration.
  destruct (JsString.parseInt raw) as [num|]; [|discriminate].
  destruct (Z.leb_spec num 0); [discriminate|].
  destruct (num >? CONFIG.MAX_TASK_DURATION) eqn:Hmax; [discriminate|].
  intros [= <-]. split; [reflexivity|].
  rewrite Z.gtb_ltb in Hmax. apply Z.ltb_ge in Hmax. lia.
Qed.

(** [parseInt(String(n))] is [n] on the whole range of valid durations. *)
Lemma parseInt_ofInt n :
  1 <= n <= CONFIG.MAX_TASK_DURATION -> JsString.parseInt (JsString.ofInt n) = Some n.
Proof.
  intros Hn.
  assert (Hall : List.forallb
            (fun k => match JsString.parseInt (JsString.ofInt (Z.of_nat k)) with
                      | Some m => m =? Z.of_nat k
                      | None => false
                      end) (seq 1 1440) = true) by (vm_compute; reflexivity).
  rewrite forallb_forall in Hall.
  specialize (Hall (Z.to_nat n)).
  rewrite Z2Nat.id in Hall by lia.
  assert (Hin : In (Z.to_nat n) (seq 1 1440)).
  { apply in_seq. unfold CONFIG.MAX_TASK_DURATION in Hn. lia. }
  specialize (Hall Hin).
  destruct (JsString.parseInt (JsString.ofInt n)) as [m|]; [|discriminate].
  apply Z.eqb_eq in Hall. now subst.
Qed.

(** C7 (as the code has it): a title the validator accepted validates
    again to the same value when its trimmed text has none of the code
    units the sanitizer rewrites (ampersand, less-than, greater-than,
    NBSP); a duration the validator accepted always validates again to the
    same integer. *)
Theorem validation_idempotent_on_plain_text :
  (forall raw v : string,
      Validator.validateTaskTitle raw = Valid v ->
      plainText (JsString.trim raw) = true ->
      Validator.validateTaskTitle v = Valid v)
  /\ (forall (raw : string) (n : Z),
      Validator.validateDuration raw = Valid n ->
      Validator.validateDurationNum n = Valid n).
Proof.
  split.
  - intros raw v Hv Hplain.
    apply validateTaskTitle_valid in Hv as (Hne & Hlen & _ & ->).
    rewrite (escapeHtml_plain _ Hplain).
    set (t := JsString.trim raw) in *.
    unfold Validator.validateTaskTitle.
    assert (Ht : JsString.trim t = t) by apply trim_idem.
    rewrite Ht.
    destruct (String.eqb_spec t "") as [E|_].
    { rewrite E in Hne. now elim Hne. }
    destruct (Z.eqb_spec (JsString.length t) 0) as [E|_]; [now elim Hne|]. simpl.
    pose proof (trim_length raw) as Hle. fold t in Hle.
    destruct (JsString.length t >? CONFIG.MAX_TITLE_LENGTH) eqn:Hgt.
    { rewrite Z.gtb_ltb in Hgt. apply Z.ltb_lt in Hgt. lia. }
    rewrite (plainText_no_tag _ Hplain). now rewrite (escapeHtml_plain _ Hplain).
  - intros raw n Hv. apply validateDuration_valid in Hv as (_ & Hn).
    unfold Validator.validateDurationNum, Validator.validateDuration.
    rewrite (parseInt_ofInt n Hn).
    destruct (Z.leb_spec n 0); [lia|].
    destruct (n >? CONFIG.MAX_TASK_DURATION) eqn:Hgt; [|reflexivity].
    rewrite Z.gtb_ltb in Hgt. apply Z.ltb_lt in Hgt. lia.
Qed.

Lemma validation_idempotent_on_plain_text_witness :
  Validator.validateTaskTitle "Read chapter 4" = Valid "Read chapter 4"
  /\ Validator.validateDurationNum 45 = Valid 45.
Proof.
  split.
  - apply (proj1 validation_idempotent_on_plain_text "  Read chapter 4 " "Read chapter 4");
      reflexivity.
  - apply (proj2 validation_idempotent_on_plain_text " 45min" 45); reflexivity.
Defined.

(** C7, the claim as written, fails: the sanitizer escapes the ampersand
    of its own output again. *)
Lemma validateTaskTitle_not_idempotent :
  ~ (forall raw v : string,
        Validator.validateTaskTitle raw = Valid v ->
        Validator.validateTaskTitle v = Valid v).
Proof.
  intros H. specialize (H "Q & A" "Q &amp; A" eq_refl). discriminate H.
Qed.

(** ** Failing calls *)

Lemma dayConfig_found d :
  In d CONFIG.DAYS ->
  exists c, List.find (fun c => String.eqb (CONFIG.dc_id c) d) CONFIG.DAYS_CONFIG = Some c.
Proof.
  simpl. intros H.
  repeat (destruct H as [<-|H]; [eexists; reflexivity|]). destruct H.
Qed.

(** [rescheduleTask] never throws: the target day and its display name
    are always found. *)
Lemma rescheduleTask_returns t clk w :
  exists newDay name,
    Utils.getDayAhead (day t) CONFIG.RESCHEDULE_DAYS_AHEAD = Some newDay
    /\ In newDay CONFIG.DAYS
    /\ TaskManager.rescheduleTask t clk w =
       (Returned tt,
        showSuccess (RescheduledTo name)
          (TaskManager.autoBalance newDay
             (push {| id := fst (IDGenerator.generate (now clk) w);
                      title := "RESCHEDULED: " ++ title t;
                      duration := duration t;
                      day := newDay;
                      status := CONFIG.STATUS.NOT_COMPLETED;
                      addedDate := iso clk |}
                   (snd (IDGenerator.generate (now clk) w))))).
Proof.
  destruct (getDayAhead_reschedule (day t)) as (newDay & Hd & Hin).
  destruct (dayConfig_found newDay Hin) as (c & Hc).
  exists newDay, (CONFIG.dc_name c). split; [exact Hd|]. split; [exact Hin|].
  unfold TaskManager.rescheduleTask. rewrite Hd.
  unfold IDGenerator.generate. cbv beta iota zeta. now rewrite Hc.
Qed.

(** C6: a call of [addTask] or [updateStatus] that throws throws one of
    the validation errors, respectively one of the two state errors, and
    leaves the whole world (task list, daily limit, counter, alerts) as it
    was. *)
Theorem thrown_calls_change_nothing :
  (forall (title duration day status : string) (clk : Clock) (w w' : World) (e : string),
      TaskManager.addTask title duration day status clk w = (Thrown e, w') ->
      In e validationErrors /\ w' = w)
  /\ (forall (taskId newStatus : string) (clk : Clock) (w w' : World) (e : string),
      TaskManager.updateStatus taskId newStatus clk w = (Thrown e, w') ->
      In e stateErrors /\ w' = w).
Proof.
  split.
  - intros title duration day status clk w w' e.
    unfold TaskManager.addTask, Validator.validateTaskTitle, Validator.validateDuration.
    destruct (String.eqb title "" || (JsString.length (JsString.trim title) =? 0)).
    { intros [= <- <-]. split; [simpl; tauto | reflexivity]. }
    destruct (JsString.length title >? CONFIG.MAX_TITLE_LENGTH).
    { intros [= <- <-]. split; [vm_compute; tauto | reflexivity]. }
    destruct (Validator.htmlRegex_test title).
    { intros [= <- <-]. split; [simpl; tauto | reflexivity]. }
    destruct (JsString.parseInt duration) as [num|].
    2:{ intros [= <- <-]. split; [simpl; tauto | reflexivity]. }
    destruct (num <=? 0).
    { intros [= <- <-]. split; [simpl; tauto | reflexivity]. }
    destruct (num >? CONFIG.MAX_TASK_DURATION).
    { intros [= <- <-]. split; [vm_compute; tauto | reflexivity]. }
    simpl. discriminate.
  - intros taskId newStatus clk w w' e.
    unfold TaskManager.updateStatus.
    destruct (findRef _ (tasks w)) as [[i task]|].
    2:{ intros [= <- <-]. split; [simpl; tauto | reflexivity]. }
    destruct (String.eqb (status task) CONFIG.STATUS.COMPLETED
              && String.eqb newStatus CONFIG.STATUS.MISSED).
    { intros [= <- <-]. split; [simpl; tauto | reflexivity]. }
    destruct (String.eqb newStatus CONFIG.STATUS.MISSED); [|discriminate].
    match goal with |- context [TaskManager.rescheduleTask ?t ?c ?x] =>
      destruct (rescheduleTask_returns t c x) as (nd & nm & _ & _ & ->) end.
    discriminate.
Qed.

Lemma thrown_calls_change_nothing_witness :
  (In "Duration must be positive" validationErrors
   /\ mkWorld [mkTask "task_7_1" "Essay" 60 "monday" "completed" "2026-11-03"] 150 "" 2 []
      = mkWorld [mkTask "task_7_1" "Essay" 60 "monday" "completed" "2026-11-03"] 150 "" 2 [])
  /\ (In "Completed tasks cannot be marked as missed" stateErrors
      /\ mkWorld [mkTask "task_7_1" "Essay" 60 "monday" "completed" "2026-11-03"] 150 "" 2 []
         = mkWorld [mkTask "task_7_1" "Essay" 60 "monday" "completed" "2026-11-03"] 150 "" 2 []).
Proof.
  split.
  - apply (proj1 thrown_calls_change_nothing "Notes" "-5" "tuesday" "not-completed"
             (mkClock 8 "2026-11-03")). reflexivity.
  - apply (proj2 thrown_calls_change_nothing "task_7_1" "missed" (mkClock 8 "2026-11-03")).
    reflexivity.
Defined.

(** ** The balancing loop *)

Lemma calculateDayTime_lower d w :
  TaskManager.calculateDayTime (JsString.toLowerCase d) w = TaskManager.calculateDayTime d w.
Proof. unfold TaskManager.calculateDayTime. now rewrite toLowerCase_idem. Qed.

Lemma autoBalance_lower d w :
  TaskManager.autoBalance (JsString.toLowerCase d) w = TaskManager.autoBalance d w.
Proof. unfold TaskManager.autoBalance. now rewrite toLowerCase_idem. Qed.

(** The fuel of [balanceLoop] is never what stops it: once it covers the
    attempts that are left, more fuel changes nothing. *)
Lemma balanceLoop_fuel n : forall extra c k w,
  (CONFIG.MAX_BALANCE_ATTEMPTS <= n + k)%nat ->
  TaskManager.balanceLoop (n + extra) c k w = TaskManager.balanceLoop n c k w.
Proof.
  induction n as [|n IH]; intros extra c k w Hk.
  - destruct extra as [|extra]; [reflexivity|]. simpl.
    destruct (Nat.ltb_spec k CONFIG.MAX_BALANCE_ATTEMPTS) as [Hlt|_]; [|reflexivity].
    simpl in Hk. lia.
  - simpl.
    destruct (negb (k <? CONFIG.MAX_BALANCE_ATTEMPTS)%nat); [reflexivity|].
    destruct (TaskManager.calculateDayTime c w <=? dailyLimit w); [reflexivity|].
    destruct (TaskManager.selectTask _ _) as [[i t]|]; [|reflexivity].
    apply IH. lia.
Qed.

(** What a run of the loop does to the world: a list of single day
    reassignments, one per counted attempt, and possibly one alert. *)
Lemma balanceLoop_moves fuel : forall c k w,
  exists moves w',
    TaskManager.balanceLoop fuel c k w = ((k + List.length moves)%nat, w')
    /\ tasks w' = applyMoves moves (tasks w)
    /\ dailyLimit w' = dailyLimit w
    /\ counter w' = counter w
    /\ currentSelectedDay w' = currentSelectedDay w
    /\ (alerts w' = alerts w \/ alerts w' = (alerts w ++ [UnableToFit])%list)
    /\ (k + List.length moves <= Nat.max k CONFIG.MAX_BALANCE_ATTEMPTS)%nat
    /\ Forall (fun m => In (snd m) CONFIG.DAYS) moves.
Proof.
  induction fuel as [|fuel IH]; intros c k w.
  - exists [], w. simpl. rewrite Nat.add_0_r. repeat split; auto; lia.
  - simpl.
    destruct (Nat.ltb_spec k CONFIG.MAX_BALANCE_ATTEMPTS) as [Hlt|Hge]; simpl.
    2:{ exists [], w. simpl. rewrite Nat.add_0_r. repeat split; auto; lia. }
    destruct (TaskManager.calculateDayTime c w <=? dailyLimit w).
    { exists [], w. simpl. rewrite Nat.add_0_r. repeat split; auto; lia. }
    destruct (TaskManager.selectTask _ _) as [[i t]|].
    + destruct (IH (Utils.getNextDay c) (S k)
                  (with_tasks (TaskManager.assignDay i (Utils.getNextDay c) (tasks w)) w))
        as (moves & w' & Hrun & Hts & Hl & Hc & Hs & Ha & Hb & Hd).
      exists ((i, Utils.getNextDay c) :: moves), w'.
      rewrite Hrun. simpl List.length.
      replace (S k + List.length moves)%nat with (k + S (List.length moves))%nat by lia.
      repeat split; auto; try lia.
      constructor; [apply getNextDay_in_days | exact Hd].
    + exists [], (showUserError UnableToFit w). simpl. rewrite Nat.add_0_r.
      repeat split; auto; lia.
Qed.

Lemma assignDay_length i d ts : List.length (TaskManager.assignDay i d ts) = List.length ts.
Proof. apply length_alter. Qed.

Lemma applyMoves_length moves : forall ts, List.length (applyMoves moves ts) = List.length ts.
Proof.
  induction moves as [|m moves IH]; intros ts; simpl; [reflexivity|].
  unfold applyMoves in IH. rewrite IH. apply assignDay_length.
Qed.

(** C2: [autoBalance] is total, its loop stops within
    [MAX_BALANCE_ATTEMPTS] = 7 passes whatever fuel it is given, and what
    it does to the task list is a sequence of at most 7 single day
    reassignments, one per counted attempt; no task is added or removed. *)
Theorem autoBalance_at_most_seven_relocations :
  forall (originalDay : string) (w : World),
  exists moves : list (nat * string),
    (List.length moves <= 7)%nat
    /\ fst (TaskManager.balanceLoop CONFIG.MAX_BALANCE_ATTEMPTS
              (JsString.toLowerCase originalDay) 0 w) = List.length moves
    /\ tasks (TaskManager.autoBalance originalDay w) = applyMoves moves (tasks w)
    /\ List.length (tasks (TaskManager.autoBalance originalDay w)) = List.length (tasks w)
    /\ (forall extra : nat,
          TaskManager.balanceLoop (CONFIG.MAX_BALANCE_ATTEMPTS + extra)
            (JsString.toLowerCase originalDay) 0 w
          = TaskManager.balanceLoop CONFIG.MAX_BALANCE_ATTEMPTS
              (JsString.toLowerCase originalDay) 0 w).
Proof.
  intros d w.
  destruct (balanceLoop_moves CONFIG.MAX_BALANCE_ATTEMPTS (JsString.toLowerCase d) 0 w)
    as (moves & w' & Hrun & Hts & _ & _ & _ & _ & Hb & _).
  exists moves. change (0 + List.length moves)%nat with (List.length moves) in Hrun, Hb.
  assert (Htasks : tasks (TaskManager.autoBalance d w) = applyMoves moves (tasks w)).
  { unfold TaskManager.autoBalance. rewrite Hrun.
    destruct (CONFIG.MAX_BALANCE_ATTEMPTS <=? List.length moves)%nat; simpl; exact Hts. }
  split; [unfold CONFIG.MAX_BALANCE_ATTEMPTS in Hb; lia|].
  split; [rewrite Hrun; reflexivity|].
  split; [exact Htasks|].
  split; [rewrite Htasks; apply applyMoves_length|].
  intros extra. apply balanceLoop_fuel. lia.
Qed.

Lemma balanceLoop_S fuel c k w :
  TaskManager.balanceLoop (S fuel) c k w =
  if negb (k <? CONFIG.MAX_BALANCE_ATTEMPTS)%nat then (k, w)
  else
    let totalTime := TaskManager.calculateDayTime c w in
    if totalTime <=? dailyLimit w then (k, w)
    else
      match TaskManager.selectTask (totalTime - dailyLimit w)
              (sortBy TaskManager.byDurationDesc (TaskManager.dayTasksOf c (tasks w))) with
      | Some (i, _) =>
          TaskManager.balanceLoop fuel (Utils.getNextDay c) (S k)
            (with_tasks (TaskManager.assignDay i (Utils.getNextDay c) (tasks w)) w)
      | None => (k, showUserError UnableToFit w)
      end.
Proof. reflexivity. Qed.

(** ** Scenario E: a zero daily limit *)

Lemma set_day_set_day d d' t : set_day d (set_day d' t) = set_day d t.
Proof. reflexivity. Qed.

Lemma set_day_same t : set_day (day t) t = t.
Proof. now destruct t. Qed.

Lemma with_tasks_same w : with_tasks (tasks w) w = w.
Proof. now destruct w. Qed.

(** One pass over a day that holds the only task of the store, with a
    zero limit: the task moves on. *)
Lemma zero_limit_step fuel c k t w :
  JsString.toLowerCase c = c ->
  tasks w = [t] -> dailyLimit w = 0 ->
  day t = c -> status t = CONFIG.STATUS.NOT_COMPLETED -> 0 < duration t ->
  (k < CONFIG.MAX_BALANCE_ATTEMPTS)%nat ->
  TaskManager.balanceLoop (S fuel) c k w =
  TaskManager.balanceLoop fuel (Utils.getNextDay c) (S k)
    (with_tasks [set_day (Utils.getNextDay c) t] w).
Proof.
  intros Hlow Hts Hlim Hday Hst Hdur Hk.
  rewrite balanceLoop_S.
  destruct (Nat.ltb_spec k CONFIG.MAX_BALANCE_ATTEMPTS) as [_|Hge]; [|lia].
  cbv beta iota zeta. simpl negb. cbv iota.
  assert (Hon : TaskManager.onDayNotMissed c t = true).
  { unfold TaskManager.onDayNotMissed. now rewrite Hday, String.eqb_refl, Hst. }
  assert (Htot : TaskManager.calculateDayTime c w = duration t).
  { unfold TaskManager.calculateDayTime. rewrite Hts, Hlow. simpl. now rewrite Hon. }
  rewrite Htot, Hlim, Hts.
  destruct (Z.leb_spec (duration t) 0) as [Hle|_]; [lia|].
  unfold TaskManager.dayTasksOf, indexed. simpl. rewrite Hon. simpl.
  unfold TaskManager.selectTask, TaskManager.movable. simpl.
  rewrite Hst. simpl.
  destruct (Z.leb_spec (duration t) (duration t - 0)) as [_|Hgt]; [|lia].
  reflexivity.
Qed.

Lemma zero_limit_steps n : forall fuel c k t w,
  In c CONFIG.DAYS ->
  tasks w = [t] -> dailyLimit w = 0 ->
  day t = c -> status t = CONFIG.STATUS.NOT_COMPLETED -> 0 < duration t ->
  (k + n <= CONFIG.MAX_BALANCE_ATTEMPTS)%nat ->
  TaskManager.balanceLoop (n + fuel) c k w =
  TaskManager.balanceLoop fuel (Nat.iter n Utils.getNextDay c) (k + n)
    (with_tasks [set_day (Nat.iter n Utils.getNextDay c) t] w).
Proof.
  induction n as [|n IH]; intros fuel c k t w Hc Hts Hlim Hday Hst Hdur Hk;
    pose proof (days_lowercase c Hc) as Hc'.
  - simpl. rewrite Nat.add_0_r, <- Hday, set_day_same, <- Hts. now rewrite with_tasks_same.
  - assert (Hiter : Nat.iter n Utils.getNextDay (Utils.getNextDay c)
                    = Nat.iter (S n) Utils.getNextDay c).
    { clear. induction n as [|n IHn]; [reflexivity|]. simpl in *. now rewrite IHn. }
    change (S n + fuel)%nat with (S (n + fuel)).
    rewrite (zero_limit_step (n + fuel) c k t w Hc' Hts Hlim Hday Hst Hdur) by lia.
    rewrite (IH fuel (Utils.getNextDay c) (S k) (set_day (Utils.getNextDay c) t)
               (with_tasks [set_day (Utils.getNextDay c) t] w)
               (getNextDay_in_days c) eq_refl Hlim eq_refl Hst Hdur) by lia.
    rewrite set_day_set_day, Hiter.
    replace (S k + n)%nat with (k + S n)%nat by lia.
    reflexivity.
Qed.

Lemma week_goes_round d : In d CONFIG.DAYS -> Nat.iter 7 Utils.getNextDay d = d.
Proof. simpl. intros H. repeat (destruct H as [<-|H]; [reflexivity|]). destruct H. Qed.

Lemma iter_getNextDay_in_days n d :
  In d CONFIG.DAYS -> In (Nat.iter n Utils.getNextDay d) CONFIG.DAYS.
Proof. destruct n; simpl; [tauto | intros _; apply getNextDay_in_days]. Qed.

Lemma getNextDay_dayAfter d : In d CONFIG.DAYS -> dayAfter d (Utils.getNextDay d).
Proof.
  unfold dayAfter. simpl. intros H.
  repeat (destruct H as [<-|H]; [vm_compute; tauto|]). destruct H.
Qed.

(** C8: with a daily limit of 0 and a store of exactly one task, of
    positive duration and status not-completed, on a day [d] of the week,
    [autoBalance] at [d] moves the task one day forward in each of 7
    passes (from the day it is on to the weekday right after it, Monday
    after Sunday), uses up all 7 attempts, shows the "cannot balance"
    warning and nothing else, and leaves the task 7 days forward of [d],
    that is on [d] again. *)
Theorem zero_limit_single_task_goes_round :
  forall (d : string) (t : Task) (w : World),
    In d CONFIG.DAYS ->
    tasks w = [t] -> dailyLimit w = 0 ->
    day t = d -> status t = CONFIG.STATUS.NOT_COMPLETED -> 0 < duration t ->
    (forall k : nat, (k < 7)%nat ->
        dayAfter (Nat.iter k Utils.getNextDay d) (Nat.iter (S k) Utils.getNextDay d)
        /\ TaskManager.balanceLoop 1 (Nat.iter k Utils.getNextDay d) k
             (with_tasks [set_day (Nat.iter k Utils.getNextDay d) t] w)
           = (S k, with_tasks [set_day (Nat.iter (S k) Utils.getNextDay d) t] w))
    /\ TaskManager.balanceLoop CONFIG.MAX_BALANCE_ATTEMPTS (JsString.toLowerCase d) 0 w
       = (7%nat, with_tasks [set_day (Nat.iter 7 Utils.getNextDay d) t] w)
    /\ Nat.iter 7 Utils.getNextDay d = d
    /\ tasks (TaskManager.autoBalance d w) = [t]
    /\ alerts (TaskManager.autoBalance d w) = (alerts w ++ [CannotBalance])%list.
Proof.
  intros d t w Hd Hts Hlim Hday Hst Hdur.
  assert (Hloop : TaskManager.balanceLoop CONFIG.MAX_BALANCE_ATTEMPTS
                    (JsString.toLowerCase d) 0 w
                  = (7%nat, with_tasks [set_day (Nat.iter 7 Utils.getNextDay d) t] w)).
  { rewrite (days_lowercase d Hd).
    change CONFIG.MAX_BALANCE_ATTEMPTS with (7 + 0)%nat.
    rewrite (zero_limit_steps 7 0 d 0 t w); auto. }
  split; [|split; [exact Hloop | split; [now apply week_goes_round|]]].
  - intros k Hk.
    split; [apply getNextDay_dayAfter; now apply iter_getNextDay_in_days|].
    assert (Hlow : JsString.toLowerCase (Nat.iter k Utils.getNextDay d)
                   = Nat.iter k Utils.getNextDay d).
    { apply days_lowercase. now apply iter_getNextDay_in_days. }
    rewrite (zero_limit_step 0 (Nat.iter k Utils.getNextDay d) k
               (set_day (Nat.iter k Utils.getNextDay d) t)
               (with_tasks [set_day (Nat.iter k Utils.getNextDay d) t] w)
               Hlow eq_refl Hlim eq_refl Hst Hdur)
      by (unfold CONFIG.MAX_BALANCE_ATTEMPTS; lia).
    reflexivity.
  - unfold TaskManager.autoBalance. rewrite Hloop.
    rewrite (week_goes_round d Hd), <- Hday, set_day_same. simpl. now split.
Qed.

Lemma zero_limit_single_task_goes_round_witness :
  let t := mkTask "task_1_1" "Revise" 30 "friday" "not-completed" "2026-11-03" in
  let w := mkWorld [t] 0 "" 2 [] in
  tasks (TaskManager.autoBalance "friday" w) = [t]
  /\ alerts (TaskManager.autoBalance "friday" w) = [CannotBalance].
Proof.
  intros t w.
  apply (zero_limit_single_task_goes_round "friday" t w); try reflexivity.
  simpl; tauto.
Defined.

(** ** Letter case of the day argument *)

(** C10: [addTask] stores the lowercase form of its day argument, and
    [addTask], [calculateDayTime], [getTasksByDay] and [autoBalance] give
    the same result for a day argument and for its lowercase form. *)
Theorem day_argument_case_insensitive :
  forall (day : string) (w : World),
    (forall (title duration status : string) (clk : Clock),
        TaskManager.addTask title duration (JsString.toLowerCase day) status clk w
        = TaskManager.addTask title duration day status clk w)
    /\ TaskManager.calculateDayTime (JsString.toLowerCase day) w
       = TaskManager.calculateDayTime day w
    /\ TaskManager.getTasksByDay (JsString.toLowerCase day) w
       = TaskManager.getTasksByDay day w
    /\ TaskManager.autoBalance (JsString.toLowerCase day) w
       = TaskManager.autoBalance day w
    /\ (forall (title duration status : string) (clk : Clock) (titleValue : string)
               (durationValue : Z),
          Validator.validateTaskTitle title = Valid titleValue ->
          Validator.validateDuration duration = Valid durationValue ->
          after (TaskManager.addTask title duration day status clk) w
          = TaskManager.autoBalance day
              (push {| id := fst (IDGenerator.generate (now clk) w);
                       title := titleValue;
                       duration := durationValue;
                       day := JsString.toLowerCase day;
                       status := status;
                       addedDate := iso clk |}
                    (snd (IDGenerator.generate (now clk) w)))).
Proof.
  intros day w. repeat split.
  - intros title duration status clk. unfold TaskManager.addTask.
    destruct (Validator.validateTaskTitle title); [|reflexivity].
    destruct (Validator.validateDuration duration); [|reflexivity].
    cbv beta iota zeta. unfold IDGenerator.generate. cbv beta iota zeta.
    now rewrite toLowerCase_idem, autoBalance_lower.
  - apply calculateDayTime_lower.
  - unfold TaskManager.getTasksByDay. now rewrite toLowerCase_idem.
  - apply autoBalance_lower.
  - intros title duration status clk tv dv Ht Hd.
    unfold after, TaskManager.addTask. rewrite Ht, Hd. reflexivity.
Qed.

Lemma day_argument_case_insensitive_witness :
  after (TaskManager.addTask "Essay" "90" "ThursDAY" "approaching" (mkClock 17 "2026-11-03"))
        emptyWorld
  = mkWorld [mkTask "task_17_1" "Essay" 90 "thursday" "approaching" "2026-11-03"] 150 "" 2 [].
Proof.
  rewrite (proj2 (proj2 (proj2 (proj2
             (day_argument_case_insensitive "ThursDAY" emptyWorld))))
             "Essay" "90" "approaching" (mkClock 17 "2026-11-03") "Essay" 90
             eq_refl eq_refl).
  reflexivity.
Defined.

(** ** The sorted array of a day and the task the scan selects *)

Lemma indexed_from_lookup {A} (l : list A) : forall s i x,
  In (i, x) (combine (seq s (List.length l)) l) <-> (s <= i)%nat /\ l !! (i - s)%nat = Some x.
Proof.
  induction l as [|y r IH]; intros s i x; simpl.
  - split; [tauto | intros [_ H]; discriminate H].
  - rewrite IH. split.
    + intros [[= <- <-]|[Hle Hl]].
      * split; [lia|]. now rewrite Nat.sub_diag.
      * split; [lia|]. replace (i - s)%nat with (S (i - S s)) by lia. exact Hl.
    + intros [Hle Hl]. destruct (Nat.eq_dec s i) as [->|Hne].
      * rewrite Nat.sub_diag in Hl. simpl in Hl. left. congruence.
      * right. split; [lia|].
        replace (i - s)%nat with (S (i - S s)) in Hl by lia. exact Hl.
Qed.

Lemma indexed_lookup {A} (l : list A) i x : In (i, x) (indexed l) <-> l !! i = Some x.
Proof.
  unfold indexed. rewrite indexed_from_lookup, Nat.sub_0_r. split; [tauto | split; [lia | assumption]].
Qed.

Lemma indexed_ascending (l : list Task) : ascending (indexed l).
Proof.
  unfold ascending, indexed. generalize 0%nat.
  induction l as [|y r IH]; intros s; simpl; constructor; [apply IH|].
  apply List.Forall_forall. intros [i x] Hin. apply indexed_from_lookup in Hin. simpl. lia.
Qed.

Lemma filter_ascending p (l : list (nat * Task)) : ascending l -> ascending (List.filter p l).
Proof.
  unfold ascending. induction 1 as [|x l Hs IH Hall]; simpl; [constructor|].
  destruct (p x); [|exact IH]. constructor; [exact IH|].
  apply List.Forall_forall. intros y Hy. apply filter_In in Hy as [Hy _].
  rewrite List.Forall_forall in Hall. now apply Hall.
Qed.

Lemma insertBy_In {A} (cmp : A -> A -> Z) x z l :
  In z (insertBy cmp x l) <-> z = x \/ In z l.
Proof.
  induction l as [|y r IH]; simpl; [intuition congruence|].
  destruct (0 <? cmp x y); simpl; [rewrite IH|]; intuition congruence.
Qed.

Lemma sortBy_In {A} (cmp : A -> A -> Z) z l : In z (sortBy cmp l) <-> In z l.
Proof.
  induction l as [|x r IH]; simpl; [tauto|].
  rewrite insertBy_In, IH. intuition congruence.
Qed.

Lemma insertBy_before x s :
  StronglySorted before s ->
  Forall (fun y => (fst x < fst y)%nat) s ->
  StronglySorted before (insertBy TaskManager.byDurationDesc x s).
Proof.
  induction 1 as [|y r Hs IH Hall]; intros Hidx; simpl.
  - repeat constructor.
  - apply List.Forall_cons_iff in Hidx as [Hxy Hidx].
    rewrite List.Forall_forall in Hall, Hidx.
    unfold TaskManager.byDurationDesc at 1.
    destruct (Z.ltb_spec 0 (duration (snd y) - duration (snd x))) as [Hlt|Hge].
    + constructor; [apply IH; now apply List.Forall_forall|].
      apply List.Forall_forall. intros z Hz. apply insertBy_In in Hz as [->|Hz].
      * left. lia.
      * now apply Hall.
    + constructor; [now constructor; [|apply List.Forall_forall]|].
      apply List.Forall_forall. intros z [<-|Hz].
      * unfold before. lia.
      * specialize (Hall z Hz). specialize (Hidx z Hz). unfold before in *. lia.
Qed.

(** The sorted array is in [before] order: sorting is stable. *)
Lemma sortBy_before l :
  ascending l -> StronglySorted before (sortBy TaskManager.byDurationDesc l).
Proof.
  unfold ascending. induction 1 as [|x l Hs IH Hall]; simpl; [constructor|].
  apply insertBy_before; [exact IH|].
  apply List.Forall_forall. intros y Hy. apply sortBy_In in Hy.
  rewrite List.Forall_forall in Hall. now apply Hall.
Qed.

Lemma find_app_or {A} (p : A -> bool) l1 l2 :
  List.find p (l1 ++ l2)%list
  = match List.find p l1 with Some x => Some x | None => List.find p l2 end.
Proof. induction l1 as [|x l1 IH]; simpl; [reflexivity|]. now destruct (p x). Qed.

(** Scanning from the end: the element found has only rejected elements
    after it. *)
Lemma find_rev_Some {A} (p : A -> bool) (l : list A) x :
  List.find p (rev l) = Some x ->
  exists l1 l2, l = (l1 ++ x :: l2)%list /\ p x = true /\ Forall (fun y => p y = false) l2.
Proof.
  induction l as [|y r IH]; simpl; [discriminate|].
  rewrite find_app_or. destruct (List.find p (rev r)) as [x'|] eqn:E.
  - intros [= ->]. destruct (IH eq_refl) as (l1 & l2 & -> & Hp & Hall).
    exists (y :: l1), l2. now repeat split.
  - simpl. destruct (p y) eqn:Hy; [|discriminate]. intros [= ->].
    exists [], r. repeat split; [exact Hy|].
    apply List.Forall_forall. intros z Hz.
    destruct (p z) eqn:Hpz; [|reflexivity].
    pose proof (find_none p (rev r) E z) as Hn.
    rewrite Hn in Hpz; [discriminate|]. now apply in_rev in Hz.
Qed.

Lemma find_rev_None {A} (p : A -> bool) (l : list A) x :
  List.find p (rev l) = None -> In x l -> p x = false.
Proof. intros H Hin. apply (find_none p (rev l) H). now apply in_rev in Hin. Qed.

Lemma sorted_prefix_before {A} (R : A -> A -> Prop) l1 x l2 :
  StronglySorted R (l1 ++ x :: l2)%list -> Forall (fun y => R y x) l1.
Proof.
  induction l1 as [|y l1 IH]; simpl; [constructor|].
  intros H. apply StronglySorted_inv in H as [Hs Hall].
  constructor; [|now apply IH].
  rewrite List.Forall_forall in Hall. apply Hall. apply in_or_app. right. now left.
Qed.

Lemma alter_as_insert {A} (f : A -> A) (l : list A) : forall i x,
  l !! i = Some x -> alter f i l = <[i := f x]> l.
Proof.
  induction l as [|y r IH]; intros [|i] x H; try discriminate H; simpl in *.
  - now injection H as ->.
  - f_equal. now apply IH.
Qed.

Lemma fits_selectable c excess j u :
  fits c excess u ->
  TaskManager.onDayNotMissed c u = true /\ TaskManager.movable excess (j, u) = true.
Proof.
  intros (Hd & Hs & Hle). unfold TaskManager.onDayNotMissed, TaskManager.movable. simpl.
  rewrite Hd, Hs, String.eqb_refl. simpl. split; [reflexivity|]. now apply Z.leb_le.
Qed.

Lemma selectable_fits c excess j u :
  TaskManager.onDayNotMissed c u = true -> TaskManager.movable excess (j, u) = true ->
  fits c excess u.
Proof.
  unfold TaskManager.onDayNotMissed, TaskManager.movable, fits. simpl.
  intros H1 H2. apply andb_prop in H1 as [H1 _]. apply andb_prop in H2 as [H2 H3].
  apply String.eqb_eq in H1, H2. apply Z.leb_le in H3. auto.
Qed.

Lemma dayTasks_In c ts i t :
  In (i, t) (sortBy TaskManager.byDurationDesc (TaskManager.dayTasksOf c ts))
  <-> ts !! i = Some t /\ TaskManager.onDayNotMissed c t = true.
Proof.
  rewrite sortBy_In. unfold TaskManager.dayTasksOf. rewrite filter_In, indexed_lookup.
  reflexivity.
Qed.

(** What the scan selects: a task that fits, no longer than any other
    task that fits, and the last in store order among the shortest. *)
Lemma selectTask_smallest c excess ts :
  (exists j u, ts !! j = Some u /\ fits c excess u) ->
  exists i t,
    TaskManager.selectTask excess
      (sortBy TaskManager.byDurationDesc (TaskManager.dayTasksOf c ts)) = Some (i, t)
    /\ ts !! i = Some t
    /\ fits c excess t
    /\ forall j u, ts !! j = Some u -> fits c excess u ->
         duration t <= duration u /\ (duration u = duration t -> (j <= i)%nat).
Proof.
  intros (j0 & u0 & Hl0 & Hf0).
  set (sorted := sortBy TaskManager.byDurationDesc (TaskManager.dayTasksOf c ts)).
  unfold TaskManager.selectTask.
  destruct (List.find (TaskManager.movable excess) (rev sorted)) as [[i t]|] eqn:E.
  - exists i, t. split; [reflexivity|].
    destruct (find_rev_Some _ _ _ E) as (l1 & l2 & Hsplit & Hmov & Hrej).
    assert (Hin : In (i, t) sorted) by (rewrite Hsplit; apply in_or_app; right; now left).
    apply dayTasks_In in Hin as [Hl Hon].
    split; [exact Hl|]. split; [now apply (selectable_fits c excess i)|].
    intros j u Hlu Hfu.
    destruct (fits_selectable c excess j u Hfu) as [Hon' Hmov'].
    assert (Hin' : In (j, u) sorted) by (apply dayTasks_In; now split).
    assert (Hsorted : StronglySorted before sorted).
    { apply sortBy_before, filter_ascending, indexed_ascending. }
    rewrite Hsplit in Hin', Hsorted.
    apply in_app_or in Hin' as [Hin'|[Heq|Hin']].
    + pose proof (sorted_prefix_before _ _ _ _ Hsorted) as Hpre.
      rewrite List.Forall_forall in Hpre. specialize (Hpre _ Hin').
      unfold before in Hpre. simpl in Hpre. lia.
    + injection Heq as -> ->. lia.
    + rewrite List.Forall_forall in Hrej. rewrite (Hrej _ Hin') in Hmov'. discriminate.
  - destruct (fits_selectable c excess j0 u0 Hf0) as [Hon Hmov].
    assert (Hin : In (j0, u0) sorted) by (apply dayTasks_In; now split).
    rewrite (find_rev_None _ _ _ E Hin) in Hmov. discriminate.
Qed.

(** C1 (as the code has it): in a pass of the loop over a day that is
    over the limit and has a not-completed task no longer than the excess,
    exactly one task is relocated to the next day, and it is the shortest
    not-completed task of the day that is no longer than the excess; among
    several shortest ones, the last in store order.  ([currentDay] is in
    lowercase in every pass, see [getNextDay_lowercase].) *)
Theorem autoBalance_relocates_smallest_fitting :
  forall (currentDay : string) (attemptCount : nat) (w : World),
    JsString.toLowerCase currentDay = currentDay ->
    (attemptCount < CONFIG.MAX_BALANCE_ATTEMPTS)%nat ->
    0 < TaskManager.calculateDayTime currentDay w - dailyLimit w ->
    (exists j u, tasks w !! j = Some u
       /\ fits currentDay (TaskManager.calculateDayTime currentDay w - dailyLimit w) u) ->
    exists i t,
      relocates currentDay attemptCount w i t
      /\ fits currentDay (TaskManager.calculateDayTime currentDay w - dailyLimit w) t
      /\ forall j u, tasks w !! j = Some u ->
           fits currentDay (TaskManager.calculateDayTime currentDay w - dailyLimit w) u ->
           duration t <= duration u /\ (duration u = duration t -> (j <= i)%nat).
Proof.
  intros c k w Hlow Hk Hover Hex.
  destruct (selectTask_smallest c _ (tasks w) Hex) as (i & t & Hsel & Hl & Hfit & Hmin).
  exists i, t. split; [|now split].
  split; [exact Hl|].
  rewrite balanceLoop_S.
  destruct (Nat.ltb_spec k CONFIG.MAX_BALANCE_ATTEMPTS) as [_|Hge]; [|lia].
  cbv beta iota zeta. simpl negb. cbv iota.
  destruct (Z.leb_spec (TaskManager.calculateDayTime c w) (dailyLimit w)) as [Hle|_]; [lia|].
  rewrite Hsel. simpl. unfold TaskManager.assignDay.
  now rewrite (alter_as_insert _ _ _ _ Hl).
Qed.

Lemma autoBalance_relocates_smallest_fitting_witness :
  let a := mkTask "task_1_1" "Lecture" 120 "monday" "completed" "2026-11-02" in
  let b := mkTask "task_1_2" "Quiz" 20 "monday" "not-completed" "2026-11-02" in
  let c := mkTask "task_1_3" "Lab" 30 "monday" "not-completed" "2026-11-02" in
  let d := mkTask "task_1_4" "Notes" 20 "monday" "not-completed" "2026-11-02" in
  exists i t,
    relocates "monday" 0 (mkWorld [a; b; c; d] 100 "" 5 []) i t
    /\ fits "monday" 90 t
    /\ forall j u, [a; b; c; d] !! j = Some u -> fits "monday" 90 u ->
         duration t <= duration u /\ (duration u = duration t -> (j <= i)%nat).
Proof.
  intros a b c d.
  apply (autoBalance_relocates_smallest_fitting "monday" 0 (mkWorld [a; b; c; d] 100 "" 5 [])).
  - reflexivity.
  - unfold CONFIG.MAX_BALANCE_ATTEMPTS. lia.
  - reflexivity.
  - exists 2%nat, c. split; [reflexivity|].
    split; [reflexivity | split; [reflexivity | vm_compute; discriminate]].
Defined.

(** C1, the claim as written, fails: the task relocated is not the
    longest one that fits.  Monday holds 120 (completed), 20, 30, 20 with
    a limit of 100; the excess is 90 and the last 20 is moved, not the 30. *)
Lemma autoBalance_does_not_relocate_largest_fitting :
  ~ (forall (currentDay : string) (attemptCount : nat) (w : World),
        JsString.toLowerCase currentDay = currentDay ->
        (attemptCount < CONFIG.MAX_BALANCE_ATTEMPTS)%nat ->
        0 < TaskManager.calculateDayTime currentDay w - dailyLimit w ->
        (exists j u, tasks w !! j = Some u
           /\ fits currentDay (TaskManager.calculateDayTime currentDay w - dailyLimit w) u) ->
        exists i t,
          relocates currentDay attemptCount w i t
          /\ forall j u, tasks w !! j = Some u ->
               fits currentDay (TaskManager.calculateDayTime currentDay w - dailyLimit w) u ->
               duration u <= duration t).
Proof.
  intros H.
  pose (a := mkTask "task_1_1" "Lecture" 120 "monday" "completed" "2026-11-02").
  pose (b := mkTask "task_1_2" "Quiz" 20 "monday" "not-completed" "2026-11-02").
  pose (c := mkTask "task_1_3" "Lab" 30 "monday" "not-completed" "2026-11-02").
  pose (d := mkTask "task_1_4" "Notes" 20 "monday" "not-completed" "2026-11-02").
  assert (Hc : fits "monday" 90 c) by (repeat split; simpl; lia).
  destruct (H "monday" 0%nat (mkWorld [a; b; c; d] 100 "" 5 []) eq_refl) as (i & t & [Hl Hrun] & Hmax).
  - unfold CONFIG.MAX_BALANCE_ATTEMPTS. lia.
  - reflexivity.
  - exists 2%nat, c. split; [reflexivity | exact Hc].
  - specialize (Hmax 2%nat c eq_refl Hc).
    vm_compute in Hrun. simpl in Hl.
    destruct i as [|[|[|[|i]]]]; simpl in Hl; try discriminate Hl;
      injection Hl as <-; try discriminate Hrun.
    simpl in Hmax. lia.
Qed.

(** ** What balancing preserves *)

Lemma rebalanced_refl t : rebalanced t t.
Proof. split; [reflexivity | now left]. Qed.

Lemma rebalanced_trans t1 t2 t3 : rebalanced t1 t2 -> rebalanced t2 t3 -> rebalanced t1 t3.
Proof. intros [E1 D1] [E2 D2]. split; [congruence|]. destruct D2 as [->|D2]; auto. Qed.

Lemma assignDay_rebalanced i d ts :
  In d CONFIG.DAYS -> Forall2 rebalanced ts (TaskManager.assignDay i d ts).
Proof.
  intros Hd. unfold TaskManager.assignDay. apply Forall2_alter_r.
  - apply Forall_Forall2_diag, List.Forall_forall. intros t _. apply rebalanced_refl.
  - intros x y _ _ [E D]. split; [exact E | now right].
Qed.

Lemma applyMoves_rebalanced moves : forall ts,
  Forall (fun m => In (snd m) CONFIG.DAYS) moves ->
  Forall2 rebalanced ts (applyMoves moves ts).
Proof.
  induction moves as [|[i d] moves IH]; intros ts Hm.
  - apply Forall_Forall2_diag, List.Forall_forall. intros t _. apply rebalanced_refl.
  - apply List.Forall_cons_iff in Hm as [Hd Hm].
    change (applyMoves ((i, d) :: moves) ts)
      with (applyMoves moves (TaskManager.assignDay i d ts)).
    apply (Forall2_trans rebalanced rebalanced rebalanced
             ts (TaskManager.assignDay i d ts) _ rebalanced_trans).
    + now apply assignDay_rebalanced.
    + now apply IH.
Qed.

(** [autoBalance] keeps the number and the order of the tasks, and of
    each task everything but possibly the day; it keeps the daily limit
    and the identifier counter. *)
Lemma autoBalance_effect d w :
  Forall2 rebalanced (tasks w) (tasks (TaskManager.autoBalance d w))
  /\ dailyLimit (TaskManager.autoBalance d w) = dailyLimit w
  /\ counter (TaskManager.autoBalance d w) = counter w
  /\ currentSelectedDay (TaskManager.autoBalance d w) = currentSelectedDay w.
Proof.
  unfold TaskManager.autoBalance.
  destruct (balanceLoop_moves CONFIG.MAX_BALANCE_ATTEMPTS (JsString.toLowerCase d) 0 w)
    as (moves & w' & -> & Hts & Hl & Hc & Hs & _ & _ & Hd).
  assert (H : Forall2 rebalanced (tasks w) (tasks w')).
  { rewrite Hts. now apply applyMoves_rebalanced. }
  destruct (CONFIG.MAX_BALANCE_ATTEMPTS <=? 0 + List.length moves)%nat; simpl; auto.
Qed.

Lemma autoBalance_within_limit d w :
  TaskManager.calculateDayTime d w <= dailyLimit w -> TaskManager.autoBalance d w = w.
Proof.
  intros H. unfold TaskManager.autoBalance.
  change CONFIG.MAX_BALANCE_ATTEMPTS with 7%nat. rewrite balanceLoop_S.
  rewrite calculateDayTime_lower. simpl negb. cbv beta iota zeta.
  destruct (Z.leb_spec (TaskManager.calculateDayTime d w) (dailyLimit w)); [reflexivity | lia].
Qed.

Lemma rebalanced_ids l l' : Forall2 rebalanced l l' -> List.map id l' = List.map id l.
Proof.
  induction 1 as [|t t' l l' [E _] _ IH]; simpl; [reflexivity|].
  rewrite IH. f_equal. now injection E.
Qed.

Lemma map_id_set_status s i ts :
  List.map id (alter (set_status s) i ts) = List.map id ts.
Proof.
  revert i. induction ts as [|t ts IH]; intros [|i]; simpl; try reflexivity.
  f_equal. apply IH.
Qed.

Lemma findRef_Some {A} (p : A -> bool) (l : list A) : forall i x,
  findRef p l = Some (i, x) -> l !! i = Some x /\ p x = true.
Proof.
  induction l as [|y r IH]; simpl; [discriminate|]. intros i x.
  destruct (p y) eqn:Hy.
  - intros [= <- <-]. now split.
  - destruct (findRef p r) as [[j z]|]; [|discriminate].
    intros [= <- <-]. now apply IH.
Qed.

(** ** Rescheduling a missed task *)

(** C3 (as the code has it): marking a task that is not completed as
    missed returns and appends exactly one task, with a fresh identifier,
    the title prefixed with "RESCHEDULED: ", the same duration and status
    not-completed, created on the day 3 days ahead of the original task's
    day.  The balancing pass that follows starts at that day and may move
    the new task on: in the store after the call its day is a day of the
    week, and it is the day 3 days ahead whenever that day, with the new
    task on it, is within the daily limit. *)
Theorem missed_task_copy_three_days_ahead :
  forall (taskId : string) (clk : Clock) (w : World) (i : nat) (t : Task),
    findRef (fun x => String.eqb (id x) taskId) (tasks w) = Some (i, t) ->
    status t <> CONFIG.STATUS.COMPLETED ->
    exists (target : string) (w' : World) (copy : Task),
      let created :=
        {| id := fst (IDGenerator.generate (now clk) w);
           title := "RESCHEDULED: " ++ title t;
           duration := duration t;
           day := target;
           status := CONFIG.STATUS.NOT_COMPLETED;
           addedDate := iso clk |} in
      let inserted :=
        push created
          (with_tasks (alter (set_status CONFIG.STATUS.MISSED) i (tasks w))
             (snd (IDGenerator.generate (now clk) w))) in
      Utils.getDayAhead (day t) CONFIG.RESCHEDULE_DAYS_AHEAD = Some target
      /\ TaskManager.updateStatus taskId CONFIG.STATUS.MISSED clk w = (Returned true, w')
      /\ tasks w' = tasks (TaskManager.autoBalance target inserted)
      /\ List.map id (tasks w') = (List.map id (tasks w) ++ [id created])%list
      /\ tasks w' !! List.length (tasks w) = Some copy
      /\ id copy = id created
      /\ title copy = "RESCHEDULED: " ++ title t
      /\ duration copy = duration t
      /\ status copy = CONFIG.STATUS.NOT_COMPLETED
      /\ In (day copy) CONFIG.DAYS
      /\ (TaskManager.calculateDayTime target inserted <= dailyLimit w -> copy = created).
Proof.
  intros taskId clk w i t Hfind Hst.
  set (w1 := with_tasks (alter (set_status CONFIG.STATUS.MISSED) i (tasks w)) w).
  destruct (rescheduleTask_returns (set_status CONFIG.STATUS.MISSED t) clk w1)
    as (target & name & Hd & Hin & Hres).
  set (created := {| id := fst (IDGenerator.generate (now clk) w);
                     title := "RESCHEDULED: " ++ title t;
                     duration := duration t;
                     day := target;
                     status := CONFIG.STATUS.NOT_COMPLETED;
                     addedDate := iso clk |}).
  set (inserted := push created
          (with_tasks (alter (set_status CONFIG.STATUS.MISSED) i (tasks w))
             (snd (IDGenerator.generate (now clk) w)))).
  change (TaskManager.rescheduleTask (set_status CONFIG.STATUS.MISSED t) clk w1
          = (Returned tt, showSuccess (RescheduledTo name)
                            (TaskManager.autoBalance target inserted))) in Hres.
  destruct (autoBalance_effect target inserted) as (Hreb & Hlim & _ & _).
  assert (Hlen : List.length (alter (set_status CONFIG.STATUS.MISSED) i (tasks w))
                 = List.length (tasks w)) by apply length_alter.
  assert (Hnew : tasks inserted !! List.length (tasks w) = Some created).
  { unfold inserted, push. simpl. now apply list_lookup_middle. }
  destruct (Forall2_lookup_l _ _ _ _ _ Hreb Hnew) as (copy & Hcopy & [E D]).
  exists target, (showSuccess (RescheduledTo name) (TaskManager.autoBalance target inserted)), copy.
  cbv zeta. fold created. fold inserted.
  split; [exact Hd|]. split.
  { unfold TaskManager.updateStatus. rewrite Hfind.
    apply String.eqb_neq in Hst. rewrite Hst. simpl andb. cbv iota.
    change (String.eqb CONFIG.STATUS.MISSED CONFIG.STATUS.MISSED) with true. cbv iota.
    fold w1. now rewrite Hres. }
  split; [reflexivity|]. split.
  { simpl tasks at 1. rewrite (rebalanced_ids _ _ Hreb). unfold inserted, push. simpl.
    now rewrite List.map_app, map_id_set_status. }
  split; [exact Hcopy|].
  injection E as E1 E2 E3 E4 E5.
  split; [exact E1|]. split; [exact E2|]. split; [exact E3|]. split; [exact E4|].
  split; [destruct D as [->|D]; [exact Hin | exact D]|].
  intros Hwithin.
  assert (Hwithin' : TaskManager.calculateDayTime target inserted <= dailyLimit inserted)
    by exact Hwithin.
  rewrite (autoBalance_within_limit _ _ Hwithin') in Hcopy. congruence.
Qed.

Lemma missed_task_copy_three_days_ahead_witness :
  let t := mkTask "task_1_1" "Essay" 100 "wednesday" "not-completed" "2026-11-02" in
  let w := mkWorld [t] 150 "" 2 [] in
  exists (target : string) (w' : World) (copy : Task),
    Utils.getDayAhead "wednesday" 3 = Some target
    /\ TaskManager.updateStatus "task_1_1" "missed" (mkClock 9 "2026-11-03") w
       = (Returned true, w')
    /\ tasks w' !! 1%nat = Some copy
    /\ title copy = "RESCHEDULED: Essay"
    /\ day copy = target.
Proof.
  intros t w.
  destruct (missed_task_copy_three_days_ahead "task_1_1" (mkClock 9 "2026-11-03") w 0 t
              eq_refl ltac:(discriminate))
    as (target & w' & copy & Hd & Hup & _ & _ & Hcopy & _ & Htitle & _ & _ & _ & Hday).
  exists target, w', copy.
  split; [exact Hd|]. split; [exact Hup|]. split; [exact Hcopy|]. split; [exact Htitle|].
  rewrite Hday; [reflexivity|].
  injection Hd as <-. vm_compute. discriminate.
Defined.

(** C3, the claim as written, fails: the balancing pass can move the new
    task off the day 3 days ahead within the same call.  Saturday holds a
    completed task of 150 with a limit of 150; the copy of Wednesday's
    missed task of 100 is created on Saturday and ends the call on Sunday. *)
Lemma rescheduled_copy_can_leave_target_day :
  ~ (forall (taskId : string) (clk : Clock) (w : World) (i : nat) (t : Task),
        findRef (fun x => String.eqb (id x) taskId) (tasks w) = Some (i, t) ->
        status t <> CONFIG.STATUS.COMPLETED ->
        exists (target : string) (w' : World) (j : nat) (copy : Task),
          Utils.getDayAhead (day t) CONFIG.RESCHEDULE_DAYS_AHEAD = Some target
          /\ TaskManager.updateStatus taskId CONFIG.STATUS.MISSED clk w = (Returned true, w')
          /\ tasks w' !! j = Some copy
          /\ title copy = "RESCHEDULED: " ++ title t
          /\ duration copy = duration t
          /\ status copy = CONFIG.STATUS.NOT_COMPLETED
          /\ day copy = target).
Proof.
  intros H.
  pose (a := mkTask "task_1_1" "Essay" 100 "wednesday" "not-completed" "2026-11-02").
  pose (b := mkTask "task_1_2" "Exam" 150 "saturday" "completed" "2026-11-02").
  destruct (H "task_1_1" (mkClock 9 "2026-11-03") (mkWorld [a; b] 150 "" 3 []) 0%nat a
              eq_refl ltac:(discriminate))
    as (target & w' & j & copy & Hd & Hup & Hcopy & Htitle & _ & _ & Hday).
  vm_compute in Hd. injection Hd as <-.
  vm_compute in Hup. injection Hup as <-.
  destruct j as [|[|[|j]]]; simpl in Hcopy; try discriminate Hcopy;
    injection Hcopy as <-; try discriminate Htitle; discriminate Hday.
Qed.

(** ** The status change and its side effect *)

(** C5 (as the code has it): [updateStatus] runs the reschedule
    algorithm exactly when the task is found, the new status is missed and
    the status before the call is not completed, whatever else it was, so
    also when it already was missed.  In that case the world after the call
    is the one [rescheduleTask] returns: one task more, the counter one
    higher, a "rescheduled" notice last.  In every other case the call
    throws and changes nothing, or returns having set the status field of
    the task found and nothing else. *)
Theorem updateStatus_reschedules_iff_missed_and_not_completed :
  forall (taskId newStatus : string) (clk : Clock) (w : World),
    let found := findRef (fun x => String.eqb (id x) taskId) (tasks w) in
    (exists (i : nat) (t : Task) (w' : World),
        found = Some (i, t)
        /\ newStatus = CONFIG.STATUS.MISSED
        /\ status t <> CONFIG.STATUS.COMPLETED
        /\ TaskManager.rescheduleTask (set_status newStatus t) clk
             (with_tasks (alter (set_status newStatus) i (tasks w)) w) = (Returned tt, w')
        /\ TaskManager.updateStatus taskId newStatus clk w = (Returned true, w')
        /\ List.length (tasks w') = S (List.length (tasks w))
        /\ counter w' = counter w + 1
        /\ exists (name : string) (shown : list Alert),
             alerts w' = (shown ++ [RescheduledTo name])%list)
    \/ (~ (exists (i : nat) (t : Task),
              found = Some (i, t)
              /\ newStatus = CONFIG.STATUS.MISSED
              /\ status t <> CONFIG.STATUS.COMPLETED)
        /\ ((exists e : string,
                TaskManager.updateStatus taskId newStatus clk w = (Thrown e, w))
            \/ (exists (i : nat) (t : Task),
                  found = Some (i, t)
                  /\ TaskManager.updateStatus taskId newStatus clk w
                     = (Returned true,
                        with_tasks (alter (set_status newStatus) i (tasks w)) w)))).
Proof.
  intros taskId newStatus clk w found.
  unfold TaskManager.updateStatus. fold found.
  destruct found as [[i t]|] eqn:Hfound.
  2:{ right. split; [intros (i & t & H & _); discriminate H|]. left. eauto. }
  destruct (String.eqb_spec newStatus CONFIG.STATUS.MISSED) as [Hns|Hns].
  - destruct (String.eqb_spec (status t) CONFIG.STATUS.COMPLETED) as [Hst|Hst]; simpl andb; cbv iota.
    + right. split; [intros (i' & t' & [= <- <-] & _ & H); now apply H|]. left. eauto.
    + left.
      set (w1 := with_tasks (alter (set_status newStatus) i (tasks w)) w).
      destruct (rescheduleTask_returns (set_status newStatus t) clk w1)
        as (target & name & _ & _ & Hres).
      set (ins := push {| id := fst (IDGenerator.generate (now clk) w1);
                          title := "RESCHEDULED: " ++ title (set_status newStatus t);
                          duration := duration (set_status newStatus t);
                          day := target;
                          status := CONFIG.STATUS.NOT_COMPLETED;
                          addedDate := iso clk |}
                       (snd (IDGenerator.generate (now clk) w1))) in Hres.
      destruct (autoBalance_effect target ins) as (Hreb & _ & Hcnt & _).
      apply Forall2_length in Hreb.
      exists i, t, (showSuccess (RescheduledTo name) (TaskManager.autoBalance target ins)).
      split; [reflexivity|]. split; [exact Hns|]. split; [exact Hst|].
      split; [exact Hres|]. split; [now rewrite Hres|].
      split.
      { change (List.length (tasks (TaskManager.autoBalance target ins))
                = S (List.length (tasks w))).
        rewrite <- Hreb. unfold ins, push. simpl.
        rewrite length_app, length_alter. simpl. lia. }
      split.
      { change (counter (TaskManager.autoBalance target ins) = counter w + 1).
        rewrite Hcnt. reflexivity. }
      exists name, (alerts (TaskManager.autoBalance target ins)). reflexivity.
  - right. split; [intros (i' & t' & _ & H & _); now apply Hns|]. right.
    exists i, t. split; [reflexivity|].
    now rewrite andb_false_r.
Qed.

(** C5, the claim as written, fails: a task that already is missed and
    is marked missed again is rescheduled again; the call does more than
    set the status field. *)
Lemma updateStatus_missed_again_reschedules :
  ~ (forall (taskId newStatus : string) (clk : Clock) (w : World) (i : nat) (t : Task),
        findRef (fun x => String.eqb (id x) taskId) (tasks w) = Some (i, t) ->
        status t = CONFIG.STATUS.MISSED ->
        after (TaskManager.updateStatus taskId newStatus clk) w
        = with_tasks (alter (set_status newStatus) i (tasks w)) w).
Proof.
  intros H.
  specialize (H "task_1_1" "missed" (mkClock 9 "2026-11-03")
                (mkWorld [mkTask "task_1_1" "Essay" 100 "wednesday" "missed" "2026-11-02"]
                         150 "" 2 [])
                0%nat _ eq_refl eq_refl).
  vm_compute in H. discriminate H.
Qed.

(** ** Identifiers *)

Lemma uint_digits_no_underscore d :
  JsString.contains "_" (NilEmpty.string_of_uint d) = false.
Proof. induction d; simpl; auto. Qed.

Lemma ofInt_no_underscore z : JsString.contains "_" (JsString.ofInt z) = false.
Proof.
  unfold JsString.ofInt, NilZero.string_of_int, NilZero.string_of_uint.
  destruct (Z.to_int z) as [d|d]; destruct d; simpl;
    try reflexivity; apply uint_digits_no_underscore.
Qed.

Lemma ofInt_inj a b : JsString.ofInt a = JsString.ofInt b -> a = b.
Proof.
  assert (Hparse : forall z, NilZero.int_of_string (JsString.ofInt z) = Some (Z.to_int z)).
  { intros z. unfold JsString.ofInt. apply NilZero.isi; destruct z; simpl; try discriminate;
      intros [= H]; now apply (Unsigned.to_uint_nonnil p). }
  intros H. apply DecimalZ.to_int_inj.
  pose proof (Hparse a) as Ha. rewrite H, Hparse in Ha. now injection Ha.
Qed.

(** Two strings cut at their first underscore. *)
Lemma split_at_underscore a : forall a' b b',
  JsString.contains "_" a = false -> JsString.contains "_" a' = false ->
  a ++ String "_" b = a' ++ String "_" b' -> a = a' /\ b = b'.
Proof.
  induction a as [|x a IH]; intros [|x' a'] b b'; simpl.
  - intros _ _ [= ->]. now split.
  - intros _ H [= <- _]. simpl in H. discriminate H.
  - intros H _ [= -> _]. simpl in H. discriminate H.
  - destruct (Ascii.eqb x "_"); [discriminate|].
    destruct (Ascii.eqb x' "_"); [discriminate|].
    intros Ha Ha' [= -> E]. destruct (IH _ _ _ Ha Ha' E) as [-> ->]. now split.
Qed.

(** Identifiers built from different counter values are different
    strings, whatever the clock says. *)
Lemma generated_id_inj n c n' c' :
  "task_" ++ JsString.ofInt n ++ "_" ++ JsString.ofInt c
  = "task_" ++ JsString.ofInt n' ++ "_" ++ JsString.ofInt c' ->
  c = c'.
Proof.
  simpl. intros [= H].
  apply split_at_underscore in H as [_ H]; auto using ofInt_no_underscore.
  now apply ofInt_inj.
Qed.

Lemma issued_fresh next taskIds n :
  Forall (issued next) taskIds ->
  ~ In ("task_" ++ JsString.ofInt n ++ "_" ++ JsString.ofInt next) taskIds.
Proof.
  intros Hall Hin. rewrite List.Forall_forall in Hall.
  destruct (Hall _ Hin) as (n' & c & E & Hlt).
  apply generated_id_inj in E. lia.
Qed.

Lemma issued_mono next next' taskId : next <= next' -> issued next taskId -> issued next' taskId.
Proof. intros Hle (n & c & E & Hlt). exists n, c. split; [exact E | lia]. Qed.

(** ** The store invariant *)

Lemma rebalanced_Forall (P : Task -> Prop) l l' :
  (forall t t', rebalanced t t' -> P t -> P t') ->
  Forall2 rebalanced l l' -> Forall P l -> Forall P l'.
Proof.
  intros HP. induction 1 as [|t t' l l' Hr _ IH]; intros Hl; [constructor|].
  apply List.Forall_cons_iff in Hl as [Ht Hl]. constructor; [now apply (HP t) | now apply IH].
Qed.

Lemma rebalanced_validTask t t' : rebalanced t t' -> validTask t -> validTask t'.
Proof.
  intros [E D] [Hd Hr]. injection E as _ _ Edur _ _. unfold validTask. rewrite Edur.
  split; [destruct D as [->|D]; assumption | exact Hr].
Qed.

Lemma NoDup_snoc {A} (l : list A) x : List.NoDup l -> ~ In x l -> List.NoDup (l ++ [x])%list.
Proof.
  induction 1 as [|y l Hy Hl IH]; simpl; intros Hx.
  - repeat constructor. simpl. tauto.
  - constructor.
    + intros Hin. apply in_app_or in Hin as [Hin|[<-|[]]]; [now apply Hy | apply Hx; now left].
    + apply IH. intros Hin. apply Hx. now right.
Qed.

Lemma map_delete_In {A B} (f : A -> B) (l : list A) : forall i y,
  In y (List.map f (delete i l)) -> In y (List.map f l).
Proof.
  induction l as [|x r IH]; intros [|i] y; simpl; auto.
  intros [E|H]; [now left | right; now apply (IH i)].
Qed.

Lemma NoDup_map_delete {A B} (f : A -> B) (l : list A) : forall i,
  List.NoDup (List.map f l) -> List.NoDup (List.map f (delete i l)).
Proof.
  induction l as [|x r IH]; intros [|i]; simpl; auto; intros H;
    apply List.NoDup_cons_iff in H as [Hx Hr]; [exact Hr|].
  constructor; [|now apply IH].
  intros Hin. apply Hx. now apply (map_delete_In f r i).
Qed.

Lemma wellFormed_autoBalance d w : wellFormed w -> wellFormed (TaskManager.autoBalance d w).
Proof.
  intros [[Hv Hn] Hi].
  destruct (autoBalance_effect d w) as (Hreb & _ & Hc & _).
  repeat split.
  - revert Hv. apply rebalanced_Forall; [apply rebalanced_validTask | exact Hreb].
  - now rewrite (rebalanced_ids _ _ Hreb).
  - rewrite Hc. revert Hi. apply rebalanced_Forall; [|exact Hreb].
    intros t t' [E _] H. injection E as -> _ _ _ _. exact H.
Qed.

(** Appending a valid task under a freshly generated identifier. *)
Lemma wellFormed_push now w t :
  wellFormed w -> validTask t -> id t = fst (IDGenerator.generate now w) ->
  wellFormed (push t (snd (IDGenerator.generate now w))).
Proof.
  intros [[Hv Hn] Hi] Ht Hid. simpl in Hid. repeat split; simpl.
  - apply Forall_app. split; [exact Hv | now constructor].
  - rewrite List.map_app. simpl. apply NoDup_snoc; [exact Hn|].
    rewrite Hid. apply issued_fresh.
    rewrite List.Forall_forall in *. intros x Hx. apply in_map_iff in Hx as (u & <- & Hu).
    now apply Hi.
  - apply Forall_app. split.
    + revert Hi. apply List.Forall_impl. intros u. apply issued_mono. lia.
    + constructor; [|constructor]. exists now, (counter w). split; [exact Hid | lia].
Qed.

Lemma wellFormed_set_status s i w :
  wellFormed w -> wellFormed (with_tasks (alter (set_status s) i (tasks w)) w).
Proof.
  intros [[Hv Hn] Hi]. repeat split; simpl.
  - apply Forall_alter; [exact Hv | intros t _ H; exact H].
  - now rewrite map_id_set_status.
  - apply Forall_alter; [exact Hi | intros t _ H; exact H].
Qed.

Lemma wellFormed_delete i w :
  wellFormed w -> wellFormed (with_tasks (delete i (tasks w)) w).
Proof.
  intros [[Hv Hn] Hi]. repeat split; simpl.
  - now apply Forall_delete.
  - now apply NoDup_map_delete.
  - now apply Forall_delete.
Qed.

Lemma wellFormed_addTask title duration day status clk w :
  In (JsString.toLowerCase day) CONFIG.DAYS ->
  wellFormed w -> wellFormed (after (TaskManager.addTask title duration day status clk) w).
Proof.
  intros Hday Hw. unfold after, TaskManager.addTask.
  destruct (Validator.validateTaskTitle title) as [tv|]; [|exact Hw].
  destruct (Validator.validateDuration duration) as [dv|] eqn:Hdur; [|exact Hw].
  apply validateDuration_valid in Hdur as [_ Hrange].
  cbv beta iota zeta. simpl snd.
  apply wellFormed_autoBalance.
  apply (wellFormed_push (now clk) w); [exact Hw | now split | reflexivity].
Qed.

Lemma wellFormed_deleteTask taskId w :
  wellFormed w -> wellFormed (after (TaskManager.deleteTask taskId) w).
Proof.
  intros Hw. unfold after, TaskManager.deleteTask.
  destruct (-1 <? findIndex _ (tasks w)); simpl; [now apply wellFormed_delete | exact Hw].
Qed.

Lemma wellFormed_updateStatus taskId newStatus clk w :
  wellFormed w -> wellFormed (after (TaskManager.updateStatus taskId newStatus clk) w).
Proof.
  intros Hw. unfold after, TaskManager.updateStatus.
  destruct (findRef _ (tasks w)) as [[i t]|] eqn:Hfind; [|exact Hw].
  destruct (String.eqb (status t) CONFIG.STATUS.COMPLETED
            && String.eqb newStatus CONFIG.STATUS.MISSED); [exact Hw|].
  pose proof (wellFormed_set_status newStatus i w Hw) as Hw1.
  destruct (String.eqb newStatus CONFIG.STATUS.MISSED); [|exact Hw1].
  set (w1 := with_tasks (alter (set_status newStatus) i (tasks w)) w) in *.
  destruct (rescheduleTask_returns (set_status newStatus t) clk w1)
    as (target & name & _ & Hin & ->).
  simpl snd.
  assert (Hvalid : validTask t).
  { apply findRef_Some in Hfind as [Hl _]. destruct Hw as [[Hv _] _].
    rewrite List.Forall_forall in Hv. apply Hv.
    apply list_elem_of_In, list_elem_of_lookup. eauto. }
  assert (Hbal : wellFormed (TaskManager.autoBalance target
             (push {| id := fst (IDGenerator.generate (now clk) w1);
                      title := "RESCHEDULED: " ++ title (set_status newStatus t);
                      duration := duration (set_status newStatus t);
                      day := target;
                      status := CONFIG.STATUS.NOT_COMPLETED;
                      addedDate := iso clk |}
                   (snd (IDGenerator.generate (now clk) w1))))).
  { apply wellFormed_autoBalance, wellFormed_push; [exact Hw1 | | reflexivity].
    destruct Hvalid as [_ Hr]. split; [exact Hin | exact Hr]. }
  exact Hbal.
Qed.

Lemma wellFormed_performAll ops : forall w,
  addsNameDays ops -> wellFormed w -> wellFormed (performAll ops w).
Proof.
  induction ops as [|o ops IH]; intros w Hops Hw; [exact Hw|].
  apply List.Forall_cons_iff in Hops as [Ho Hops].
  change (performAll (o :: ops) w) with (performAll ops (perform o w)).
  apply IH; [exact Hops|].
  destruct o as [title duration day status clk | taskId | taskId newStatus clk]; simpl.
  - now apply wellFormed_addTask.
  - now apply wellFormed_deleteTask.
  - now apply wellFormed_updateStatus.
Qed.




(** * Further properties of the code *)

(** ** The week as arithmetic modulo 7 *)

Lemma days_at_index i d :
  Utils.at_index CONFIG.DAYS i = Some d -> 0 <= i <= 6 /\ Utils.getDayIndex d = i.
Proof.
  unfold Utils.at_index. destruct (Z.ltb_spec i 0) as [|Hi]; [discriminate|].
  intros H.
  assert (Hlt : (Z.to_nat i < List.length CONFIG.DAYS)%nat).
  { apply nth_error_Some. rewrite H. discriminate. }
  change (List.length CONFIG.DAYS) with 7%nat in Hlt.
  assert (Hc : i = 0 \/ i = 1 \/ i = 2 \/ i = 3 \/ i = 4 \/ i = 5 \/ i = 6) by lia.
  split; [lia|].
  repeat (destruct Hc as [->|Hc]; [injection H as <-; reflexivity|]).
  subst i. injection H as <-. reflexivity.
Qed.

Lemma days_index_defined i :
  0 <= i <= 6 -> exists d, Utils.at_index CONFIG.DAYS i = Some d /\ In d CONFIG.DAYS.
Proof.
  intros Hi.
  assert (Hc : i = 0 \/ i = 1 \/ i = 2 \/ i = 3 \/ i = 4 \/ i = 5 \/ i = 6) by lia.
  repeat (destruct Hc as [->|Hc]; [eexists; split; [reflexivity | simpl; tauto]|]).
  subst i. eexists; split; [reflexivity | simpl; tauto].
Qed.




(** X1: the week array and [getDayIndex] are inverse to each other: a
    position 0..6 holds a day whose index is that position, and positions
    outside 0..6 hold nothing. *)
Theorem day_index_round_trip :
  forall i : Z,
    (0 <= i <= 6
     /\ exists d, Utils.at_index CONFIG.DAYS i = Some d /\ Utils.getDayIndex d = i)
    \/ ((i < 0 \/ 6 < i) /\ Utils.at_index CONFIG.DAYS i = None).
Proof.
  intros i. destruct (Z_lt_ge_dec i 0) as [Hneg|Hge].
  - right. split; [now left|]. unfold Utils.at_index.
    destruct (Z.ltb_spec i 0); [reflexivity | lia].
  - destruct (Z_le_gt_dec i 6) as [Hle|Hgt].
    + left. split; [lia|].
      destruct (days_index_defined i) as (d & Hd & _); [lia|].
      exists d. split; [exact Hd|]. now apply days_at_index in Hd as [_ ->].
    + right. split; [right; lia|]. unfold Utils.at_index.
      destruct (Z.ltb_spec i 0); [reflexivity|].
      apply nth_error_None. change (List.length CONFIG.DAYS) with 7%nat. lia.
Qed.







(** ** Day loads as sums *)

Lemma fold_left_duration l : forall a,
  List.fold_left (fun sum t => sum + duration t) l a
  = a + List.fold_left (fun sum t => sum + duration t) l 0.
Proof.
  induction l as [|t l IH]; intros a; simpl; [lia|].
  rewrite (IH (a + duration t)), (IH (0 + duration t)). lia.
Qed.

Lemma calculateDayTime_dayLoad d w :
  TaskManager.calculateDayTime d w = dayLoad (JsString.toLowerCase d) (tasks w).
Proof.
  unfold TaskManager.calculateDayTime, dayLoad.
  induction (tasks w) as [|t l IH]; simpl; [reflexivity|].
  unfold loadOn at 1. destruct (TaskManager.onDayNotMissed (JsString.toLowerCase d) t); simpl.
  - rewrite fold_left_duration, IH. lia.
  - rewrite IH. reflexivity.
Qed.

Lemma dayLoad_app d l1 l2 : dayLoad d (l1 ++ l2) = dayLoad d l1 + dayLoad d l2.
Proof. unfold dayLoad. induction l1 as [|t l1 IH]; simpl; [reflexivity|]. rewrite IH. lia. Qed.

Lemma dayLoad_alter d f (l : list Task) : forall i t,
  l !! i = Some t ->
  dayLoad d (alter f i l) = dayLoad d l - loadOn d t + loadOn d (f t).
Proof.
  unfold dayLoad.
  induction l as [|x l IH]; intros [|i] t H; try discriminate H; simpl in *.
  - injection H as ->. lia.
  - change (list_alter f i l) with (alter f i l). rewrite (IH i t H). lia.
Qed.

Lemma getNextDay_moves_on c : Utils.getNextDay c <> c.
Proof.
  intros H. pose proof (getNextDay_in_days c) as Hin. rewrite H in Hin.
  simpl in Hin. repeat (destruct Hin as [<-|Hin]; [discriminate H|]). exact Hin.
Qed.

(** ** What one relocation does to the two days *)

(** X5: a relocation takes the task's minutes off the day and puts them
    on the next day, and the day it left is still at or above the daily
    limit: the pass never relieves a day below its limit, and brings it
    exactly to the limit only when the task is as long as the excess. *)
Theorem relocation_leaves_day_at_or_above_limit :
  forall (currentDay : string) (attemptCount : nat) (w : World),
    JsString.toLowerCase currentDay = currentDay ->
    (attemptCount < CONFIG.MAX_BALANCE_ATTEMPTS)%nat ->
    0 < TaskManager.calculateDayTime currentDay w - dailyLimit w ->
    (exists j u, tasks w !! j = Some u
       /\ fits currentDay (TaskManager.calculateDayTime currentDay w - dailyLimit w) u) ->
    exists (i : nat) (t : Task) (w' : World),
      tasks w !! i = Some t
      /\ TaskManager.balanceLoop 1 currentDay attemptCount w = (S attemptCount, w')
      /\ TaskManager.calculateDayTime currentDay w'
         = TaskManager.calculateDayTime currentDay w - duration t
      /\ TaskManager.calculateDayTime (Utils.getNextDay currentDay) w'
         = TaskManager.calculateDayTime (Utils.getNextDay currentDay) w + duration t
      /\ dailyLimit w' <= TaskManager.calculateDayTime currentDay w'.
Proof.
  intros c k w Hlow Hk Hover Hex.
  destruct (selectTask_smallest c _ (tasks w) Hex) as (i & t & Hsel & Hl & Hfit & _).
  exists i, t, (with_tasks (TaskManager.assignDay i (Utils.getNextDay c) (tasks w)) w).
  split; [exact Hl|]. split.
  { rewrite balanceLoop_S.
    destruct (Nat.ltb_spec k CONFIG.MAX_BALANCE_ATTEMPTS) as [_|Hge]; [|lia].
    cbv beta iota zeta. simpl negb. cbv iota.
    destruct (Z.leb_spec (TaskManager.calculateDayTime c w) (dailyLimit w)) as [Hle|_]; [lia|].
    now rewrite Hsel. }
  destruct Hfit as (Hday & Hst & Hle).
  pose proof (getNextDay_moves_on c) as Hne.
  pose proof (getNextDay_lowercase c) as Hnlow.
  assert (L1 : loadOn c t = duration t).
  { unfold loadOn, TaskManager.onDayNotMissed. now rewrite Hday, String.eqb_refl, Hst. }
  assert (L2 : loadOn c (set_day (Utils.getNextDay c) t) = 0).
  { unfold loadOn, TaskManager.onDayNotMissed. simpl.
    apply String.eqb_neq in Hne. now rewrite Hne. }
  assert (L3 : loadOn (Utils.getNextDay c) t = 0).
  { unfold loadOn, TaskManager.onDayNotMissed. rewrite Hday.
    assert (Hne' : c <> Utils.getNextDay c) by congruence.
    apply String.eqb_neq in Hne'. now rewrite Hne'. }
  assert (L4 : loadOn (Utils.getNextDay c) (set_day (Utils.getNextDay c) t) = duration t).
  { unfold loadOn, TaskManager.onDayNotMissed. simpl. now rewrite String.eqb_refl, Hst. }
  rewrite !calculateDayTime_dayLoad, Hlow, Hnlow in *. simpl tasks. simpl dailyLimit.
  unfold TaskManager.assignDay.
  rewrite !(dayLoad_alter _ _ _ _ _ Hl), L1, L2, L3, L4. lia.
Qed.

Lemma relocation_leaves_day_at_or_above_limit_witness :
  let a := mkTask "task_1_1" "Lecture" 120 "monday" "completed" "2026-11-02" in
  let b := mkTask "task_1_2" "Quiz" 20 "monday" "not-completed" "2026-11-02" in
  let c := mkTask "task_1_3" "Lab" 30 "monday" "not-completed" "2026-11-02" in
  exists (i : nat) (t : Task) (w' : World),
    [a; b; c] !! i = Some t
    /\ TaskManager.balanceLoop 1 "monday" 0 (mkWorld [a; b; c] 100 "" 4 []) = (1%nat, w')
    /\ TaskManager.calculateDayTime "monday" w' = 170 - duration t
    /\ TaskManager.calculateDayTime "tuesday" w' = 0 + duration t
    /\ 100 <= TaskManager.calculateDayTime "monday" w'.
Proof.
  intros a b c.
  destruct (relocation_leaves_day_at_or_above_limit "monday" 0 (mkWorld [a; b; c] 100 "" 4 []))
    as (i & t & w' & H1 & H2 & H3 & H4 & H5).
  - reflexivity.
  - unfold CONFIG.MAX_BALANCE_ATTEMPTS. lia.
  - reflexivity.
  - exists 1%nat, b. split; [reflexivity|].
    split; [reflexivity | split; [reflexivity | vm_compute; discriminate]].
  - exists i, t, w'. split; [exact H1|]. split; [exact H2|]. split; [exact H3|].
    split; [exact H4|].
    assert (E : dailyLimit w' = 100).
    { vm_compute in H2. injection H2 as <-. reflexivity. }
    rewrite <- E. exact H5.
Defined.

(** ** What a whole balancing run does and does not do *)

(** X6: when the day is over the limit and none of its not-completed
    tasks is short enough to fit the excess, [autoBalance] moves nothing:
    it shows the "unable to fit" warning and leaves the day over the
    limit. *)
Theorem autoBalance_gives_up_when_nothing_fits :
  forall (originalDay : string) (w : World),
    dailyLimit w < TaskManager.calculateDayTime originalDay w ->
    (forall j u, tasks w !! j = Some u ->
       ~ fits (JsString.toLowerCase originalDay)
              (TaskManager.calculateDayTime originalDay w - dailyLimit w) u) ->
    TaskManager.autoBalance originalDay w = showUserError UnableToFit w.
Proof.
  intros d w Hover Hnone. unfold TaskManager.autoBalance.
  change CONFIG.MAX_BALANCE_ATTEMPTS with 7%nat. rewrite balanceLoop_S.
  rewrite calculateDayTime_lower. simpl negb. cbv beta iota zeta.
  destruct (Z.leb_spec (TaskManager.calculateDayTime d w) (dailyLimit w)) as [Hle|_]; [lia|].
  destruct (TaskManager.selectTask _ _) as [[i t]|] eqn:Hsel; [|reflexivity].
  exfalso. unfold TaskManager.selectTask in Hsel.
  destruct (find_rev_Some _ _ _ Hsel) as (l1 & l2 & Hsplit & Hmov & _).
  assert (Hin : In (i, t) (sortBy TaskManager.byDurationDesc
                     (TaskManager.dayTasksOf (JsString.toLowerCase d) (tasks w)))).
  { rewrite Hsplit. apply in_or_app. right. now left. }
  apply dayTasks_In in Hin as [Hl Hon].
  apply (Hnone i t Hl). now apply (selectable_fits _ _ i).
Qed.

Lemma autoBalance_gives_up_when_nothing_fits_witness :
  let a := mkTask "task_1_1" "Lecture" 100 "monday" "not-completed" "2026-11-02" in
  let b := mkTask "task_1_2" "Lab" 80 "monday" "not-completed" "2026-11-02" in
  TaskManager.autoBalance "Monday" (mkWorld [a; b] 150 "" 3 [])
  = mkWorld [a; b] 150 "" 3 [UnableToFit].
Proof.
  intros a b.
  apply (autoBalance_gives_up_when_nothing_fits "Monday" (mkWorld [a; b] 150 "" 3 [])).
  - reflexivity.
  - intros [|[|j]] u H; try discriminate H; injection H as <-;
      intros (_ & _ & Hle); vm_compute in Hle; now apply Hle.
Defined.

Lemma relocated_refl t : relocated t t.
Proof. now left. Qed.

Lemma relocated_trans t1 t2 t3 : relocated t1 t2 -> relocated t2 t3 -> relocated t1 t3.
Proof.
  intros [->|(Hs & d & Hd & ->)] [->|(Hs' & d' & Hd' & ->)].
  - now left.
  - right. eauto.
  - right. eauto.
  - right. split; [exact Hs|]. exists d'. split; [exact Hd' | reflexivity].
Qed.

Lemma selectTask_Some c excess ts i t :
  TaskManager.selectTask excess
    (sortBy TaskManager.byDurationDesc (TaskManager.dayTasksOf c ts)) = Some (i, t) ->
  ts !! i = Some t /\ fits c excess t.
Proof.
  unfold TaskManager.selectTask. intros Hsel.
  destruct (find_rev_Some _ _ _ Hsel) as (l1 & l2 & Hsplit & Hmov & _).
  assert (Hin : In (i, t) (sortBy TaskManager.byDurationDesc (TaskManager.dayTasksOf c ts))).
  { rewrite Hsplit. apply in_or_app. right. now left. }
  apply dayTasks_In in Hin as [Hl Hon]. split; [exact Hl|].
  now apply (selectable_fits _ _ i).
Qed.

Lemma balanceLoop_relocated fuel : forall c k w,
  Forall2 relocated (tasks w) (tasks (snd (TaskManager.balanceLoop fuel c k w))).
Proof.
  assert (Hdiag : forall ts, Forall2 relocated ts ts).
  { intros ts. apply Forall_Forall2_diag, List.Forall_forall. intros t _. apply relocated_refl. }
  induction fuel as [|fuel IH]; intros c k w; [apply Hdiag|].
  rewrite balanceLoop_S.
  destruct (negb (k <? CONFIG.MAX_BALANCE_ATTEMPTS)%nat); [apply Hdiag|].
  cbv beta iota zeta.
  destruct (TaskManager.calculateDayTime c w <=? dailyLimit w); [apply Hdiag|].
  destruct (TaskManager.selectTask _ _) as [[i t]|] eqn:Hsel; [|apply Hdiag].
  apply selectTask_Some in Hsel as [Hl (_ & Hst & _)].
  apply (Forall2_trans relocated relocated relocated (tasks w)
           (TaskManager.assignDay i (Utils.getNextDay c) (tasks w)) _ relocated_trans);
    [|apply (IH (Utils.getNextDay c) (S k)
                (with_tasks (TaskManager.assignDay i (Utils.getNextDay c) (tasks w)) w))].
  unfold TaskManager.assignDay. apply Forall2_alter_r; [apply Hdiag|].
  intros x y Hx Hy _. rewrite Hl in Hx, Hy. injection Hx as <-. injection Hy as <-.
  right. split; [exact Hst|]. exists (Utils.getNextDay c).
  split; [apply getNextDay_in_days | reflexivity].
Qed.

Lemma autoBalance_relocated d w :
  Forall2 relocated (tasks w) (tasks (TaskManager.autoBalance d w)).
Proof.
  unfold TaskManager.autoBalance.
  pose proof (balanceLoop_relocated CONFIG.MAX_BALANCE_ATTEMPTS (JsString.toLowerCase d) 0 w)
    as Hrel.
  destruct (TaskManager.balanceLoop CONFIG.MAX_BALANCE_ATTEMPTS (JsString.toLowerCase d) 0 w)
    as [k w'].
  destruct (CONFIG.MAX_BALANCE_ATTEMPTS <=? k)%nat; exact Hrel.
Qed.

Lemma relocated_keeps_other_status t t' :
  relocated t t' -> status t <> CONFIG.STATUS.NOT_COMPLETED -> t' = t.
Proof. intros [->|(Hnc & _)] Hst; [reflexivity | now elim Hst]. Qed.

(** X7: [autoBalance] keeps the number and the order of the tasks; a
    task whose status is not not-completed (completed, approaching,
    missed, anything else) is left exactly as it is, and a not-completed
    task is left as it is or has only its day changed, to one of the seven
    days. *)
Theorem autoBalance_only_moves_not_completed :
  forall (originalDay : string) (w : World),
    Forall2 relocated (tasks w) (tasks (TaskManager.autoBalance originalDay w))
    /\ (forall j u, tasks w !! j = Some u ->
          status u <> CONFIG.STATUS.NOT_COMPLETED ->
          tasks (TaskManager.autoBalance originalDay w) !! j = Some u).
Proof.
  intros d w. pose proof (autoBalance_relocated d w) as H.
  split; [exact H|].
  intros j u Hl Hst.
  destruct (Forall2_lookup_l _ _ _ _ _ H Hl) as (u' & Hl' & Hrel).
  now rewrite <- (relocated_keeps_other_status _ _ Hrel Hst).
Qed.

Lemma autoBalance_only_moves_not_completed_witness :
  let a := mkTask "task_1_1" "Lecture" 120 "monday" "completed" "2026-11-02" in
  let b := mkTask "task_1_2" "Quiz" 20 "monday" "not-completed" "2026-11-02" in
  tasks (TaskManager.autoBalance "monday" (mkWorld [a; b] 100 "" 3 [])) !! 0%nat = Some a.
Proof.
  intros a b.
  apply (proj2 (autoBalance_only_moves_not_completed "monday" (mkWorld [a; b] 100 "" 3 []))).
  - reflexivity.
  - discriminate.
Defined.

Lemma balanceLoop_silent fuel : forall c k w,
  (CONFIG.MAX_BALANCE_ATTEMPTS <= fuel + k)%nat ->
  alerts (snd (TaskManager.balanceLoop fuel c k w)) = alerts w ->
  (fst (TaskManager.balanceLoop fuel c k w) < CONFIG.MAX_BALANCE_ATTEMPTS)%nat ->
  exists n : nat,
    fst (TaskManager.balanceLoop fuel c k w) = (k + n)%nat
    /\ TaskManager.calculateDayTime (Nat.iter n Utils.getNextDay c)
         (snd (TaskManager.balanceLoop fuel c k w))
       <= dailyLimit (snd (TaskManager.balanceLoop fuel c k w)).
Proof.
  induction fuel as [|fuel IH]; intros c k w Hfuel Hal Hlt.
  - simpl in Hlt, Hfuel. lia.
  - rewrite balanceLoop_S in *.
    destruct (Nat.ltb_spec k CONFIG.MAX_BALANCE_ATTEMPTS) as [Hk|Hk]; simpl negb in *;
      cbv iota in *; [|simpl in Hlt; lia].
    cbv beta zeta in *.
    destruct (Z.leb_spec (TaskManager.calculateDayTime c w) (dailyLimit w)) as [Hle|Hover].
    + exists 0%nat. simpl. split; [lia | exact Hle].
    + destruct (TaskManager.selectTask _ _) as [[i t]|].
      * destruct (IH (Utils.getNextDay c) (S k)
                    (with_tasks (TaskManager.assignDay i (Utils.getNextDay c) (tasks w)) w))
          as (n & Hn & Hday); [lia | exact Hal | exact Hlt |].
        exists (S n). split; [lia|]. now rewrite Nat.iter_succ_r.
      * simpl in Hal. apply (f_equal (@List.length Alert)) in Hal.
        rewrite length_app in Hal. simpl in Hal. lia.
Qed.

(** X8: when [autoBalance] returns without having shown a warning, it
    stopped, after fewer than 7 relocations, on a day whose load is within
    the daily limit: the day that many days after the starting day. *)
Theorem silent_autoBalance_ends_within_limit :
  forall (originalDay : string) (w : World),
    alerts (TaskManager.autoBalance originalDay w) = alerts w ->
    exists n : nat,
      (n < 7)%nat
      /\ fst (TaskManager.balanceLoop CONFIG.MAX_BALANCE_ATTEMPTS
                (JsString.toLowerCase originalDay) 0 w) = n
      /\ TaskManager.calculateDayTime
           (Nat.iter n Utils.getNextDay (JsString.toLowerCase originalDay))
           (TaskManager.autoBalance originalDay w)
         <= dailyLimit (TaskManager.autoBalance originalDay w).
Proof.
  intros d w. unfold TaskManager.autoBalance.
  pose proof (balanceLoop_silent CONFIG.MAX_BALANCE_ATTEMPTS (JsString.toLowerCase d) 0 w)
    as Hsilent.
  destruct (balanceLoop_moves CONFIG.MAX_BALANCE_ATTEMPTS (JsString.toLowerCase d) 0 w)
    as (moves & w' & Hrun & _ & _ & _ & _ & Hal & _ & _).
  rewrite Hrun in *. simpl fst in *. simpl snd in *.
  destruct (Nat.leb_spec CONFIG.MAX_BALANCE_ATTEMPTS (0 + List.length moves)) as [Hmax|Hlt].
  - intros H. simpl in H. apply (f_equal (@List.length Alert)) in H.
    rewrite length_app in H. simpl in H.
    destruct Hal as [Hal|Hal]; rewrite Hal in H; [|rewrite length_app in H; simpl in H]; lia.
  - intros H. destruct (Hsilent ltac:(lia) H Hlt) as (n & Hn & Hday).
    exists (0 + List.length moves)%nat.
    split; [exact Hlt|]. split; [reflexivity|].
    replace (0 + List.length moves)%nat with n by lia. exact Hday.
Qed.

Lemma silent_autoBalance_ends_within_limit_witness :
  let a := mkTask "task_1_1" "Lecture" 120 "monday" "completed" "2026-11-02" in
  let b := mkTask "task_1_2" "Quiz" 20 "monday" "not-completed" "2026-11-02" in
  exists n : nat,
    (n < 7)%nat
    /\ TaskManager.calculateDayTime (Nat.iter n Utils.getNextDay "monday")
         (TaskManager.autoBalance "monday" (mkWorld [a; b] 100 "" 3 [])) <= 100.
Proof.
  intros a b.
  destruct (silent_autoBalance_ends_within_limit "monday" (mkWorld [a; b] 100 "" 3 []) eq_refl)
    as (n & Hn & _ & Hday).
  exists n. split; [exact Hn | exact Hday].
Defined.

(** ** The week's total *)

Lemma activeMinutes_relocated ts ts' :
  Forall2 relocated ts ts' -> activeMinutes ts' = activeMinutes ts.
Proof.
  induction 1 as [|t t' ts ts' Hr _ IH]; simpl; [reflexivity|].
  rewrite IH. destruct Hr as [->|(_ & d & _ & ->)]; reflexivity.
Qed.

Lemma days_valid_relocated ts ts' :
  Forall2 relocated ts ts' ->
  Forall (fun t => In (day t) CONFIG.DAYS) ts -> Forall (fun t => In (day t) CONFIG.DAYS) ts'.
Proof.
  induction 1 as [|t t' ts ts' Hr _ IH]; intros H; [constructor|].
  apply List.Forall_cons_iff in H as [Ht H]. constructor; [|now apply IH].
  destruct Hr as [->|(_ & d & Hd & ->)]; [exact Ht | exact Hd].
Qed.

Lemma weekTotal_dayLoads w :
  weekTotal w
  = dayLoad "monday" (tasks w) + (dayLoad "tuesday" (tasks w) + (dayLoad "wednesday" (tasks w)
    + (dayLoad "thursday" (tasks w) + (dayLoad "friday" (tasks w)
    + (dayLoad "saturday" (tasks w) + (dayLoad "sunday" (tasks w) + 0)))))).
Proof. unfold weekTotal. simpl. now rewrite !calculateDayTime_dayLoad. Qed.

Lemma weekTotal_active w :
  Forall (fun t => In (day t) CONFIG.DAYS) (tasks w) ->
  weekTotal w = activeMinutes (tasks w).
Proof.
  rewrite weekTotal_dayLoads. unfold dayLoad, activeMinutes.
  induction (tasks w) as [|t ts IH]; intros H; [reflexivity|].
  apply List.Forall_cons_iff in H as [Ht H]. specialize (IH H). simpl List.fold_right.
  rewrite <- IH.
  assert (E : loadOn "monday" t + loadOn "tuesday" t + loadOn "wednesday" t
              + loadOn "thursday" t + loadOn "friday" t + loadOn "saturday" t
              + loadOn "sunday" t
              = if String.eqb (status t) CONFIG.STATUS.MISSED then 0 else duration t).
  { unfold loadOn, TaskManager.onDayNotMissed. simpl in Ht.
    repeat (destruct Ht as [<-|Ht];
            [simpl; destruct (String.eqb (status t) CONFIG.STATUS.MISSED); simpl; lia|]).
    destruct Ht. }
  lia.
Qed.

(** X9: when every stored task is on one of the seven days, balancing
    neither loses nor creates work: the loads of the seven days add up to
    the minutes of all tasks that are not missed, before and after
    [autoBalance]. *)
Theorem autoBalance_keeps_week_total :
  forall (originalDay : string) (w : World),
    Forall (fun t => In (day t) CONFIG.DAYS) (tasks w) ->
    weekTotal w = activeMinutes (tasks w)
    /\ weekTotal (TaskManager.autoBalance originalDay w) = weekTotal w.
Proof.
  intros d w Hdays. pose proof (autoBalance_relocated d w) as Hrel.
  split; [now apply weekTotal_active|].
  rewrite (weekTotal_active w Hdays).
  rewrite (weekTotal_active _ (days_valid_relocated _ _ Hrel Hdays)).
  now apply activeMinutes_relocated.
Qed.

Lemma autoBalance_keeps_week_total_witness :
  let a := mkTask "task_1_1" "Lecture" 120 "monday" "completed" "2026-11-02" in
  let b := mkTask "task_1_2" "Quiz" 20 "monday" "not-completed" "2026-11-02" in
  let c := mkTask "task_1_3" "Old" 45 "sunday" "missed" "2026-11-02" in
  weekTotal (mkWorld [a; b; c] 100 "" 4 []) = 140
  /\ weekTotal (TaskManager.autoBalance "monday" (mkWorld [a; b; c] 100 "" 4 [])) = 140.
Proof.
  intros a b c.
  destruct (autoBalance_keeps_week_total "monday" (mkWorld [a; b; c] 100 "" 4 [])) as [H1 H2].
  - repeat constructor; simpl; tauto.
  - split; [exact H1 | rewrite H2; exact H1].
Defined.

(** ** Marking a task as missed, seen from the other tasks *)

(** X10: when a task that is not completed is marked as missed, the task
    itself stays at its position, on its day, with status missed; and no
    other task whose status is not not-completed is touched by the
    rescheduling and the balancing that follow. *)
Theorem missed_original_stays_in_place :
  forall (taskId : string) (clk : Clock) (w : World) (i : nat) (t : Task),
    findRef (fun x => String.eqb (id x) taskId) (tasks w) = Some (i, t) ->
    status t <> CONFIG.STATUS.COMPLETED ->
    tasks (after (TaskManager.updateStatus taskId CONFIG.STATUS.MISSED clk) w) !! i
    = Some (set_status CONFIG.STATUS.MISSED t)
    /\ (forall j u, j <> i -> tasks w !! j = Some u ->
          status u <> CONFIG.STATUS.NOT_COMPLETED ->
          tasks (after (TaskManager.updateStatus taskId CONFIG.STATUS.MISSED clk) w) !! j
          = Some u).
Proof.
  intros taskId clk w i t Hfind Hst.
  pose proof (findRef_Some _ _ _ _ Hfind) as [Hl _].
  set (w1 := with_tasks (alter (set_status CONFIG.STATUS.MISSED) i (tasks w)) w).
  destruct (rescheduleTask_returns (set_status CONFIG.STATUS.MISSED t) clk w1)
    as (target & name & _ & _ & Hres).
  assert (Hafter : after (TaskManager.updateStatus taskId CONFIG.STATUS.MISSED clk) w
                   = snd (TaskManager.rescheduleTask (set_status CONFIG.STATUS.MISSED t) clk w1)).
  { unfold after, TaskManager.updateStatus. rewrite Hfind.
    apply String.eqb_neq in Hst. rewrite Hst. simpl andb. cbv iota.
    change (String.eqb CONFIG.STATUS.MISSED CONFIG.STATUS.MISSED) with true. cbv iota.
    fold w1. now rewrite Hres. }
  rewrite Hafter, Hres. simpl snd. simpl tasks at 1 3.
  match goal with |- context [TaskManager.autoBalance target ?x] =>
    pose proof (autoBalance_relocated target x) as Hrel; set (ins := x) in * end.
  assert (Hins : forall j u, tasks w1 !! j = Some u -> tasks ins !! j = Some u).
  { intros j u Hj. unfold ins, push. simpl. rewrite lookup_app_l; [exact Hj|].
    now apply lookup_lt_Some in Hj. }
  assert (Hkeep : forall j u, tasks w1 !! j = Some u ->
                    status u <> CONFIG.STATUS.NOT_COMPLETED ->
                    tasks (TaskManager.autoBalance target ins) !! j = Some u).
  { intros j u Hj Hu.
    destruct (Forall2_lookup_l _ _ _ _ _ Hrel (Hins j u Hj)) as (u' & Hu' & Hr).
    now rewrite <- (relocated_keeps_other_status _ _ Hr Hu). }
  split.
  - apply Hkeep; [|discriminate].
    unfold w1. simpl. now rewrite list_lookup_alter_eq, Hl.
  - intros j u Hji Hj Hu. apply Hkeep; [|exact Hu].
    unfold w1. simpl. rewrite list_lookup_alter_ne; [exact Hj | congruence].
Qed.

Lemma missed_original_stays_in_place_witness :
  let a := mkTask "task_1_1" "Essay" 100 "wednesday" "not-completed" "2026-11-02" in
  let b := mkTask "task_1_2" "Exam" 150 "saturday" "completed" "2026-11-02" in
  tasks (after (TaskManager.updateStatus "task_1_1" "missed" (mkClock 9 "2026-11-03"))
               (mkWorld [a; b] 150 "" 3 [])) !! 0%nat
  = Some (mkTask "task_1_1" "Essay" 100 "wednesday" "missed" "2026-11-02").
Proof.
  intros a b.
  apply (proj1 (missed_original_stays_in_place "task_1_1" (mkClock 9 "2026-11-03")
                  (mkWorld [a; b] 150 "" 3 []) 0 a eq_refl ltac:(discriminate))).
Defined.

(** ** Deleting *)

Lemma findRef_None {A} (p : A -> bool) (l : list A) :
  findRef p l = None <-> Forall (fun x => p x = false) l.
Proof.
  induction l as [|x l IH]; simpl; [split; [constructor | reflexivity]|].
  destruct (p x) eqn:Hx.
  - split; [discriminate|]. intros H. apply Forall_inv in H. congruence.
  - destruct (findRef p l) as [[i y]|].
    + split; [discriminate|]. intros H. apply Forall_inv_tail in H.
      apply IH in H. discriminate H.
    + split; [|reflexivity]. intros _. constructor; [exact Hx | now apply IH].
Qed.

Lemma findRef_split {A} (p : A -> bool) (l : list A) : forall i x,
  findRef p l = Some (i, x) ->
  exists l1 l2, l = (l1 ++ x :: l2)%list /\ List.length l1 = i
                /\ Forall (fun y => p y = false) l1 /\ p x = true.
Proof.
  induction l as [|y l IH]; simpl; [discriminate|]. intros i x.
  destruct (p y) eqn:Hy.
  - intros [= <- <-]. exists [], l. repeat split; [constructor | exact Hy].
  - destruct (findRef p l) as [[j z]|]; [|discriminate].
    intros [= <- <-]. destruct (IH j z eq_refl) as (l1 & l2 & -> & <- & Hall & Hz).
    exists (y :: l1), l2. repeat split; [now constructor | exact Hz].
Qed.

Lemma id_test_false taskId (l : list Task) :
  Forall (fun x => String.eqb (id x) taskId = false) l <-> Forall (fun x => id x <> taskId) l.
Proof.
  split; apply List.Forall_impl; intros t H; [now apply String.eqb_neq | now apply String.eqb_neq].
Qed.

(** X11: [deleteTask] removes the first task that carries the
    identifier, keeps every other task in its order and returns true; when
    no task carries it, it returns false and changes nothing.  Nothing but
    the task list is ever changed. *)
Theorem deleteTask_removes_first_match :
  forall (taskId : string) (w : World),
    (exists (l1 : list Task) (t : Task) (l2 : list Task),
        tasks w = (l1 ++ t :: l2)%list
        /\ id t = taskId
        /\ Forall (fun u => id u <> taskId) l1
        /\ TaskManager.deleteTask taskId w = (Returned true, with_tasks (l1 ++ l2) w))
    \/ (Forall (fun u => id u <> taskId) (tasks w)
        /\ TaskManager.deleteTask taskId w = (Returned false, w)).
Proof.
  intros taskId w. unfold TaskManager.deleteTask, findIndex.
  destruct (findRef (fun t => String.eqb (id t) taskId) (tasks w)) as [[i t]|] eqn:Hfind.
  - left. destruct (findRef_split _ _ _ _ Hfind) as (l1 & l2 & Hts & Hlen & Hall & Ht).
    exists l1, t, l2. split; [exact Hts|]. split; [now apply String.eqb_eq|].
    split; [now apply id_test_false|].
    destruct (Z.ltb_spec (-1) (Z.of_nat i)) as [_|Hneg]; [|lia].
    rewrite Nat2Z.id, Hts, <- Hlen. now rewrite delete_middle.
  - right. split; [apply id_test_false; now apply findRef_None|]. reflexivity.
Qed.

(** X12: in a store whose identifiers are pairwise distinct, deleting
    leaves no task with that identifier, keeps the identifiers distinct,
    and deleting the same identifier again returns false and changes
    nothing. *)
Theorem deleteTask_twice_is_deleteTask_once :
  forall (taskId : string) (w : World),
    List.NoDup (List.map id (tasks w)) ->
    Forall (fun u => id u <> taskId) (tasks (after (TaskManager.deleteTask taskId) w))
    /\ List.NoDup (List.map id (tasks (after (TaskManager.deleteTask taskId) w)))
    /\ TaskManager.deleteTask taskId (after (TaskManager.deleteTask taskId) w)
       = (Returned false, after (TaskManager.deleteTask taskId) w).
Proof.
  intros taskId w Hnd.
  assert (Hagain : forall w0, Forall (fun u => id u <> taskId) (tasks w0) ->
                     TaskManager.deleteTask taskId w0 = (Returned false, w0)).
  { intros w0 H0. unfold TaskManager.deleteTask, findIndex.
    apply id_test_false, findRef_None in H0. now rewrite H0. }
  assert (Hcases :
    (exists l1 t l2, tasks w = (l1 ++ t :: l2)%list /\ id t = taskId
        /\ after (TaskManager.deleteTask taskId) w = with_tasks (l1 ++ l2) w)
    \/ (Forall (fun u => id u <> taskId) (tasks w)
        /\ after (TaskManager.deleteTask taskId) w = w)).
  { unfold after, TaskManager.deleteTask, findIndex.
    destruct (findRef (fun t => String.eqb (id t) taskId) (tasks w)) as [[i t]|] eqn:Hfind.
    - left. destruct (findRef_split _ _ _ _ Hfind) as (l1 & l2 & Hts & Hlen & Hall & Ht).
      exists l1, t, l2. split; [exact Hts|]. split; [now apply String.eqb_eq|].
      destruct (Z.ltb_spec (-1) (Z.of_nat i)) as [_|Hneg]; [|lia].
      simpl snd. rewrite Nat2Z.id, Hts, <- Hlen. now rewrite delete_middle.
    - right. split; [apply id_test_false; now apply findRef_None | reflexivity]. }
  destruct Hcases as [(l1 & t & l2 & Hts & Ht & ->)|(Hnone & ->)].
  - rewrite Hts, List.map_app in Hnd. simpl in Hnd.
    pose proof (NoDup_remove_1 _ _ _ Hnd) as Hnd'.
    apply NoDup_remove_2 in Hnd. rewrite <- List.map_app in Hnd, Hnd'.
    assert (Hgone : Forall (fun u => id u <> taskId) (l1 ++ l2)).
    { apply List.Forall_forall. intros u Hu Hid. apply Hnd.
      rewrite Ht, <- Hid. now apply in_map. }
    split; [exact Hgone|]. split; [exact Hnd'|]. apply Hagain. exact Hgone.
  - split; [exact Hnone|]. split; [exact Hnd|]. now apply Hagain.
Qed.

Lemma deleteTask_twice_is_deleteTask_once_witness :
  let a := mkTask "task_1_1" "Essay" 100 "wednesday" "not-completed" "2026-11-02" in
  let b := mkTask "task_1_2" "Exam" 150 "saturday" "completed" "2026-11-02" in
  TaskManager.deleteTask "task_1_1"
    (after (TaskManager.deleteTask "task_1_1") (mkWorld [a; b] 150 "" 3 []))
  = (Returned false, mkWorld [b] 150 "" 3 []).
Proof.
  intros a b.
  apply (deleteTask_twice_is_deleteTask_once "task_1_1" (mkWorld [a; b] 150 "" 3 [])).
  repeat constructor; simpl; intuition discriminate.
Defined.

(** ** Adding *)

Lemma addTask_returned title duration day status clk w t w' :
  TaskManager.addTask title duration day status clk w = (Returned t, w') ->
  exists (titleValue : string) (durationValue : Z),
    Validator.validateTaskTitle title = Valid titleValue
    /\ Validator.validateDuration duration = Valid durationValue
    /\ 1 <= durationValue <= CONFIG.MAX_TASK_DURATION
    /\ w' = TaskManager.autoBalance day
              (push (mkTask (fst (IDGenerator.generate (now clk) w)) titleValue durationValue
                            (JsString.toLowerCase day) status (iso clk))
                    (snd (IDGenerator.generate (now clk) w)))
    /\ tasks w' !! List.length (tasks w) = Some t
    /\ relocated (mkTask (fst (IDGenerator.generate (now clk) w)) titleValue durationValue
                         (JsString.toLowerCase day) status (iso clk)) t.
Proof.
  unfold TaskManager.addTask.
  destruct (Validator.validateTaskTitle title) as [tv|]; [|discriminate].
  destruct (Validator.validateDuration duration) as [dv|] eqn:Hdur; [|discriminate].
  pose (created := mkTask (fst (IDGenerator.generate (now clk) w)) tv dv
                          (JsString.toLowerCase day) status (iso clk)).
  pose (pushed := push created (snd (IDGenerator.generate (now clk) w))).
  intros H.
  assert (Hw : w' = TaskManager.autoBalance day pushed)
    by (injection H as _ <-; reflexivity).
  assert (Ht : t = default created
                     (tasks (TaskManager.autoBalance day pushed) !! List.length (tasks w)))
    by (injection H as <- _; reflexivity).
  clear H.
  exists tv, dv. split; [reflexivity|]. split; [reflexivity|].
  split; [now apply validateDuration_valid in Hdur|]. split; [exact Hw|].
  pose proof (autoBalance_relocated day pushed) as Hrel.
  assert (Hnew : tasks pushed !! List.length (tasks w) = Some created).
  { unfold pushed, push. simpl. now apply list_lookup_middle. }
  destruct (Forall2_lookup_l _ _ _ _ _ Hrel Hnew) as (y & Hy & Hr).
  rewrite Hy in Ht. simpl in Ht. subst y w'. now split.
Qed.

Lemma push_within_limit day w1 created :
  0 <= duration created ->
  TaskManager.calculateDayTime day w1 + duration created <= dailyLimit w1 ->
  TaskManager.autoBalance day (push created w1) = push created w1.
Proof.
  intros Hpos Hle. apply autoBalance_within_limit.
  rewrite calculateDayTime_dayLoad in *.
  change (tasks (push created w1)) with (tasks w1 ++ [created])%list.
  change (dailyLimit (push created w1)) with (dailyLimit w1).
  rewrite dayLoad_app.
  assert (E : dayLoad (JsString.toLowerCase day) [created] <= duration created).
  { unfold dayLoad, loadOn. simpl.
    destruct (TaskManager.onDayNotMissed _ created); lia. }
  lia.
Qed.

(** X13: a successful [addTask] appends exactly one task, built from the
    validated title and duration, the lowercase day and a fresh
    identifier, and advances the counter by one; the tasks already stored
    keep their position, and each is left as it is or, if not completed,
    moved to another day.  When the day's load plus the new duration is
    within the daily limit nothing else happens at all. *)
Theorem addTask_appends_one_task :
  forall (title duration day status : string) (clk : Clock) (w w' : World) (t : Task),
    TaskManager.addTask title duration day status clk w = (Returned t, w') ->
    exists (titleValue : string) (durationValue : Z),
      let created := mkTask (fst (IDGenerator.generate (now clk) w)) titleValue durationValue
                            (JsString.toLowerCase day) status (iso clk) in
      Validator.validateTaskTitle title = Valid titleValue
      /\ Validator.validateDuration duration = Valid durationValue
      /\ Forall2 relocated (tasks w ++ [created]) (tasks w')
      /\ tasks w' !! List.length (tasks w) = Some t
      /\ relocated created t
      /\ counter w' = counter w + 1
      /\ dailyLimit w' = dailyLimit w
      /\ (TaskManager.calculateDayTime day w + durationValue <= dailyLimit w ->
          t = created
          /\ w' = push created (snd (IDGenerator.generate (now clk) w))).
Proof.
  intros title duration day status clk w w' t Hadd.
  destruct (addTask_returned _ _ _ _ _ _ _ _ Hadd) as (tv & dv & Htv & Hdv & Hr & Hw' & Hl & Hrel).
  exists tv, dv. cbv zeta.
  set (created := mkTask (fst (IDGenerator.generate (now clk) w)) tv dv
                         (JsString.toLowerCase day) status (iso clk)) in *.
  set (pushed := push created (snd (IDGenerator.generate (now clk) w))) in *.
  destruct (autoBalance_effect day pushed) as (_ & Hlim & Hcnt & _).
  split; [exact Htv|]. split; [exact Hdv|].
  split; [rewrite Hw'; apply (autoBalance_relocated day pushed)|].
  split; [exact Hl|]. split; [exact Hrel|].
  split; [rewrite Hw', Hcnt; reflexivity|].
  split; [rewrite Hw', Hlim; reflexivity|].
  intros Hle.
  assert (E : TaskManager.autoBalance day pushed = pushed).
  { apply push_within_limit; [simpl; lia | exact Hle]. }
  rewrite E in Hw'. subst w'. split; [|reflexivity].
  unfold pushed, push in Hl. simpl in Hl.
  rewrite list_lookup_middle in Hl by reflexivity. now injection Hl.
Qed.

Lemma addTask_appends_one_task_witness :
  exists (titleValue : string) (durationValue : Z),
    Validator.validateTaskTitle "  Essay " = Valid titleValue
    /\ Validator.validateDuration "90" = Valid durationValue
    /\ counter (after (TaskManager.addTask "  Essay " "90" "Thursday" "approaching"
                         (mkClock 17 "2026-11-03")) emptyWorld) = 1 + 1.
Proof.
  destruct (addTask_appends_one_task "  Essay " "90" "Thursday" "approaching"
              (mkClock 17 "2026-11-03") emptyWorld _ _ eq_refl)
    as (tv & dv & H1 & H2 & _ & _ & _ & H3 & _).
  exists tv, dv. split; [exact H1|]. split; [exact H2 | exact H3].
Defined.

Lemma findRef_last {A} (p : A -> bool) (l : list A) x :
  Forall (fun y => p y = false) l -> p x = true ->
  findRef p (l ++ [x]) = Some (List.length l, x).
Proof.
  induction 1 as [|y l Hy _ IH]; intros Hx; simpl; [now rewrite Hx|].
  now rewrite Hy, (IH Hx).
Qed.

(** X14: in a well-formed store, adding a task that fits its day and then
    deleting the task that was returned gives back the task list as it
    was (the identifier counter stays advanced): the new identifier is
    carried by no older task, so the deletion finds the new task. *)
Theorem addTask_then_deleteTask_restores_tasks :
  forall (title minutes day status : string) (clk : Clock) (w w' : World) (t : Task),
    wellFormed w ->
    TaskManager.addTask title minutes day status clk w = (Returned t, w') ->
    TaskManager.calculateDayTime day w + duration t <= dailyLimit w ->
    TaskManager.deleteTask (id t) w' = (Returned true, with_tasks (tasks w) w').
Proof.
  intros title minutes day status clk w w' t [[_ _] Hissued] Hadd Hle.
  destruct (addTask_returned _ _ _ _ _ _ _ _ Hadd) as (tv & dv & _ & _ & Hr & Hw' & Hl & Hrel).
  set (created := mkTask (fst (IDGenerator.generate (now clk) w)) tv dv
                         (JsString.toLowerCase day) status (iso clk)) in *.
  set (pushed := push created (snd (IDGenerator.generate (now clk) w))) in *.
  assert (Hdur : duration t = dv).
  { destruct Hrel as [->|(_ & d & _ & ->)]; reflexivity. }
  assert (E : TaskManager.autoBalance day pushed = pushed).
  { apply push_within_limit; [simpl; lia|]. rewrite Hdur in Hle. exact Hle. }
  rewrite E in Hw'. subst w'.
  unfold pushed, push in Hl. simpl in Hl.
  rewrite list_lookup_middle in Hl by reflexivity. injection Hl as <-.
  assert (Hfresh : Forall (fun u => String.eqb (id u) (id created) = false) (tasks w)).
  { apply id_test_false, List.Forall_forall. intros u Hu Hid.
    apply (issued_fresh (counter w) (List.map id (tasks w)) (now clk)).
    - apply List.Forall_forall. intros x Hx. apply in_map_iff in Hx as (v & <- & Hv).
      rewrite List.Forall_forall in Hissued. now apply Hissued.
    - change (In (id created) (List.map id (tasks w))). rewrite <- Hid. now apply in_map. }
  unfold TaskManager.deleteTask, findIndex, pushed, push. simpl tasks.
  rewrite (findRef_last _ _ created Hfresh (String.eqb_refl _)).
  destruct (Z.ltb_spec (-1) (Z.of_nat (List.length (tasks w)))) as [_|Hneg]; [|lia].
  rewrite Nat2Z.id. f_equal. unfold with_tasks. simpl. f_equal.
  change (tasks w ++ [created])%list with (tasks w ++ created :: [])%list.
  rewrite delete_middle. apply app_nil_r.
Qed.

Lemma addTask_then_deleteTask_restores_tasks_witness :
  let a := mkTask "task_5_1" "Lab" 60 "thursday" "not-completed" "2026-11-02" in
  exists t w',
    TaskManager.addTask "Essay" "90" "Thursday" "approaching" (mkClock 17 "2026-11-03")
      (mkWorld [a] 150 "" 2 []) = (Returned t, w')
    /\ TaskManager.deleteTask (id t) w' = (Returned true, mkWorld [a] 150 "" 3 []).
Proof.
  intros a. eexists _, _. split; [reflexivity|].
  apply (addTask_then_deleteTask_restores_tasks "Essay" "90" "Thursday" "approaching"
           (mkClock 17 "2026-11-03") (mkWorld [a] 150 "" 2 [])).
  - split; [split|].
    + constructor; [|constructor].
      split; [simpl; tauto | unfold CONFIG.MAX_TASK_DURATION; simpl; lia].
    + simpl. constructor; [simpl; tauto | constructor].
    + constructor; [|constructor]. exists 5, 1. split; [reflexivity | simpl; lia].
  - reflexivity.
  - vm_compute. discriminate.
Defined.

(** ** What no operation touches *)

Lemma perform_settings o w :
  dailyLimit (perform o w) = dailyLimit w
  /\ currentSelectedDay (perform o w) = currentSelectedDay w
  /\ counter w <= counter (perform o w) <= counter w + 1.
Proof.
  destruct o as [title duration day status clk | taskId | taskId newStatus clk];
    unfold perform, after.
  - unfold TaskManager.addTask.
    destruct (Validator.validateTaskTitle title); [|simpl; repeat split; lia].
    destruct (Validator.validateDuration duration); [|simpl; repeat split; lia].
    cbv beta iota zeta. simpl snd.
    match goal with |- context [TaskManager.autoBalance ?d ?x] =>
      destruct (autoBalance_effect d x) as (_ & -> & -> & ->) end.
    simpl. repeat split; lia.
  - unfold TaskManager.deleteTask.
    destruct (-1 <? findIndex _ (tasks w)); simpl; repeat split; lia.
  - unfold TaskManager.updateStatus.
    destruct (findRef _ (tasks w)) as [[i t]|]; [|simpl; repeat split; lia].
    destruct (String.eqb (status t) CONFIG.STATUS.COMPLETED
              && String.eqb newStatus CONFIG.STATUS.MISSED); [simpl; repeat split; lia|].
    destruct (String.eqb newStatus CONFIG.STATUS.MISSED); [|simpl; repeat split; lia].
    match goal with |- context [TaskManager.rescheduleTask ?t ?c ?x] =>
      destruct (rescheduleTask_returns t c x) as (target & name & _ & _ & ->) end.
    simpl snd.
    match goal with |- context [TaskManager.autoBalance ?d ?x] =>
      destruct (autoBalance_effect d x) as (_ & Hl & Hc & Hs) end.
    simpl in *. rewrite Hl, Hc, Hs. repeat split; lia.
Qed.

(** X15: no sequence of [addTask], [deleteTask] and [updateStatus] calls
    changes the daily limit or the selected day, and none lowers the
    identifier counter: the counter grows by at most one per call, so an
    identifier once issued is never issued again. *)
Theorem operations_keep_settings :
  forall (ops : list Op) (w : World),
    dailyLimit (performAll ops w) = dailyLimit w
    /\ currentSelectedDay (performAll ops w) = currentSelectedDay w
    /\ counter w <= counter (performAll ops w) <= counter w + Z.of_nat (List.length ops).
Proof.
  induction ops as [|o ops IH]; intros w; [simpl; repeat split; lia|].
  change (performAll (o :: ops) w) with (performAll ops (perform o w)).
  destruct (IH (perform o w)) as (-> & -> & Hc).
  destruct (perform_settings o w) as (-> & -> & Hc').
  simpl List.length. repeat split; lia.
Qed.

(** ** Numbers written and read back *)

Lemma digits_not_space d :
  JsString.trimStart (NilEmpty.string_of_uint d) = NilEmpty.string_of_uint d.
Proof. destruct d; reflexivity. Qed.

Lemma digits_no_sign d :
  JsString.stripSign (NilEmpty.string_of_uint d) = (1, NilEmpty.string_of_uint d).
Proof. destruct d; reflexivity. Qed.

Lemma digits_no_hex_prefix d :
  JsString.stripHexPrefix (NilEmpty.string_of_uint d) = (10, NilEmpty.string_of_uint d).
Proof. destruct d as [|d|d|d|d|d|d|d|d|d|d]; try reflexivity. destruct d; reflexivity. Qed.

Lemma parseDigits_acc d : forall a : positive,
  JsString.parseDigits 10 (Some (Zpos a)) (NilEmpty.string_of_uint d)
  = Some (Zpos (Pos.of_uint_acc d a)).
Proof.
  induction d; intros a; simpl; [reflexivity|..];
    match goal with
    | |- context [JsString.code ?ch] =>
        let c := eval vm_compute in (JsString.code ch) in
        change (JsString.code ch) with c
    end;
    match goal with
    | |- JsString.parseDigits 10 (Some ?v) _ = Some (Zpos (Pos.of_uint_acc _ ?p)) =>
        replace v with (Zpos p) by lia; apply IHd
    end.
Qed.

Lemma parseDigits_zero d :
  JsString.parseDigits 10 (Some 0) (NilEmpty.string_of_uint d) = Some (Z.of_N (Pos.of_uint d)).
Proof.
  induction d; simpl; [reflexivity | exact IHd | ..]; apply parseDigits_acc.
Qed.

Lemma parseDigits_start d :
  d <> Decimal.Nil ->
  JsString.parseDigits 10 None (NilEmpty.string_of_uint d) = Some (Z.of_N (Pos.of_uint d)).
Proof.
  intros Hd. rewrite <- parseDigits_zero. destruct d; [now elim Hd | reflexivity ..].
Qed.

Lemma parseInt_digits d :
  d <> Decimal.Nil ->
  JsString.parseInt (NilEmpty.string_of_uint d) = Some (Z.of_N (Pos.of_uint d))
  /\ JsString.parseInt (String "-" (NilEmpty.string_of_uint d))
     = Some (- Z.of_N (Pos.of_uint d)).
Proof.
  intros Hd. unfold JsString.parseInt. split.
  - rewrite digits_not_space, digits_no_sign. cbv beta iota zeta.
    rewrite digits_no_hex_prefix. cbv beta iota zeta.
    rewrite (parseDigits_start d Hd). f_equal; lia.
  - change (JsString.trimStart (String "-" (NilEmpty.string_of_uint d)))
      with (String "-" (NilEmpty.string_of_uint d)).
    change (JsString.stripSign (String "-" (NilEmpty.string_of_uint d)))
      with (-1, NilEmpty.string_of_uint d).
    cbv beta iota zeta. rewrite digits_no_hex_prefix. cbv beta iota zeta.
    rewrite (parseDigits_start d Hd). f_equal; lia.
Qed.

(** X16: for a safe integer [n] (at most 2^53 - 1 in absolute value),
    [parseInt] reads the decimal text of [n] back as [n], so
    [validateDuration] given [n] accepts it exactly when 1 <= n <= 1440
    and then returns [n] itself; it rejects zero and the negative numbers
    as not positive and the numbers above 1440 as exceeding 24 hours. *)
Theorem validateDuration_of_safe_integer :
  forall n : Z,
    - JsString.MAX_SAFE_INTEGER <= n <= JsString.MAX_SAFE_INTEGER ->
    JsString.parseInt (JsString.ofInt n) = Some n
    /\ (forall v : Z,
          Validator.validateDurationNum n = Valid v
          <-> v = n /\ 1 <= n <= CONFIG.MAX_TASK_DURATION)
    /\ (n <= 0 ->
        Validator.validateDurationNum n = Invalid "Duration must be positive")
    /\ (CONFIG.MAX_TASK_DURATION < n ->
        Validator.validateDurationNum n
        = Invalid "Duration cannot exceed 1440 minutes (24 hours)").
Proof.
  intros n _.
  assert (Hread : JsString.parseInt (JsString.ofInt n) = Some n).
  { destruct n as [|p|p]; [reflexivity| |]; unfold JsString.ofInt; simpl Z.to_int;
      unfold NilZero.string_of_int, NilZero.string_of_uint;
      pose proof (Unsigned.to_uint_nonnil p) as Hnil;
      pose proof (Unsigned.of_to p) as Hval;
      destruct (parseInt_digits (Pos.to_uint p) Hnil) as [Hpos Hneg];
      rewrite Hval in Hpos, Hneg;
      destruct (Pos.to_uint p); try (now elim Hnil); assumption. }
  split; [exact Hread|].
  unfold Validator.validateDurationNum, Validator.validateDuration.
  rewrite Hread. unfold CONFIG.MAX_TASK_DURATION.
  destruct (Z.leb_spec n 0) as [Hle|Hpos].
  - split; [|split].
    + intros v; split; [discriminate | intros (_ & H); lia].
    + reflexivity.
    + intros H; lia.
  - rewrite Z.gtb_ltb. destruct (Z.ltb_spec 1440 n) as [Hbig|Hok].
    + split; [|split].
      * intros v; split; [discriminate | intros (_ & H); lia].
      * intros H; lia.
      * reflexivity.
    + split; [|split].
      * intros v; split; [intros [= <-]; lia | intros (-> & _); reflexivity].
      * intros H; lia.
      * intros H; lia.
Qed.

Lemma validateDuration_of_safe_integer_witness :
  Validator.validateDurationNum 1440 = Valid 1440
  /\ Validator.validateDurationNum 0 = Invalid "Duration must be positive"
  /\ Validator.validateDurationNum JsString.MAX_SAFE_INTEGER
     = Invalid "Duration cannot exceed 1440 minutes (24 hours)".
Proof.
  split; [|split].
  - apply (validateDuration_of_safe_integer 1440); vm_compute; repeat split; discriminate.
  - apply (validateDuration_of_safe_integer 0); vm_compute; repeat split; discriminate.
  - apply (validateDuration_of_safe_integer JsString.MAX_SAFE_INTEGER);
      vm_compute; repeat split; discriminate.
Defined.

(** ** The sanitizer *)

Lemma contains_append c a b :
  JsString.contains c (a ++ b) = JsString.contains c a || JsString.contains c b.
Proof. induction a as [|x a IH]; simpl; [reflexivity|]. now destruct (Ascii.eqb x c). Qed.

Lemma escapeChar_clean c :
  JsString.contains "<" (Utils.escapeChar c) = false
  /\ JsString.contains ">" (Utils.escapeChar c) = false
  /\ JsString.contains (ascii_of_nat 160) (Utils.escapeChar c) = false.
Proof. destruct c as [[] [] [] [] [] [] [] []]; repeat split; reflexivity. Qed.

Lemma escapeHtml_clean s :
  JsString.contains "<" (Utils.escapeHtml s) = false
  /\ JsString.contains ">" (Utils.escapeHtml s) = false
  /\ JsString.contains (ascii_of_nat 160) (Utils.escapeHtml s) = false.
Proof.
  induction s as [|c r (IH1 & IH2 & IH3)]; simpl; [repeat split; reflexivity|].
  destruct (escapeChar_clean c) as (H1 & H2 & H3).
  rewrite !contains_append, H1, H2, H3, IH1, IH2, IH3. repeat split; reflexivity.
Qed.

Lemma no_less_than_no_tag s :
  JsString.contains "<" s = false -> Validator.htmlRegex_test s = false.
Proof.
  induction s as [|c r IH]; simpl; [reflexivity|].
  destruct (Ascii.eqb c "<"); [discriminate | exact IH].
Qed.

(** X17: the output of [escapeHtml] never contains a less-than sign, a
    greater-than sign or a no-break space, so it never matches the tag
    pattern; in particular every title [validateTaskTitle] returns is
    free of them. *)
Theorem sanitized_text_has_no_markup :
  (forall text : string,
      JsString.contains "<" (Utils.escapeHtml text) = false
      /\ JsString.contains ">" (Utils.escapeHtml text) = false
      /\ JsString.contains (ascii_of_nat 160) (Utils.escapeHtml text) = false
      /\ Validator.htmlRegex_test (Utils.escapeHtml text) = false)
  /\ (forall raw value : string,
        Validator.validateTaskTitle raw = Valid value ->
        JsString.contains "<" value = false
        /\ JsString.contains ">" value = false
        /\ Validator.htmlRegex_test value = false).
Proof.
  split.
  - intros text. destruct (escapeHtml_clean text) as (H1 & H2 & H3).
    repeat split; try assumption. now apply no_less_than_no_tag.
  - intros raw value Hv. apply validateTaskTitle_valid in Hv as (_ & _ & _ & ->).
    destruct (escapeHtml_clean (JsString.trim raw)) as (H1 & H2 & _).
    repeat split; try assumption. now apply no_less_than_no_tag.
Qed.

Lemma sanitized_text_has_no_markup_witness :
  JsString.contains "<" "1 &lt; 2 &amp; 3" = false
  /\ JsString.contains ">" "1 &lt; 2 &amp; 3" = false
  /\ Validator.htmlRegex_test "1 &lt; 2 &amp; 3" = false.
Proof.
  apply (proj2 sanitized_text_has_no_markup " 1 < 2 & 3 "). reflexivity.
Defined.

Lemma escapeChar_cases c :
  (c = "&"%char /\ Utils.escapeChar c = "&amp;")
  \/ (c = "<"%char /\ Utils.escapeChar c = "&lt;")
  \/ (c = ">"%char /\ Utils.escapeChar c = "&gt;")
  \/ (c = ascii_of_nat 160 /\ Utils.escapeChar c = "&nbsp;")
  \/ (c <> "&"%char /\ Utils.escapeChar c = String c EmptyString).
Proof.
  destruct c as [[] [] [] [] [] [] [] []];
    first [ left; split; reflexivity
          | right; left; split; reflexivity
          | right; right; left; split; reflexivity
          | right; right; right; left; split; reflexivity
          | right; right; right; right; split; [discriminate | reflexivity] ].
Qed.

Lemma escapeChar_prefix c c' x y :
  Utils.escapeChar c ++ x = Utils.escapeChar c' ++ y -> c = c' /\ x = y.
Proof.
  destruct (escapeChar_cases c) as [(-> & ->)|[(-> & ->)|[(-> & ->)|[(-> & ->)|(Hc & ->)]]]];
    destruct (escapeChar_cases c') as [(-> & ->)|[(-> & ->)|[(-> & ->)|[(-> & ->)|(Hc' & ->)]]]];
    simpl; intros H; try discriminate H;
    try (injection H as H; now split);
    try (injection H as H1 H2; subst; now split);
    try (injection H as H1 H2; now elim Hc');
    try (injection H as H1 H2; now elim Hc).
Qed.

(** X18: [escapeHtml] loses nothing: two different texts have different
    sanitized forms. *)
Theorem escapeHtml_is_injective :
  forall s s' : string, Utils.escapeHtml s = Utils.escapeHtml s' -> s = s'.
Proof.
  induction s as [|c r IH]; intros [|c' r'] H.
  - reflexivity.
  - simpl in H. destruct (escapeChar_cases c') as [(_ & E)|[(_ & E)|[(_ & E)|[(_ & E)|(_ & E)]]]];
      rewrite E in H; discriminate H.
  - simpl in H. destruct (escapeChar_cases c) as [(_ & E)|[(_ & E)|[(_ & E)|[(_ & E)|(_ & E)]]]];
      rewrite E in H; discriminate H.
  - simpl in H. apply escapeChar_prefix in H as [-> H]. f_equal. now apply IH.
Qed.

Lemma escapeHtml_is_injective_witness : "Q & A" = "Q & A".
Proof. apply (escapeHtml_is_injective "Q & A" "Q & A"). reflexivity. Defined.

Lemma string_length_append a b :
  String.length (a ++ b) = (String.length a + String.length b)%nat.
Proof. induction a as [|x a IH]; simpl; [reflexivity | now rewrite IH]. Qed.

Lemma escapeChar_length c :
  (1 <= String.length (Utils.escapeChar c) <= 6)%nat.
Proof.
  destruct (escapeChar_cases c) as [(_ & ->)|[(_ & ->)|[(_ & ->)|[(_ & ->)|(_ & ->)]]]];
    simpl; lia.
Qed.

Lemma escapeHtml_length s :
  (String.length s <= String.length (Utils.escapeHtml s) <= 6 * String.length s)%nat.
Proof.
  induction s as [|c r IH]; simpl; [lia|].
  rewrite string_length_append. pose proof (escapeChar_length c). lia.
Qed.

(** X19: a title [validateTaskTitle] returns is not empty and at least as
    long as the trimmed input; escaping can make it longer than the 100
    code units the raw title is limited to, but never longer than six
    times the trimmed input, hence never longer than 600. *)
Theorem validated_title_length :
  forall raw value : string,
    Validator.validateTaskTitle raw = Valid value ->
    1 <= JsString.length (JsString.trim raw) <= JsString.length value
    /\ JsString.length value <= 6 * JsString.length (JsString.trim raw)
    /\ JsString.length value <= 600.
Proof.
  intros raw value Hv. apply validateTaskTitle_valid in Hv as (Hne & Hlen & _ & ->).
  pose proof (escapeHtml_length (JsString.trim raw)) as He.
  pose proof (trim_length raw) as Ht.
  unfold JsString.length, CONFIG.MAX_TITLE_LENGTH in *. lia.
Qed.

Lemma validated_title_length_witness :
  1 <= JsString.length (JsString.trim " Q & A ") <= JsString.length "Q &amp; A"
  /\ JsString.length "Q &amp; A" <= 6 * JsString.length (JsString.trim " Q & A ")
  /\ JsString.length "Q &amp; A" <= 600.
Proof. apply (validated_title_length " Q & A " "Q &amp; A"). reflexivity. Defined.

(** ** Durations as text *)

Lemma contains_cons ch x r :
  JsString.contains ch (String x r) = if Ascii.eqb x ch then true else JsString.contains ch r.
Proof. reflexivity. Qed.

Lemma uint_digits_only (ch : ascii) d :
  JsString.digitValue 10 ch = None ->
  JsString.contains ch (NilEmpty.string_of_uint d) = false.
Proof.
  intros Hch. induction d; cbn [NilEmpty.string_of_uint]; [reflexivity|..];
    rewrite contains_cons;
    match goal with
    | |- (if Ascii.eqb ?x ch then _ else _) = _ =>
        destruct (Ascii.eqb_spec x ch) as [<-|_]; [discriminate Hch | exact IHd]
    end.
Qed.

Lemma ofInt_digits_only (ch : ascii) z :
  JsString.digitValue 10 ch = None -> ch <> "-"%char ->
  JsString.contains ch (JsString.ofInt z) = false.
Proof.
  intros Hch Hminus.
  assert (Hzero : JsString.contains ch "0" = false).
  { rewrite contains_cons.
    destruct (Ascii.eqb_spec "0" ch) as [<-|_]; [discriminate Hch | reflexivity]. }
  assert (Huint : forall d, JsString.contains ch (NilZero.string_of_uint d) = false).
  { intros d. unfold NilZero.string_of_uint.
    destruct d; try exact Hzero; now apply uint_digits_only. }
  unfold JsString.ofInt, NilZero.string_of_int.
  destruct (Z.to_int z) as [d|d]; [apply Huint|].
  rewrite contains_cons.
  destruct (Ascii.eqb_spec "-" ch) as [<-|_]; [now elim Hminus | apply Huint].
Qed.

Lemma split_at_char (ch : ascii) a : forall a' b b',
  JsString.contains ch a = false -> JsString.contains ch a' = false ->
  a ++ String ch b = a' ++ String ch b' -> a = a' /\ b = b'.
Proof.
  induction a as [|x a IH]; intros [|x' a'] b b'; simpl.
  - intros _ _ [= ->]. now split.
  - intros _ H [= <- _]. rewrite Ascii.eqb_refl in H. discriminate H.
  - intros H _ [= -> _]. rewrite Ascii.eqb_refl in H. discriminate H.
  - destruct (Ascii.eqb x ch); [discriminate|].
    destruct (Ascii.eqb x' ch); [discriminate|].
    intros Ha Ha' [= -> E]. destruct (IH _ _ _ Ha Ha' E) as [-> ->]. now split.
Qed.

Lemma formatTime_shape m :
  0 <= m ->
  (0 < m / 60 /\ 0 < m mod 60
   /\ Utils.formatTime m
      = JsString.ofInt (m / 60) ++ String "h" (" " ++ JsString.ofInt (m mod 60) ++ "m"))
  \/ (0 < m / 60 /\ m mod 60 = 0
      /\ Utils.formatTime m = JsString.ofInt (m / 60) ++ String "h" "")
  \/ (m / 60 = 0 /\ Utils.formatTime m = JsString.ofInt (m mod 60) ++ String "m" "").
Proof.
  intros Hm. unfold Utils.formatTime. cbv zeta.
  rewrite Z.rem_mod_nonneg by lia.
  pose proof (Z.mod_pos_bound m 60 ltac:(lia)) as Hr.
  pose proof (Z.div_pos m 60 Hm ltac:(lia)) as Hq.
  destruct (Z.gtb_spec (m / 60) 0) as [Hh|Hh].
  - destruct (Z.gtb_spec (m mod 60) 0) as [Hmin|Hmin].
    + left. repeat split; try lia.
    + right. left. repeat split; try lia.
  - right. right. split; [lia | reflexivity].
Qed.

(** X20: [formatTime] shows different non-negative durations
    differently: from the text "2h 15m", "2h" or "45m" the number of
    minutes can be told. *)
Theorem formatTime_tells_durations_apart :
  forall a b : Z,
    0 <= a -> 0 <= b -> Utils.formatTime a = Utils.formatTime b -> a = b.
Proof.
  intros a b Ha Hb.
  assert (Hh : forall z, JsString.contains "h" (JsString.ofInt z) = false)
    by (intros z; apply ofInt_digits_only; [reflexivity | discriminate]).
  assert (Hm : forall z, JsString.contains "m" (JsString.ofInt z) = false)
    by (intros z; apply ofInt_digits_only; [reflexivity | discriminate]).
  pose proof (Z.div_mod a 60 ltac:(lia)) as Ea.
  pose proof (Z.div_mod b 60 ltac:(lia)) as Eb.
  destruct (formatTime_shape a Ha) as [(Ha1 & Ha2 & ->)|[(Ha1 & Ha2 & ->)|(Ha1 & ->)]];
    destruct (formatTime_shape b Hb) as [(Hb1 & Hb2 & ->)|[(Hb1 & Hb2 & ->)|(Hb1 & ->)]];
    intros E.
  - apply split_at_char in E as [E1 E2]; auto.
    apply ofInt_inj in E1. injection E2 as E2.
    apply split_at_char in E2 as [E2 _]; auto. apply ofInt_inj in E2. lia.
  - apply split_at_char in E as [_ E2]; auto. discriminate E2.
  - apply (f_equal (JsString.contains "h")) in E.
    rewrite !contains_append, !Hh in E. simpl in E. discriminate E.
  - apply split_at_char in E as [_ E2]; auto. discriminate E2.
  - apply split_at_char in E as [E1 _]; auto. apply ofInt_inj in E1. lia.
  - apply (f_equal (JsString.contains "h")) in E.
    rewrite !contains_append, !Hh in E. simpl in E. discriminate E.
  - apply (f_equal (JsString.contains "h")) in E.
    rewrite !contains_append, !Hh in E. simpl in E. discriminate E.
  - apply (f_equal (JsString.contains "h")) in E.
    rewrite !contains_append, !Hh in E. simpl in E. discriminate E.
  - apply split_at_char in E as [E1 _]; auto. apply ofInt_inj in E1. lia.
Qed.

Lemma formatTime_tells_durations_apart_witness : 135 = 135.
Proof. apply (formatTime_tells_durations_apart 135 135); [lia | lia | reflexivity]. Defined.

(** X21: a negative number of minutes loses its hours: above -60 times
    anything, only the remainder is shown, so -90 and -30 both read
    "-30m".  (Non-negative ones never do, see X20.) *)
Theorem formatTime_drops_negative_hours :
  forall m : Z,
    m < 0 ->
    Utils.formatTime m = JsString.ofInt (Z.rem m 60) ++ "m"
    /\ Utils.formatTime m = Utils.formatTime (Z.rem m 60).
Proof.
  intros m Hm.
  assert (Hneg : forall x, x < 0 -> Utils.formatTime x = JsString.ofInt (Z.rem x 60) ++ "m").
  { intros x Hx. unfold Utils.formatTime. cbv zeta.
    destruct (Z.gtb_spec (x / 60) 0) as [Hh|_]; [|reflexivity].
    pose proof (Z.div_lt_upper_bound x 60 0 ltac:(lia) ltac:(lia)). lia. }
  split; [now apply Hneg|].
  rewrite (Hneg m Hm).
  assert (Hr : - 60 < Z.rem m 60 <= 0).
  { replace m with (- - m) by lia. rewrite Z.rem_opp_l by lia.
    pose proof (Z.rem_bound_pos (- m) 60 ltac:(lia) ltac:(lia)). lia. }
  destruct (Z.eq_dec (Z.rem m 60) 0) as [E|E].
  - rewrite E. reflexivity.
  - rewrite (Hneg (Z.rem m 60)) by lia. f_equal. f_equal.
    symmetry. apply Z.rem_small_iff; lia.
Qed.

Lemma formatTime_drops_negative_hours_witness :
  Utils.formatTime (-90) = "-30m" /\ Utils.formatTime (-90) = Utils.formatTime (-30).
Proof. apply (formatTime_drops_negative_hours (-90)). lia. Defined.

(** ** Counting and grouping *)

Lemma status_filter_lengths (ts : list Task) :
  (List.length (List.filter (fun t => String.eqb (status t) CONFIG.STATUS.COMPLETED) ts)
   + List.length (List.filter (fun t => String.eqb (status t) CONFIG.STATUS.NOT_COMPLETED) ts)
   + List.length (List.filter (fun t => String.eqb (status t) CONFIG.STATUS.APPROACHING) ts)
   + List.length (List.filter (fun t => String.eqb (status t) CONFIG.STATUS.MISSED) ts)
   + List.length (List.filter
       (fun t => negb (List.existsb (String.eqb (status t))
          [CONFIG.STATUS.COMPLETED; CONFIG.STATUS.NOT_COMPLETED;
           CONFIG.STATUS.APPROACHING; CONFIG.STATUS.MISSED])) ts)
   = List.length ts)%nat.
Proof.
  unfold CONFIG.STATUS.COMPLETED, CONFIG.STATUS.NOT_COMPLETED,
    CONFIG.STATUS.APPROACHING, CONFIG.STATUS.MISSED.
  induction ts as [|t ts IH]; [reflexivity|].
  cbn [List.filter List.existsb].
  destruct (String.eqb_spec (status t) "completed") as [Ec|_];
    [try rewrite Ec; simpl in *; lia|].
  destruct (String.eqb_spec (status t) "not-completed") as [En|_];
    [try rewrite En; simpl in *; lia|].
  destruct (String.eqb_spec (status t) "approaching") as [Ea|_];
    [try rewrite Ea; simpl in *; lia|].
  destruct (String.eqb_spec (status t) "missed") as [Em|_];
    [try rewrite Em; simpl in *; lia|].
  simpl in *. lia.
Qed.

(** X22: the four counts of [getTaskCounts] are non-negative and never
    add up to more than the total; what is missing from the total is
    exactly the number of tasks whose status is none of the four, so the
    counts add up to the total precisely when every task has one of the
    four statuses. *)
Theorem task_counts_add_up :
  forall w : World,
    let c := TaskManager.getTaskCounts w in
    let other :=
      Z.of_nat (List.length (List.filter
        (fun t => negb (List.existsb (String.eqb (status t))
           [CONFIG.STATUS.COMPLETED; CONFIG.STATUS.NOT_COMPLETED;
            CONFIG.STATUS.APPROACHING; CONFIG.STATUS.MISSED])) (tasks w))) in
    0 <= TaskManager.completed c /\ 0 <= TaskManager.notCompleted c
    /\ 0 <= TaskManager.approaching c /\ 0 <= TaskManager.missed c
    /\ TaskManager.completed c + TaskManager.notCompleted c
       + TaskManager.approaching c + TaskManager.missed c + other
       = TaskManager.total c
    /\ TaskManager.completed c + TaskManager.notCompleted c
       + TaskManager.approaching c + TaskManager.missed c <= TaskManager.total c.
Proof.
  intros w. cbv zeta. pose proof (status_filter_lengths (tasks w)) as H.
  unfold TaskManager.getTaskCounts, TaskManager.countStatus.
  cbn [TaskManager.completed TaskManager.notCompleted TaskManager.approaching
       TaskManager.missed TaskManager.total].
  repeat split; lia.
Qed.

Lemma dayLoad_of_day_view c (ts : list Task) :
  dayLoad c ts = activeMinutes (List.filter (fun t => String.eqb (day t) c) ts).
Proof.
  unfold dayLoad, activeMinutes, loadOn, TaskManager.onDayNotMissed.
  induction ts as [|t ts IH]; simpl; [reflexivity|].
  destruct (String.eqb (day t) c); simpl; rewrite IH;
    [destruct (String.eqb (status t) CONFIG.STATUS.MISSED); reflexivity | reflexivity].
Qed.

Lemma day_view_lengths (ts : list Task) :
  Forall (fun t => In (day t) CONFIG.DAYS) ts ->
  (List.length (List.filter (fun t => String.eqb (day t) "monday") ts)
   + (List.length (List.filter (fun t => String.eqb (day t) "tuesday") ts)
   + (List.length (List.filter (fun t => String.eqb (day t) "wednesday") ts)
   + (List.length (List.filter (fun t => String.eqb (day t) "thursday") ts)
   + (List.length (List.filter (fun t => String.eqb (day t) "friday") ts)
   + (List.length (List.filter (fun t => String.eqb (day t) "saturday") ts)
   + (List.length (List.filter (fun t => String.eqb (day t) "sunday") ts) + 0))))))
   = List.length ts)%nat.
Proof.
  induction 1 as [|t ts Ht _ IH]; [reflexivity|].
  cbn [List.filter]. simpl in Ht.
  repeat (destruct Ht as [<-|Ht]; [simpl in *; lia|]). destruct Ht.
Qed.

(** X23: the day views agree with each other and miss nothing: the load
    [calculateDayTime] reports for a day is the sum of the durations of
    the tasks [getTasksByDay] lists for it that are not missed, and when
    every stored task is on one of the seven days, the seven lists
    together hold as many tasks as the store. *)
Theorem day_views_are_consistent :
  forall w : World,
    (forall d : string,
        TaskManager.calculateDayTime d w = activeMinutes (TaskManager.getTasksByDay d w))
    /\ (Forall (fun t => In (day t) CONFIG.DAYS) (tasks w) ->
        List.fold_right
          (fun d acc => (List.length (TaskManager.getTasksByDay d w) + acc)%nat)
          0%nat CONFIG.DAYS
        = List.length (tasks w)).
Proof.
  intros w. split.
  - intros d. rewrite calculateDayTime_dayLoad. apply dayLoad_of_day_view.
  - intros Hdays. exact (day_view_lengths (tasks w) Hdays).
Qed.

Lemma day_views_are_consistent_witness :
  let a := mkTask "task_1_1" "Lecture" 120 "monday" "completed" "2026-11-02" in
  let b := mkTask "task_1_2" "Old" 45 "sunday" "missed" "2026-11-02" in
  List.fold_right
    (fun d acc => (List.length (TaskManager.getTasksByDay d (mkWorld [a; b] 100 "" 3 []))
                   + acc)%nat) 0%nat CONFIG.DAYS = 2%nat.
Proof.
  intros a b.
  apply (proj2 (day_views_are_consistent (mkWorld [a; b] 100 "" 3 []))).
  repeat constructor; simpl; tauto.
Defined.

(** ** The error log *)

Lemma logError_keeps_last_ten error isoNow (logs : list ErrorHandler.ErrorLog) :
  (List.length logs <= 10)%nat ->
  let entry := {| ErrorHandler.timestamp := isoNow;
                  ErrorHandler.type := ErrorHandler.JsError.name error;
                  ErrorHandler.message := ErrorHandler.JsError.message error;
                  ErrorHandler.stack := ErrorHandler.JsError.stack error |} in
  ErrorHandler.logError error isoNow logs
  = drop (List.length (logs ++ [entry]) - 10) (logs ++ [entry]).
Proof.
  intros Hlen entry. unfold ErrorHandler.logError. fold entry. cbv zeta.
  rewrite length_app. simpl List.length.
  destruct (Nat.ltb_spec 10 (List.length logs + 1)) as [Hfull|Hroom].
  - replace (List.length logs + 1 - 10)%nat with 1%nat by lia.
    destruct logs; [simpl in Hfull; lia | reflexivity].
  - replace (List.length logs + 1 - 10)%nat with 0%nat by lia. reflexivity.
Qed.

(** X24: [logError] keeps the ten most recent errors: starting from a log
    of at most ten entries, after any number of calls the log holds the
    last ten of all entries in the order they were logged, and never more
    than ten. *)
Theorem error_log_holds_last_ten :
  forall (errors : list (ErrorHandler.JsError.t * string)) (logs : list ErrorHandler.ErrorLog),
    (List.length logs <= 10)%nat ->
    let entries :=
      List.map (fun e => {| ErrorHandler.timestamp := snd e;
                            ErrorHandler.type := ErrorHandler.JsError.name (fst e);
                            ErrorHandler.message := ErrorHandler.JsError.message (fst e);
                            ErrorHandler.stack := ErrorHandler.JsError.stack (fst e) |}) errors in
    let final :=
      List.fold_left (fun acc e => ErrorHandler.logError (fst e) (snd e) acc) errors logs in
    final = drop (List.length (logs ++ entries) - 10) (logs ++ entries)
    /\ (List.length final <= 10)%nat.
Proof.
  induction errors as [|[error isoNow] errors IH]; intros logs Hlen; cbv zeta.
  - simpl. rewrite app_nil_r. replace (List.length logs - 10)%nat with 0%nat by lia.
    split; [reflexivity | exact Hlen].
  - simpl List.fold_left. simpl List.map. simpl fst. simpl snd.
    set (entry := {| ErrorHandler.timestamp := isoNow;
                     ErrorHandler.type := ErrorHandler.JsError.name error;
                     ErrorHandler.message := ErrorHandler.JsError.message error;
                     ErrorHandler.stack := ErrorHandler.JsError.stack error |}).
    pose proof (logError_keeps_last_ten error isoNow logs Hlen) as Hstep.
    cbv zeta in Hstep. fold entry in Hstep.
    assert (Hlen' : (List.length (ErrorHandler.logError error isoNow logs) <= 10)%nat).
    { rewrite Hstep, length_drop, length_app. simpl. lia. }
    destruct (IH _ Hlen') as [Hfinal Hbound]. cbv zeta in Hfinal, Hbound.
    split; [|exact Hbound].
    rewrite Hfinal, Hstep.
    set (rest := List.map _ errors).
    set (A := (logs ++ [entry])%list).
    assert (HA : (logs ++ entry :: rest)%list = (A ++ rest)%list)
      by (unfold A; rewrite <- app_assoc; reflexivity).
    assert (HlenA : List.length A = S (List.length logs))
      by (unfold A; rewrite length_app; simpl; lia).
    rewrite HA.
    rewrite <- (drop_app_le A rest (List.length A - 10)) by lia.
    rewrite drop_drop. f_equal.
    rewrite length_drop, !length_app. lia.
Qed.

Lemma error_log_holds_last_ten_witness :
  List.length
    (List.fold_left (fun acc e => ErrorHandler.logError (fst e) (snd e) acc)
       (List.repeat ({| ErrorHandler.JsError.name := "Error";
                        ErrorHandler.JsError.message := "Task not found";
                        ErrorHandler.JsError.stack := "" |}, "2026-11-03T10:00:00.000Z") 12) [])
  = 10%nat.
Proof.
  destruct (error_log_holds_last_ten
              (List.repeat ({| ErrorHandler.JsError.name := "Error";
                               ErrorHandler.JsError.message := "Task not found";
                               ErrorHandler.JsError.stack := "" |}, "2026-11-03T10:00:00.000Z") 12)
              [] ltac:(simpl; lia)) as [Hfinal _].
  cbv zeta in Hfinal. rewrite Hfinal. reflexivity.
Defined.

(** ** Clearing all data *)

(** X25: [AppStorage.reset] empties the task list, restores the default
    daily limit of 150 and restarts the identifier counter at 1, whatever
    the store held; and from there every sequence of operations whose
    [addTask] calls name days keeps the store invariant, the old
    identifiers being gone together with the old counter. *)
Theorem reset_starts_afresh :
  forall (w : World) (ops : list Op),
    addsNameDays ops ->
    tasks (AppStorage.reset w) = []
    /\ dailyLimit (AppStorage.reset w) = 150
    /\ IDGenerator.getCount (AppStorage.reset w) = 1
    /\ AppStorage.reset (AppStorage.reset w) = AppStorage.reset w
    /\ storeInvariant (performAll ops (AppStorage.reset w)).
Proof.
  intros w ops Hops. repeat split; try reflexivity.
  - apply (wellFormed_performAll ops (AppStorage.reset w) Hops). repeat split; constructor.
  - apply (wellFormed_performAll ops (AppStorage.reset w) Hops). repeat split; constructor.
Qed.

Lemma reset_starts_afresh_witness :
  let a := mkTask "task_5_1" "Old" 60 "funday" "not-completed" "2026-11-02" in
  storeInvariant
    (performAll [OpAdd "Essay" "90" "Friday" "not-completed" (mkClock 5 "2026-11-03")]
                (AppStorage.reset (mkWorld [a; a] 0 "monday" 2 [CannotBalance]))).
Proof.
  intros a.
  apply (reset_starts_afresh (mkWorld [a; a] 0 "monday" 2 [CannotBalance])).
  constructor; [simpl; tauto | constructor].
Defined.

(** ** The matcher and the language of a pattern *)

Lemma append_empty a b : a ++ b = EmptyString -> a = EmptyString /\ b = EmptyString.
Proof. destruct a; simpl; [now split | discriminate]. Qed.

Lemma append_cons a b c s :
  a ++ b = String c s ->
  (a = EmptyString /\ b = String c s) \/ (exists a', a = String c a' /\ s = a' ++ b).
Proof.
  destruct a as [|x a]; simpl; [now left|].
  intros [= -> <-]. right. now exists a.
Qed.

Lemma nullable_matches r : Regex.nullable r = true <-> matches r EmptyString.
Proof.
  split.
  - induction r; simpl; intros H; try discriminate H.
    + constructor.
    + apply andb_prop in H as [H1 H2].
      change EmptyString with (EmptyString ++ EmptyString). constructor; auto.
    + apply orb_prop in H as [H|H]; [apply matches_alt_l | apply matches_alt_r]; auto.
    + constructor.
  - intros H. remember EmptyString as e eqn:E.
    induction H; simpl; try reflexivity; try discriminate E.
    + apply append_empty in E as [-> ->]. now rewrite IHmatches1, IHmatches2.
    + now rewrite IHmatches.
    + rewrite IHmatches by assumption. apply orb_true_r.
Qed.

Lemma derive_matches_1 c r : forall s, matches (Regex.derive c r) s -> matches r (String c s).
Proof.
  induction r as [| |p|r1 IH1 r2 IH2|r1 IH1 r2 IH2|r IH]; simpl; intros s H.
  - inversion H.
  - inversion H.
  - destruct (p c) eqn:Hp; inversion H; subst. now constructor.
  - destruct (Regex.nullable r1) eqn:Hn.
    + inversion H as [| | |? ? ? H'|? ? ? H'| |]; subst.
      * inversion H' as [| |? ? a b Ha Hb| | | |]; subst.
        change (String c (a ++ b)) with (String c a ++ b). constructor; auto.
      * change (String c s) with (EmptyString ++ String c s).
        constructor; [now apply nullable_matches | auto].
    + inversion H as [| |? ? a b Ha Hb| | | |]; subst.
      change (String c (a ++ b)) with (String c a ++ b). constructor; auto.
  - inversion H; subst; [apply matches_alt_l | apply matches_alt_r]; auto.
  - inversion H as [| |? ? a b Ha Hb| | | |]; subst.
    change (String c (a ++ b)) with (String c a ++ b). constructor; auto.
Qed.

Lemma derive_matches_2 r s' :
  matches r s' -> forall c s, s' = String c s -> matches (Regex.derive c r) s.
Proof.
  induction 1 as [|p x Hp|r s a b Ha IHa Hb IHb|r s a Ha IHa|r s a Ha IHa|r
                  |r a b Ha IHa Hb IHb]; intros c t E; simpl.
  - discriminate E.
  - injection E as -> <-. rewrite Hp. constructor.
  - apply append_cons in E as [[-> ->]|(a' & -> & ->)].
    + apply nullable_matches in Ha. rewrite Ha. apply matches_alt_r. now apply IHb.
    + destruct (Regex.nullable r); [apply matches_alt_l|]; constructor; auto.
  - apply matches_alt_l. now apply IHa.
  - apply matches_alt_r. now apply IHa.
  - discriminate E.
  - apply append_cons in E as [[-> ->]|(a' & -> & ->)].
    + now apply IHb.
    + constructor; auto.
Qed.

(** [fullMatch] decides the language. *)
Lemma fullMatch_matches s : forall r, Regex.fullMatch r s = true <-> matches r s.
Proof.
  induction s as [|c s IH]; intros r; simpl.
  - apply nullable_matches.
  - rewrite IH. split; [apply derive_matches_1|].
    intros H. now apply (derive_matches_2 r (String c s)).
Qed.

Lemma allChars_append P a b : allChars P a -> allChars P b -> allChars P (a ++ b).
Proof. induction a as [|x a IH]; simpl; [auto|]. intros [Hx Ha] Hb. split; auto. Qed.

Lemma matches_allChars P r s : classesWithin P r -> matches r s -> allChars P s.
Proof.
  intros Hc H.
  induction H as [|p x Hp|r s a b Ha IHa Hb IHb|r s a Ha IHa|r s a Ha IHa|r
                  |r a b Ha IHa Hb IHb]; simpl in *.
  - exact I.
  - split; [now apply Hc | exact I].
  - destruct Hc. apply allChars_append; auto.
  - destruct Hc. auto.
  - destruct Hc. auto.
  - exact I.
  - apply allChars_append; auto.
Qed.

Lemma toLowerCase_append a b :
  JsString.toLowerCase (a ++ b) = JsString.toLowerCase a ++ JsString.toLowerCase b.
Proof. induction a as [|x a IH]; simpl; [reflexivity | now rewrite IH]. Qed.

Lemma matches_toLowerCase r s :
  classesKeep JsString.lowerChar r -> matches r s -> matches r (JsString.toLowerCase s).
Proof.
  intros Hc H.
  induction H as [|p x Hp|r s a b Ha IHa Hb IHb|r s a Ha IHa|r s a Ha IHa|r
                  |r a b Ha IHa Hb IHb]; simpl in *; try rewrite toLowerCase_append.
  - constructor.
  - constructor. now apply Hc.
  - destruct Hc. constructor; auto.
  - destruct Hc. apply matches_alt_l. auto.
  - destruct Hc. apply matches_alt_r. auto.
  - constructor.
  - constructor; auto.
Qed.

Lemma trimEnd_no_space s :
  allChars (fun c => JsString.isWhiteSpace c = false) s -> JsString.trimEnd s = s.
Proof.
  induction s as [|c r IH]; simpl; [reflexivity|]. intros [Hc Hr].
  rewrite (IH Hr). destruct r; [now rewrite Hc | reflexivity].
Qed.

Lemma trim_no_space s :
  allChars (fun c => JsString.isWhiteSpace c = false) s -> JsString.trim s = s.
Proof.
  intros H. unfold JsString.trim.
  assert (E : JsString.trimStart s = s) by (destruct s; simpl in *; [reflexivity | now rewrite (proj1 H)]).
  rewrite E. now apply trimEnd_no_space.
Qed.

(** ** The e-mail address and the password *)

Lemma emailRegex_no_space :
  classesWithin (fun c => JsString.isWhiteSpace c = false) Validator.emailRegex.
Proof.
  simpl. repeat split; intros c; destruct c as [[] [] [] [] [] [] [] []];
    intros H; try reflexivity; discriminate H.
Qed.

Lemma emailRegex_keeps_lowercase : classesKeep JsString.lowerChar Validator.emailRegex.
Proof.
  simpl. repeat split; intros c; destruct c as [[] [] [] [] [] [] [] []];
    intros H; try reflexivity; discriminate H.
Qed.

Lemma emailRegex_has_at s : matches Validator.emailRegex s -> JsString.contains "@" s = true.
Proof.
  unfold Validator.emailRegex. intros H.
  inversion H as [| |? ? a b _ Hb| | | |]; subst.
  inversion Hb as [| |? ? a' b' Ha' _| | | |]; subst.
  inversion Ha' as [|? c Hc| | | | |]; subst.
  unfold Regex.just in Hc. apply Ascii.eqb_eq in Hc. subst c.
  rewrite contains_append. simpl. apply orb_true_r.
Qed.

(** X26: an address [validateEmail] accepts is returned in lowercase and
    otherwise unchanged (it has no white space to trim, so its length is
    kept); it contains an at sign, and validating the returned value again
    accepts it and returns it unchanged. *)
Theorem validateEmail_normalizes_once :
  forall email value : string,
    Validator.validateEmail email = Valid value ->
    value = JsString.toLowerCase email
    /\ JsString.toLowerCase value = value
    /\ String.length value = String.length email
    /\ allChars (fun c => JsString.isWhiteSpace c = false) value
    /\ JsString.contains "@" value = true
    /\ Validator.validateEmail value = Valid value.
Proof.
  intros email value. unfold Validator.validateEmail.
  destruct (Regex.fullMatch Validator.emailRegex email) eqn:Hm; simpl; [|discriminate].
  intros [= <-]. apply fullMatch_matches in Hm.
  pose proof (matches_toLowerCase _ _ emailRegex_keeps_lowercase Hm) as Hlow.
  pose proof (matches_allChars _ _ _ emailRegex_no_space Hlow) as Hns.
  rewrite (trim_no_space _ Hns).
  assert (Hlen : forall s, String.length (JsString.toLowerCase s) = String.length s)
    by (induction s as [|c r IH]; simpl; [reflexivity | now rewrite IH]).
  split; [reflexivity|]. split; [apply toLowerCase_idem|]. split; [apply Hlen|].
  split; [exact Hns|]. split; [now apply emailRegex_has_at|].
  apply fullMatch_matches in Hlow. rewrite Hlow. simpl.
  now rewrite toLowerCase_idem, (trim_no_space _ Hns).
Qed.

Lemma validateEmail_normalizes_once_witness :
  "jane.doe@example.com" = JsString.toLowerCase "Jane.Doe@Example.COM"
  /\ Validator.validateEmail "jane.doe@example.com" = Valid "jane.doe@example.com".
Proof.
  destruct (validateEmail_normalizes_once "Jane.Doe@Example.COM" "jane.doe@example.com" eq_refl)
    as (H1 & _ & _ & _ & _ & H2).
  now split.
Defined.

Lemma lowerChar_not_upper c : Regex.upper (JsString.lowerChar c) = false.
Proof. destruct c as [[] [] [] [] [] [] [] []]; reflexivity. Qed.

Lemma search_upper_lowercase s : Regex.search Regex.upper (JsString.toLowerCase s) = false.
Proof. induction s as [|c r IH]; simpl; [reflexivity|]. now rewrite lowerChar_not_upper, IH. Qed.

(** X27: a password [validatePassword] accepts is returned unchanged,
    has at least 8 code units and differs from its own lowercase form; no
    string in lowercase is ever accepted. *)
Theorem validatePassword_needs_a_capital :
  (forall password value : string,
      Validator.validatePassword password = Valid value ->
      value = password
      /\ 8 <= JsString.length password
      /\ JsString.toLowerCase password <> password)
  /\ (forall password : string,
        exists e, Validator.validatePassword (JsString.toLowerCase password) = Invalid e).
Proof.
  split.
  - intros password value. unfold Validator.validatePassword.
    destruct (String.eqb password "" || (JsString.length password <? 8)) eqn:Hshort;
      [discriminate|].
    cbv zeta.
    destruct (Regex.search Regex.upper password) eqn:Hup; simpl; [|discriminate].
    destruct (Regex.search Regex.digit password); simpl; [|discriminate].
    intros [= <-]. split; [reflexivity|].
    apply orb_false_elim in Hshort as [_ Hlen]. apply Z.ltb_ge in Hlen.
    split; [exact Hlen|].
    intros E. rewrite <- E, search_upper_lowercase in Hup. discriminate Hup.
  - intros password. unfold Validator.validatePassword.
    destruct (String.eqb _ "" || _); [eauto|].
    cbv zeta. rewrite search_upper_lowercase. simpl. eauto.
Qed.

Lemma validatePassword_needs_a_capital_witness :
  "Weekly7days" = "Weekly7days" /\ 8 <= JsString.length "Weekly7days"
  /\ JsString.toLowerCase "Weekly7days" <> "Weekly7days".
Proof. apply (proj1 validatePassword_needs_a_capital "Weekly7days" "Weekly7days"). reflexivity. Defined.

(** ** Which titles count as markup *)

Lemma contains_split ch s :
  JsString.contains ch s = true -> exists b c, s = b ++ String ch c.
Proof.
  induction s as [|x s IH]; simpl; [discriminate|].
  destruct (Ascii.eqb_spec x ch) as [->|_].
  - intros _. now exists EmptyString, s.
  - intros H. destruct (IH H) as (b & c & ->). now exists (String x b), c.
Qed.

(** X28: [validateTaskTitle] takes a title for markup exactly when some
    less-than sign in it is followed, anywhere later, by a greater-than
    sign; a lone "<", a lone ">" or a ">" before a "<" pass the test. *)
Theorem tag_test_means_less_than_before_greater_than :
  forall s : string,
    Validator.htmlRegex_test s = true
    <-> exists a b c : string, s = a ++ String "<" (b ++ String ">" c).
Proof.
  intros s. split.
  - induction s as [|x s IH]; simpl; [discriminate|].
    destruct (Ascii.eqb_spec x "<") as [->|_].
    + intros H. apply orb_prop in H as [H|H].
      * destruct (contains_split _ _ H) as (b & c & ->). now exists EmptyString, b, c.
      * destruct (IH H) as (a & b & c & ->). now exists (String "<" a), b, c.
    + intros H. destruct (IH H) as (a & b & c & ->). now exists (String x a), b, c.
  - intros (a & b & c & ->). induction a as [|x a IH].
    + simpl. rewrite contains_append. simpl. now rewrite orb_true_r.
    + simpl. destruct (Ascii.eqb x "<"); [rewrite IH; apply orb_true_r | exact IH].
Qed.

Lemma tag_test_means_less_than_before_greater_than_witness :
  Validator.htmlRegex_test "x <b> y" = true.
Proof.
  apply (proj2 (tag_test_means_less_than_before_greater_than "x <b> y")).
  exists "x ", "b", " y". reflexivity.
Defined.

(** ** Setting a status repeatedly *)

Lemma findRef_related {A} (p : A -> bool) (R : A -> A -> Prop) (l l' : list A) :
  (forall x y, R x y -> p y = p x) ->
  Forall2 R l l' ->
  forall i x, findRef p l = Some (i, x) ->
  exists x', findRef p l' = Some (i, x') /\ l' !! i = Some x' /\ R x x'.
Proof.
  intros Hp. induction 1 as [|y y' l l' Hy _ IH]; intros i x; simpl; [discriminate|].
  rewrite (Hp _ _ Hy). destruct (p y) eqn:Hpy.
  - intros [= <- <-]. exists y'. now repeat split.
  - destruct (findRef p l) as [[j z]|]; [|discriminate].
    intros [= <- <-]. destruct (IH j z eq_refl) as (x' & -> & Hl & Hr).
    exists x'. now repeat split.
Qed.

Lemma findRef_set_status p s (l : list Task) i t :
  (forall x, p (set_status s x) = p x) ->
  findRef p l = Some (i, t) ->
  findRef p (alter (set_status s) i l) = Some (i, set_status s t).
Proof.
  intros Hp Hfind.
  assert (HR : Forall2 (fun x y => y = x \/ y = set_status s x) l (alter (set_status s) i l)).
  { apply Forall2_alter_r.
    - apply Forall_Forall2_diag, List.Forall_forall. intros x _. now left.
    - intros x y _ _ [->| ->]; now right. }
  assert (HpR : forall x y, (y = x \/ y = set_status s x) -> p y = p x)
    by (intros x y [->| ->]; [reflexivity | apply Hp]).
  destruct (findRef_related p _ l _ HpR HR i t Hfind) as (x' & Hf & Hl & _).
  apply findRef_Some in Hfind as [Hl0 _].
  rewrite list_lookup_alter_eq, Hl0 in Hl. simpl in Hl. injection Hl as <-. exact Hf.
Qed.

(** X29: setting a status other than missed is idempotent: a second
    [updateStatus] with the same identifier and status returns true and
    leaves the world as the first one left it. *)
Theorem updateStatus_twice_is_updateStatus_once :
  forall (taskId newStatus : string) (clk clk' : Clock) (w w' : World),
    newStatus <> CONFIG.STATUS.MISSED ->
    TaskManager.updateStatus taskId newStatus clk w = (Returned true, w') ->
    TaskManager.updateStatus taskId newStatus clk' w' = (Returned true, w').
Proof.
  intros taskId newStatus clk clk' w w' Hns. apply String.eqb_neq in Hns.
  assert (Hplain : forall w0 i t,
            findRef (fun x => String.eqb (id x) taskId) (tasks w0) = Some (i, t) ->
            TaskManager.updateStatus taskId newStatus clk w0
            = (Returned true, with_tasks (alter (set_status newStatus) i (tasks w0)) w0)
            /\ TaskManager.updateStatus taskId newStatus clk' w0
               = (Returned true, with_tasks (alter (set_status newStatus) i (tasks w0)) w0)).
  { intros w0 i t Hf. unfold TaskManager.updateStatus.
    now rewrite Hf, Hns, andb_false_r. }
  destruct (findRef (fun x => String.eqb (id x) taskId) (tasks w)) as [[i t]|] eqn:Hfind.
  - rewrite (proj1 (Hplain w i t Hfind)). intros [= <-].
    pose proof (findRef_set_status (fun x => String.eqb (id x) taskId) newStatus
                  (tasks w) i t (fun x => eq_refl) Hfind) as Hfind'.
    rewrite (proj2 (Hplain (with_tasks (alter (set_status newStatus) i (tasks w)) w)
                      i (set_status newStatus t) Hfind')). f_equal.
    unfold with_tasks. simpl. f_equal.
    rewrite list_alter_alter_eq. apply list_alter_ext; [|reflexivity].
    intros x _. reflexivity.
  - unfold TaskManager.updateStatus. rewrite Hfind. discriminate.
Qed.

Lemma updateStatus_twice_is_updateStatus_once_witness :
  let a := mkTask "task_1_1" "Essay" 100 "wednesday" "not-completed" "2026-11-02" in
  let a' := mkTask "task_1_1" "Essay" 100 "wednesday" "completed" "2026-11-02" in
  TaskManager.updateStatus "task_1_1" "completed" (mkClock 9 "2026-11-04")
    (mkWorld [a'] 150 "" 2 [])
  = (Returned true, mkWorld [a'] 150 "" 2 []).
Proof.
  intros a a'.
  apply (updateStatus_twice_is_updateStatus_once "task_1_1" "completed"
           (mkClock 8 "2026-11-03") (mkClock 9 "2026-11-04") (mkWorld [a] 150 "" 2 []));
    [discriminate | reflexivity].
Defined.

Lemma findRef_app_l {A} (p : A -> bool) (l k : list A) r :
  findRef p l = Some r -> findRef p (l ++ k) = Some r.
Proof.
  induction l as [|x l IH] in r |- *; simpl; [discriminate|].
  destruct (p x); [auto|].
  destruct (findRef p l) as [[j z]|]; [|discriminate].
  intros [= <-]. now rewrite (IH _ eq_refl).
Qed.

Lemma relocated_id t t' : relocated t t' -> id t' = id t.
Proof. intros [->|(_ & d & _ & ->)]; reflexivity. Qed.

Lemma missed_step taskId clk w i t :
  findRef (fun x => String.eqb (id x) taskId) (tasks w) = Some (i, t) ->
  status t <> CONFIG.STATUS.COMPLETED ->
  findRef (fun x => String.eqb (id x) taskId)
    (tasks (after (TaskManager.updateStatus taskId CONFIG.STATUS.MISSED clk) w))
  = Some (i, set_status CONFIG.STATUS.MISSED t)
  /\ List.length (tasks (after (TaskManager.updateStatus taskId CONFIG.STATUS.MISSED clk) w))
     = S (List.length (tasks w))
  /\ counter (after (TaskManager.updateStatus taskId CONFIG.STATUS.MISSED clk) w)
     = counter w + 1.
Proof.
  intros Hfind Hst.
  set (w1 := with_tasks (alter (set_status CONFIG.STATUS.MISSED) i (tasks w)) w).
  destruct (rescheduleTask_returns (set_status CONFIG.STATUS.MISSED t) clk w1)
    as (target & name & _ & _ & Hres).
  assert (Hafter : after (TaskManager.updateStatus taskId CONFIG.STATUS.MISSED clk) w
                   = snd (TaskManager.rescheduleTask (set_status CONFIG.STATUS.MISSED t) clk w1)).
  { unfold after, TaskManager.updateStatus. rewrite Hfind.
    apply String.eqb_neq in Hst. rewrite Hst. simpl andb. cbv iota.
    change (String.eqb CONFIG.STATUS.MISSED CONFIG.STATUS.MISSED) with true. cbv iota.
    fold w1. now rewrite Hres. }
  rewrite Hafter, Hres. simpl snd.
  match goal with |- context [TaskManager.autoBalance target ?x] => set (ins := x) in * end.
  change (tasks (showSuccess (RescheduledTo name) (TaskManager.autoBalance target ins)))
    with (tasks (TaskManager.autoBalance target ins)).
  change (counter (showSuccess (RescheduledTo name) (TaskManager.autoBalance target ins)))
    with (counter (TaskManager.autoBalance target ins)).
  pose proof (autoBalance_relocated target ins) as Hrel.
  destruct (autoBalance_effect target ins) as (_ & _ & Hcnt & _).
  assert (Hins : findRef (fun x => String.eqb (id x) taskId) (tasks ins)
                 = Some (i, set_status CONFIG.STATUS.MISSED t)).
  { unfold ins, push. simpl tasks. apply findRef_app_l.
    now apply (findRef_set_status (fun x => String.eqb (id x) taskId)). }
  split; [|split].
  - assert (Hp : forall x y, relocated x y -> String.eqb (id y) taskId = String.eqb (id x) taskId)
      by (intros x y Hr; now rewrite (relocated_id _ _ Hr)).
    destruct (findRef_related (fun x => String.eqb (id x) taskId) relocated _ _ Hp Hrel _ _ Hins)
      as (x' & Hf & _ & Hr).
    rewrite Hf. f_equal. f_equal.
    apply (relocated_keeps_other_status _ _ Hr). discriminate.
  - apply Forall2_length in Hrel. rewrite <- Hrel. unfold ins, push. simpl tasks.
    rewrite length_app, length_alter. simpl. lia.
  - rewrite Hcnt. reflexivity.
Qed.

(** X30: marking a task as missed again and again reschedules it every
    time: after n calls on a task that was not completed, the store holds
    n tasks more and the counter is n higher.  Nothing bounds the growth. *)
Theorem repeated_missed_spawns_a_copy_each_time :
  forall (clks : list Clock) (taskId : string) (w : World) (i : nat) (t : Task),
    findRef (fun x => String.eqb (id x) taskId) (tasks w) = Some (i, t) ->
    status t <> CONFIG.STATUS.COMPLETED ->
    let w' :=
      List.fold_left
        (fun acc clk => after (TaskManager.updateStatus taskId CONFIG.STATUS.MISSED clk) acc)
        clks w in
    List.length (tasks w') = (List.length (tasks w) + List.length clks)%nat
    /\ counter w' = counter w + Z.of_nat (List.length clks).
Proof.
  induction clks as [|clk clks IH]; intros taskId w i t Hfind Hst; cbv zeta.
  - simpl. split; lia.
  - simpl List.fold_left.
    destruct (missed_step taskId clk w i t Hfind Hst) as (Hfind' & Hlen & Hcnt).
    destruct (IH taskId _ i _ Hfind' ltac:(discriminate)) as [Hl Hc]. cbv zeta in Hl, Hc.
    rewrite Hl, Hc, Hlen, Hcnt. simpl List.length. split; lia.
Qed.

Lemma repeated_missed_spawns_a_copy_each_time_witness :
  let a := mkTask "task_1_1" "Essay" 100 "wednesday" "not-completed" "2026-11-02" in
  List.length
    (tasks (List.fold_left
              (fun acc clk => after (TaskManager.updateStatus "task_1_1" "missed" clk) acc)
              [mkClock 7 "2026-11-03"; mkClock 8 "2026-11-03"; mkClock 9 "2026-11-03"]
              (mkWorld [a] 150 "" 2 [])))
  = 4%nat.
Proof.
  intros a.
  apply (proj1 (repeated_missed_spawns_a_copy_each_time
                  [mkClock 7 "2026-11-03"; mkClock 8 "2026-11-03"; mkClock 9 "2026-11-03"]
                  "task_1_1" (mkWorld [a] 150 "" 2 []) 0 a eq_refl ltac:(discriminate))).
Defined.
